(** * WifiObserver: discovery and classification engine

    A shallow embedding of the three Python modules that carry the
    algorithmic content of the repository,

    - [src/network_classifier.py]  (module [Classifier]),
    - [src/signal_analyzer.py]     (modules [NumPy], [Analyzer] and
                                    [SignalTracker]),
    - [src/wifi_scanner.py]        (module [Scanner]),

    followed by the properties proved about them.

    Conventions of the embedding.
    - Python [int] is [Z].  The classifier's confidence, a quotient of small
      integers, is an exact rational [Q].  The statistics of the analyzer
      are binary64 values, as numpy computes them ([Float64], [NumPy]); the
      module [ExactAnalyzer] holds the same analysis in exact arithmetic.
    - Python [str] is [string]; [str.upper] is modelled on ASCII letters.
    - A [dict] with a fixed key set read by [.get] is a record of options; a
      [dict] keyed by station address is a [gmap string _]; a [set] of
      station addresses is a [gset string].
    - [time.time()] readings are inputs of the step functions.
    - A scapy packet is represented by the values the accessor functions
      extract from it. *)

From Stdlib Require Import ZArith QArith Qminmax Qreals Reals List String Ascii Bool.
From Stdlib Require Import Lia Lqa Lra Qround DecimalString.
From stdpp Require Import gmap strings.
From Stdlib Require Floats.
Import ListNotations.

Local Open Scope string_scope.
Local Open Scope Z_scope.

(* ===================================================================== *)
(** ** Python string operations used by the sources *)
(* ===================================================================== *)

Module PyStr.

(** [c.upper()] for one character (ASCII letters only). *)
Definition upper_ascii (c : ascii) : ascii :=
  let n := N_of_ascii c in
  if ((97 <=? n) && (n <=? 122))%N then ascii_of_N (n - 32) else c.

(** [s.upper()] *)
Fixpoint upper (s : string) : string :=
  match s with
  | EmptyString => EmptyString
  | String c s' => String (upper_ascii c) (upper s')
  end.

(** [pattern in s]: [pattern] occurs in [s] as a contiguous substring. *)
Fixpoint contains (pattern s : string) : bool :=
  String.prefix pattern s
  || match s with
     | EmptyString => false
     | String _ s' => contains pattern s'
     end.

(** [any(pattern in s for pattern in patterns)] *)
Definition any_in (patterns : list string) (s : string) : bool :=
  existsb (fun pattern => contains pattern s) patterns.

End PyStr.

(* ===================================================================== *)
(** ** network_classifier.py *)
(* ===================================================================== *)

Module Classifier.

(** The keys of the [scores] dictionary. *)
Inductive network_type : Set :=
  | POSSIBLE_OFFICIAL
  | ENTERPRISE
  | MOBILE_HOTSPOT
  | PUBLIC
  | IOT
  | ISP_PROVIDED
  | STANDARD.

#[global] Instance network_type_eq_dec : EqDecision network_type.
Proof. solve_decision. Defined.

(** The keys of [MANUFACTURER_TYPES]. *)
Inductive mfg_type : Set :=
  | GOVERNMENT
  | MFG_ENTERPRISE
  | CONSUMER
  | MOBILE
  | MFG_IOT.

(** [NETWORK_TYPES]: per type, its ["ssid_patterns"], in dictionary order. *)
Definition NETWORK_TYPES : list (network_type * list string) :=
  [ (POSSIBLE_OFFICIAL,
      ["FBI"; "GOV"; "POLICE"; "FED"; "MIL"; "DOD"; "SECURE";
       "AGENCY"; "OFFICIAL"; "LEO"; "DHS"; "EMERGENCY"; "EMERG"]);
    (ENTERPRISE,
      ["CORP"; "ENTERPRISE"; "STAFF"; "EMPLOYEE"; "CORPORATE";
       "OFFICE"; "BUSINESS"; "COMPANY"; "INC"; "LLC"; "LTD"]);
    (MOBILE_HOTSPOT,
      ["IPHONE"; "ANDROID"; "GALAXY"; "MOBILE"; "HOTSPOT";
       "MiFi"; "PHONE"; "POCKET"; "SAMSUNG"; "HUAWEI"; "USB"]);
    (PUBLIC,
      ["PUBLIC"; "GUEST"; "FREE"; "WIFI"; "AIRPORT"; "HOTEL";
       "CAFE"; "RESTAURANT"; "OPEN"; "LIBRARY"; "STORE"]);
    (IOT,
      ["CAM"; "CAMERA"; "RING"; "NEST"; "SMART"; "HOME";
       "DEVICE"; "SENSOR"; "THERMOSTAT"; "BULB"; "TV"; "ROKU"]);
    (ISP_PROVIDED,
      ["XFINITY"; "COMCAST"; "SPECTRUM"; "ATT"; "VERIZON";
       "FIOS"; "OPTIMUM"; "COX"; "CENTURYLINK"; "FRONTIER"; "ROUTER"]) ].

(** [MANUFACTURER_TYPES], in dictionary order. *)
Definition MANUFACTURER_TYPES : list (mfg_type * list string) :=
  [ (GOVERNMENT, ["HARRIS"; "GENERAL DYNAMICS"; "NORTHROP"; "LOCKHEED"; "RAYTHEON"]);
    (MFG_ENTERPRISE, ["CISCO"; "ARUBA"; "JUNIPER"; "EXTREME"; "FORTINET"; "RUCKUS"]);
    (CONSUMER, ["NETGEAR"; "LINKSYS"; "TP-LINK"; "D-LINK"; "BELKIN"; "ASUS"]);
    (MOBILE, ["APPLE"; "SAMSUNG"; "GOOGLE"; "HUAWEI"; "XIAOMI"; "MOTOROLA"; "HTC"]);
    (MFG_IOT, ["NEST"; "RING"; "ECOBEE"; "WYZE"; "SONOS"; "ROKU"; "AMAZON"]) ].

(** The [network_data] dictionary as [classify_network] reads it: every key
    is fetched with [.get], so each may be absent. *)
Record network_data : Type := {
  nd_ssid : option string;
  nd_encryption : option string;
  nd_hidden : option bool;
  nd_manufacturer : option string;
  nd_signal : option Z
}.

(** The [scores] dictionary: its key set is fixed, so it is a total map. *)
Definition scores_t : Type := network_type -> Z.

(** [scores = {"POSSIBLE_OFFICIAL": 0, ..., "STANDARD": 0}] *)
Definition scores_init : scores_t := fun _ => 0.

(** Key order of the [scores] literal, which [.values()] and [.items()]
    follow. *)
Definition score_keys : list network_type :=
  [POSSIBLE_OFFICIAL; ENTERPRISE; MOBILE_HOTSPOT; PUBLIC; IOT; ISP_PROVIDED; STANDARD].

(** [scores[k] += n] *)
Definition add_score (k : network_type) (n : Z) (scores : scores_t) : scores_t :=
  fun t => if decide (t = k) then scores t + n else scores t.

(** [# Check for hidden network] *)
Definition check_hidden (hidden : bool) (scores : scores_t) : scores_t :=
  if hidden
  then add_score ENTERPRISE 2 (add_score POSSIBLE_OFFICIAL 3 scores)
  else scores.

(** [# Check for strong encryption] *)
Definition check_encryption (encryption : string) (scores : scores_t) : scores_t :=
  if String.eqb encryption "WPA2/WPA3"
  then add_score ISP_PROVIDED 1
         (add_score ENTERPRISE 2 (add_score POSSIBLE_OFFICIAL 2 scores))
  else if String.eqb encryption "Open"
  then add_score PUBLIC 3 scores
  else scores.

(** The inner loop [for pattern in type_data["ssid_patterns"]]. *)
Definition check_patterns (ssid : string) (network_type : network_type)
    (patterns : list string) (scores : scores_t) : scores_t :=
  fold_left
    (fun scores pattern =>
       if PyStr.contains pattern ssid then add_score network_type 4 scores else scores)
    patterns scores.

(** [# Check SSID patterns] *)
Definition check_ssid_patterns (ssid : string) (scores : scores_t) : scores_t :=
  fold_left
    (fun scores '(network_type, patterns) =>
       check_patterns ssid network_type patterns scores)
    NETWORK_TYPES scores.

(** The [if mfg_type == ...] chain executed for one matching manufacturer. *)
Definition mfg_hit (mfg_type : mfg_type) (scores : scores_t) : scores_t :=
  match mfg_type with
  | GOVERNMENT => add_score POSSIBLE_OFFICIAL 4 scores
  | MFG_ENTERPRISE => add_score ENTERPRISE 3 scores
  | CONSUMER => add_score ISP_PROVIDED 1 (add_score STANDARD 2 scores)
  | MOBILE => add_score MOBILE_HOTSPOT 4 scores
  | MFG_IOT => add_score IOT 4 scores
  end.

(** The inner loop [for mfg in mfg_list]. *)
Definition check_mfg_list (manufacturer : string) (mfg_type : mfg_type)
    (mfg_list : list string) (scores : scores_t) : scores_t :=
  fold_left
    (fun scores mfg =>
       if PyStr.contains mfg manufacturer then mfg_hit mfg_type scores else scores)
    mfg_list scores.

(** [# Check manufacturer] *)
Definition check_manufacturer (manufacturer : string) (scores : scores_t) : scores_t :=
  fold_left
    (fun scores '(mfg_type, mfg_list) =>
       check_mfg_list manufacturer mfg_type mfg_list scores)
    MANUFACTURER_TYPES scores.

(** [# Signal strength heuristics] *)
Definition check_signal (signal : Z) (scores : scores_t) : scores_t :=
  if -40 <? signal
  then add_score ISP_PROVIDED 1 (add_score STANDARD 1 scores)
  else if signal <? -80
  then add_score MOBILE_HOTSPOT 1 scores
  else scores.

(** Lines 81-138 of [classify_network]: the scores after all evidence has
    been accumulated. *)
Definition accumulate (nd : network_data) : scores_t :=
  let ssid := PyStr.upper (default "" (nd_ssid nd)) in
  let encryption := default "Unknown" (nd_encryption nd) in
  let hidden := default false (nd_hidden nd) in
  let manufacturer := PyStr.upper (default "Unknown" (nd_manufacturer nd)) in
  let signal := default (-100) (nd_signal nd) in
  check_signal signal
    (check_manufacturer manufacturer
       (check_ssid_patterns ssid
          (check_encryption encryption
             (check_hidden hidden scores_init)))).

(** [scores.items()] *)
Definition items (scores : scores_t) : list (network_type * Z) :=
  map (fun t => (t, scores t)) score_keys.

(** [max(scores.values())] *)
Definition max_of (scores : scores_t) : Z :=
  match map snd (items scores) with
  | [] => 0
  | v :: vs => fold_left Z.max vs v
  end.

(** [[t for t, s in scores.items() if s == max_score]] *)
Definition candidates_of (scores : scores_t) (max_score : Z) : list network_type :=
  map fst (List.filter (fun '(_, s) => s =? max_score) (items scores)).

(** The [priorities] list of the tie branch. *)
Definition priorities : list network_type :=
  [POSSIBLE_OFFICIAL; ENTERPRISE; MOBILE_HOTSPOT; PUBLIC; IOT; ISP_PROVIDED; STANDARD].

(** [p in candidates] *)
Definition mem (p : network_type) (candidates : list network_type) : bool :=
  existsb (fun c => bool_decide (p = c)) candidates.

(** Lines 140-161 of [classify_network]: from the scores to the result. *)
Definition resolve (scores : scores_t) : network_type * Q :=
  let max_score := max_of scores in
  if max_score =? 0 then (STANDARD, 0%Q)
  else
    let candidates := candidates_of scores max_score in
    match candidates with
    | [c] => (c, Qmin 1 (inject_Z max_score / 10))
    | _ =>
        match find (fun p => mem p candidates) priorities with
        | Some p => (p, Qmin (7 # 10) (inject_Z max_score / 10))
        | None => (STANDARD, 0%Q)
        end
    end.

(** [classify_network(network_data)] *)
Definition classify_network (nd : network_data) : network_type * Q :=
  resolve (accumulate nd).

End Classifier.

(* ===================================================================== *)
(** ** Captured frames *)
(* ===================================================================== *)

Module Dot11.

(** A captured scapy packet, represented by what the sources read from it:
    the two [haslayer] tests, [packet[Dot11].addr2], the decoded
    [packet[Dot11Elt].info] ([None] when [.decode("utf-8")] raises), the
    outcome of the two readers [get_channel(packet)] and
    [get_encryption(packet)], the radiotap attribute [dBm_AntSignal] when the
    packet has it, and the answer of the vendor lookup
    [MacParser().get_manuf(addr2)] ([None] when it finds nothing or raises).

    The readers walk the element chain of the frame and raise when the
    packet has no element layer or when the walk runs into a layer that is
    not an element: [readers_raise] tells that one of them raises on this
    packet, and [elt_channel] and [cap_encryption] are the values they
    return when none does. *)
Record packet : Type := {
  has_Dot11Beacon : bool;
  has_Dot11ProbeResp : bool;
  addr2 : string;
  info : option string;
  readers_raise : bool;
  elt_channel : Z;
  cap_encryption : string;
  dBm_AntSignal : option Z;
  manuf : option string
}.

(** [get_signal_strength(packet)], identical in both modules. *)
Definition get_signal_strength (packet : packet) : Z :=
  match dBm_AntSignal packet with
  | Some s => s
  | None => -100
  end.

End Dot11.

(* ===================================================================== *)
(** ** binary64 numbers *)
(* ===================================================================== *)

Module Float64.
Import PrimFloat.

(** The binary64 image of an integer of at most 63 bits. *)
Definition of_Z (z : Z) : float :=
  if z <? 0 then opp (of_uint63 (Uint63.of_Z (- z)))
  else of_uint63 (Uint63.of_Z z).

(** [x < y] *)
Definition lt (x y : float) : Prop := ltb x y = true.

(** [x - y > k] for an integer literal [k]. *)
Definition exceeds (x y : float) (k : Z) : Prop := ltb (of_Z k) (sub x y) = true.

(** The rational number a finite binary64 value stands for. *)
Definition to_Q (x : float) : option Q :=
  match FloatOps.Prim2SF x with
  | SpecFloat.S754_zero _ => Some 0%Q
  | SpecFloat.S754_finite s m e =>
      Some (inject_Z (SpecFloat.cond_Zopp s (Z.pos m)) * Qpower 2 e)%Q
  | SpecFloat.S754_infinity _ | SpecFloat.S754_nan => None
  end.

(** The specification value is a zero, is not a number, or has the sign
    [s]. *)
Definition signed (s : bool) (f : SpecFloat.spec_float) : Prop :=
  match f with
  | SpecFloat.S754_zero _ | SpecFloat.S754_nan => True
  | SpecFloat.S754_infinity s' | SpecFloat.S754_finite s' _ _ => s' = s
  end.

(** The value is finite and within [eps] of the rational [q]. *)
Definition near (x : float) (q eps : Q) : Prop :=
  exists v, to_Q x = Some v /\ (q - eps <= v)%Q /\ (v <= q + eps)%Q.

End Float64.

(* ===================================================================== *)
(** ** numpy: mean and standard deviation of a list of integers *)
(* ===================================================================== *)

Module NumPy.
Import PrimFloat Float64.

Definition sumZ (vs : list Z) : Z := fold_right Z.add 0 vs.

(** The signal values fit 32 bits and there are at most [2^20] of them.
    numpy then adds their binary64 images without rounding, in whatever
    order: every partial sum is an integer below [2^53]. *)
Definition exactly_summed (vs : list Z) : Prop :=
  Forall (fun v => - 2 ^ 31 <= v < 2 ^ 31) vs
  /\ Z.of_nat (length vs) <= 2 ^ 20.

(** [np.mean(vs)] for exactly summed integers: the sum, divided by the
    count and rounded once. *)
Definition mean (vs : list Z) : float :=
  div (of_Z (sumZ vs)) (of_Z (Z.of_nat (length vs))).

(** [res += a[i]] over [a]. *)
Definition accumulate (res : float) (a : list float) : float :=
  fold_left add a res.

(** [r[j] += a[i + j]] for the eight accumulators. *)
Fixpoint add_block (r a : list float) : list float :=
  match r, a with
  | x :: r', y :: a' => add x y :: add_block r' a'
  | _, _ => r
  end.

(** The loop over the whole blocks of eight that follow the first one: the
    accumulators and the elements left over. *)
Fixpoint blocks (fuel : nat) (r a : list float) : list float * list float :=
  match fuel with
  | O => (r, a)
  | S fuel' =>
      if (8 <=? length a)%nat
      then blocks fuel' (add_block r (firstn 8 a)) (skipn 8 a)
      else (r, a)
  end.

(** The branch of the pairwise sum for 8 to 128 elements. *)
Definition block_sum (a : list float) : float :=
  let '(r, rest) := blocks (length a) (firstn 8 a) (skipn 8 a) in
  match r with
  | [r0; r1; r2; r3; r4; r5; r6; r7] =>
      accumulate
        (add (add (add r0 r1) (add r2 r3)) (add (add r4 r5) (add r6 r7)))
        rest
  | _ => zero
  end.

(** numpy's pairwise summation of a contiguous array of doubles: a plain
    loop below 8 elements, eight accumulators up to 128 elements, and two
    halves above, the first one a multiple of 8 long.  [fuel] bounds the
    depth of the halving. *)
Fixpoint pairwise_sum (fuel : nat) (a : list float) : float :=
  let n := length a in
  if (n <? 8)%nat then accumulate (opp zero) a
  else if (n <=? 128)%nat then block_sum a
  else
    match fuel with
    | O => zero
    | S fuel' =>
        let n2 := (n / 2)%nat in
        let n2 := (n2 - n2 mod 8)%nat in
        add (pairwise_sum fuel' (firstn n2 a)) (pairwise_sum fuel' (skipn n2 a))
    end.

(** [np.add.reduce(a)]: the identity plus the pairwise sum. *)
Definition sum (a : list float) : float :=
  add zero (pairwise_sum (length a) a).

(** [np.std(vs)] for exactly summed integers: the deviations from the
    rounded mean, their squares, the sum of the squares, its quotient by the
    count and the square root, each rounded. *)
Definition std (vs : list Z) : float :=
  let arrmean := mean vs in
  let x := map (fun v => let d := sub (of_Z v) arrmean in mul d d) vs in
  sqrt (div (sum x) (of_Z (Z.of_nat (length vs)))).

End NumPy.

(* ===================================================================== *)
(** ** signal_analyzer.py: the stability analysis *)
(* ===================================================================== *)

Module Analyzer.

(** [min(vs)] and [max(vs)].  Python raises on an empty list; the only
    call site passes at least three values. *)
Definition py_min (vs : list Z) : Z :=
  match vs with
  | [] => 0
  | v :: vs' => fold_left Z.min vs' v
  end.

Definition py_max (vs : list Z) : Z :=
  match vs with
  | [] => 0
  | v :: vs' => fold_left Z.max vs' v
  end.

(** The returned dictionary.  The keys ["std_dev"], ["mean"] and ["median"]
    hold floats rounded to two decimals for display and are not part of
    the record; [min_signal] and [max_signal] are absent from the
    insufficient-data dictionary. *)
Record report : Type := {
  stability : string;
  signal_range : Z;
  min_signal : option Z;
  max_signal : option Z;
  trend : string
}.

(** [# Determine stability category] *)
Definition stability_of (signal_values : list Z) : string :=
  let std_dev := NumPy.std signal_values in
  if PrimFloat.ltb std_dev (Float64.of_Z 2) then "Very Stable"
  else if PrimFloat.ltb std_dev (Float64.of_Z 5) then "Stable"
  else if PrimFloat.ltb std_dev (Float64.of_Z 10) then "Moderately Stable"
  else "Unstable".

(** [# Determine signal trend] *)
Definition trend_of (signal_values : list Z) : string :=
  if (10 <=? length signal_values)%nat then
    let first_half := firstn (length signal_values / 2) signal_values in
    let second_half := skipn (length signal_values / 2) signal_values in
    let first_mean := NumPy.mean first_half in
    let second_mean := NumPy.mean second_half in
    if PrimFloat.ltb (Float64.of_Z 3) (PrimFloat.sub second_mean first_mean)
    then "Improving"
    else if PrimFloat.ltb (Float64.of_Z 3) (PrimFloat.sub first_mean second_mean)
    then "Deteriorating"
    else "Stable"
  else "Insufficient Data".

(** [analyze_signal_stability(signals, network_info)]; [network_info] is
    never read.  [signals] is a list of [(timestamp, signal_strength)]. *)
Definition analyze_signal_stability (signals : list (Z * Z)) : report :=
  if (length signals <? 3)%nat then
    {| stability := "Unknown"; signal_range := 0;
       min_signal := None; max_signal := None; trend := "Unknown" |}
  else
    let signal_values := map snd signals in
    let min_signal := py_min signal_values in
    let max_signal := py_max signal_values in
    {| stability := stability_of signal_values;
       signal_range := max_signal - min_signal;
       min_signal := Some min_signal;
       max_signal := Some max_signal;
       trend := trend_of signal_values |}.

End Analyzer.

(* ===================================================================== *)
(** ** The stability analysis in exact arithmetic *)
(* ===================================================================== *)

(** The analysis with the mean, the variance and the standard deviation as
    the exact numbers the binary64 computation of [Analyzer] approximates.
    The integer fields of the report are those of [Analyzer]; the two
    labels can differ from it when a deviation or a difference of means
    lies within rounding distance of a threshold. *)
Module ExactAnalyzer.
Import Analyzer.

(** [a < b] on exact rationals. *)
Definition Qltb (a b : Q) : bool := negb (Qle_bool b a).

Definition sumZ (vs : list Z) : Z := fold_right Z.add 0 vs.

Definition sumQ (qs : list Q) : Q := fold_right Qplus 0%Q qs.

Definition len (vs : list Z) : Q := inject_Z (Z.of_nat (length vs)).

(** The mean of the values. *)
Definition mean (vs : list Z) : Q := (inject_Z (sumZ vs) / len vs)%Q.

(** The mean of the squared deviations from the mean (population
    variance, numpy's default [ddof=0]). *)
Definition variance (vs : list Z) : Q :=
  let m := mean vs in
  (sumQ (map (fun x => (inject_Z x - m) * (inject_Z x - m)) vs) / len vs)%Q.

(** The standard deviation. *)
Definition std_dev (vs : list Z) : R := sqrt (Q2R (variance vs)).

(** The test [std_dev < k] for a non-negative integer literal [k], decided
    on the variance: [sqrt v < k] exactly when [v < k * k]. *)
Definition std_dev_lt (vs : list Z) (k : Z) : bool :=
  Qltb (variance vs) (inject_Z (k * k)).

Definition stability_of (signal_values : list Z) : string :=
  if std_dev_lt signal_values 2 then "Very Stable"
  else if std_dev_lt signal_values 5 then "Stable"
  else if std_dev_lt signal_values 10 then "Moderately Stable"
  else "Unstable".

Definition trend_of (signal_values : list Z) : string :=
  if (10 <=? length signal_values)%nat then
    let first_half := firstn (length signal_values / 2) signal_values in
    let second_half := skipn (length signal_values / 2) signal_values in
    let first_mean := mean first_half in
    let second_mean := mean second_half in
    if Qltb 3 (second_mean - first_mean) then "Improving"
    else if Qltb 3 (first_mean - second_mean) then "Deteriorating"
    else "Stable"
  else "Insufficient Data".

Definition analyze_signal_stability (signals : list (Z * Z)) : report :=
  if (length signals <? 3)%nat then
    {| stability := "Unknown"; signal_range := 0;
       min_signal := None; max_signal := None; trend := "Unknown" |}
  else
    let signal_values := map snd signals in
    let min_signal := py_min signal_values in
    let max_signal := py_max signal_values in
    {| stability := stability_of signal_values;
       signal_range := max_signal - min_signal;
       min_signal := Some min_signal;
       max_signal := Some max_signal;
       trend := trend_of signal_values |}.

End ExactAnalyzer.

(* ===================================================================== *)
(** ** signal_analyzer.py: the sample store fed by beacons *)
(* ===================================================================== *)

Module SignalTracker.
Import Dot11.

(** One entry of the module's [networks] dictionary.  ["last_seen"] is not
    in the dictionary literal that creates the entry; it is assigned right
    after. *)
Record network : Type := {
  ssid : string;
  bssid : string;
  first_seen : Z;
  last_seen : option Z;
  signals : list (Z * Z)
}.

(** The module globals [networks] and [signal_history]. *)
Record state : Type := {
  networks : gmap string network;
  signal_history : gmap string (list (Z * Z))
}.

Definition init : state := {| networks := ∅; signal_history := ∅ |}.

(** [networks[bssid]["last_seen"] = timestamp] followed by
    [networks[bssid]["signals"].append((timestamp, signal))]. *)
Definition sighting (timestamp signal : Z) (n : network) : network :=
  {| ssid := ssid n; bssid := bssid n; first_seen := first_seen n;
     last_seen := Some timestamp;
     signals := (signals n ++ [(timestamp, signal)])%list |}.

(** [process_beacon(packet)], with [timestamp] the reading of [time.time()].
    The result is [None] when [signal_history[bssid]] raises [KeyError]. *)
Definition process_beacon (timestamp : Z) (packet : packet) (st : state)
    : option state :=
  let bssid := addr2 packet in
  let ssid := match info packet with Some s => s | None => "Unknown" end in
  let ssid := if String.eqb ssid "" then "[Hidden Network]" else ssid in
  let signal := get_signal_strength packet in
  let st1 :=
    match networks st !! bssid with
    | None =>
        {| networks :=
             <[bssid := {| ssid := ssid; bssid := bssid; first_seen := timestamp;
                           last_seen := None; signals := [] |}]> (networks st);
           signal_history := <[bssid := []]> (signal_history st) |}
    | Some _ => st
    end in
  let networks2 := alter (sighting timestamp signal) bssid (networks st1) in
  match signal_history st1 !! bssid with
  | None => None
  | Some h =>
      Some {| networks := networks2;
              signal_history := <[bssid := (h ++ [(timestamp, signal)])%list]> (signal_history st1) |}
  end.

(** [process_packet(packet)] *)
Definition process_packet (timestamp : Z) (packet : packet) (st : state)
    : option state :=
  if has_Dot11Beacon packet then process_beacon timestamp packet st else Some st.

End SignalTracker.

(* ===================================================================== *)
(** ** wifi_scanner.py *)
(* ===================================================================== *)

Module Scanner.
Import Dot11.

(** One entry of the module's [networks] dictionary. *)
Record network : Type := {
  ssid : string;
  bssid : string;
  channel : Z;
  encryption : string;
  signal : Z;
  manufacturer : string;
  first_seen : Z;
  last_seen : Z;
  hidden : bool;
  type : string
}.

(** The module globals [networks] and [hidden_networks]. *)
Record state : Type := {
  networks : gmap string network;
  hidden_networks : gset string
}.

Definition init : state := {| networks := ∅; hidden_networks := ∅ |}.

(** The name stored for a station that broadcasts an empty SSID. *)
Definition HIDDEN_NETWORK : string := "[Hidden Network]".

(** [get_manufacturer(mac)] *)
Definition get_manufacturer (packet : packet) : string :=
  match manuf packet with
  | Some m => if String.eqb m "" then "Unknown" else m
  | None => "Unknown"
  end.

(** [classify_network(ssid, bssid, encryption, manufacturer)]: the scanner's
    own first-match classification, stored under ["type"]. *)
Definition classify_network (ssid : string) : string :=
  let u := PyStr.upper ssid in
  if PyStr.any_in ["FBI"; "GOV"; "POLICE"; "FED"; "MIL"; "DOD"; "SECURE"] u
  then "POSSIBLE_OFFICIAL"
  else if PyStr.any_in ["CORP"; "ENTERPRISE"; "STAFF"; "EMPLOYEE"] u
  then "ENTERPRISE"
  else if PyStr.any_in ["IPHONE"; "ANDROID"; "GALAXY"; "MOBILE"; "HOTSPOT"] u
  then "MOBILE_HOTSPOT"
  else if PyStr.any_in ["PUBLIC"; "GUEST"; "FREE"; "WIFI"] u
  then "PUBLIC"
  else "STANDARD".

(** The two assignments of the known-station branch of [process_beacon]. *)
Definition refresh (signal now : Z) (n : network) : network :=
  {| ssid := ssid n; bssid := bssid n; channel := channel n;
     encryption := encryption n; signal := signal;
     manufacturer := manufacturer n; first_seen := first_seen n;
     last_seen := now; hidden := hidden n; type := type n |}.

(** [process_beacon(packet)]: the module globals when the call ends, by
    returning or by raising.  [now] is the first reading of [time.time()]
    during the call and [now'] the second one (taken only when a new entry
    is built, for its ["last_seen"]).

    For a new station the address of an empty name is added to
    [hidden_networks] before [get_channel] and [get_encryption] are called:
    when one of them raises, the call ends there, the address stays in the
    set and no entry is stored. *)
Definition process_beacon (now now' : Z) (packet : packet) (st : state) : state :=
  let bssid := addr2 packet in
  match networks st !! bssid with
  | Some n =>
      {| networks := <[bssid := refresh (get_signal_strength packet) now n]> (networks st);
         hidden_networks := hidden_networks st |}
  | None =>
      let ssid := match info packet with Some s => s | None => "Unknown" end in
      let is_empty := String.eqb ssid "" in
      let ssid := if is_empty then HIDDEN_NETWORK else ssid in
      let hidden_networks :=
        if is_empty then {[bssid]} ∪ hidden_networks st else hidden_networks st in
      if readers_raise packet then
        {| networks := networks st; hidden_networks := hidden_networks |}
      else
      let channel := elt_channel packet in
      let encryption := cap_encryption packet in
      let signal := get_signal_strength packet in
      let manufacturer := get_manufacturer packet in
      {| networks :=
           <[bssid := {| ssid := ssid; bssid := bssid; channel := channel;
                         encryption := encryption; signal := signal;
                         manufacturer := manufacturer;
                         first_seen := now; last_seen := now';
                         hidden := String.eqb ssid HIDDEN_NETWORK;
                         type := classify_network ssid |}]> (networks st);
         hidden_networks := hidden_networks |}
  end.

(** The call [process_beacon(packet)] raises in state [st]: the station is
    new and one of the readers raises. *)
Definition process_beacon_raises (packet : packet) (st : state) : bool :=
  match networks st !! addr2 packet with
  | Some _ => false
  | None => readers_raise packet
  end.

(** The three assignments of [process_probe_response] on the entry. *)
Definition uncover (ssid : string) (now : Z) (n : network) : network :=
  {| ssid := ssid; bssid := bssid n; channel := channel n;
     encryption := encryption n; signal := signal n;
     manufacturer := manufacturer n; first_seen := first_seen n;
     last_seen := now; hidden := false; type := type n |}.

(** The guard [bssid in hidden_networks and ssid and ssid != "[Hidden Network]"]. *)
Definition discloses (st : state) (bssid ssid : string) : bool :=
  bool_decide (bssid ∈ hidden_networks st)
  && negb (String.eqb ssid "")
  && negb (String.eqb ssid HIDDEN_NETWORK).

(** [process_probe_response(packet)], with [now] the reading of
    [time.time()]. *)
Definition process_probe_response (now : Z) (packet : packet) (st : state) : state :=
  let bssid := addr2 packet in
  match info packet with
  | None => st
  | Some ssid =>
      if discloses st bssid ssid then
        match networks st !! bssid with
        | Some n =>
            {| networks := <[bssid := uncover ssid now n]> (networks st);
               hidden_networks := hidden_networks st ∖ {[bssid]} |}
        | None => st
        end
      else st
  end.

(** [process_packet(packet)] *)
Definition process_packet (now now' : Z) (packet : packet) (st : state) : state :=
  if has_Dot11Beacon packet then process_beacon now now' packet st
  else if has_Dot11ProbeResp packet then process_probe_response now packet st
  else st.

(** One callback of the capture loop: the packet and the clock readings
    taken while it is processed. *)
Record event : Type := {
  ev_packet : packet;
  ev_now : Z;
  ev_now' : Z
}.

Definition step (st : state) (ev : event) : state :=
  process_packet (ev_now ev) (ev_now' ev) (ev_packet ev) st.

(** The session: [process_packet] called on the packets of a capture, one
    after the other, also after a call that raised.  Under
    [scapy.sniff(prn=process_packet)] in [main] the first call that raises
    ends the capture: the globals are then those of the run of the events up
    to that call. *)
Definition run (evs : list event) (st : state) : state := fold_left step evs st.

(** States a session can be in. *)
Inductive reachable : state -> Prop :=
  | reachable_init : reachable init
  | reachable_step st ev : reachable st -> reachable (step st ev).

End Scanner.

(* ===================================================================== *)
(** ** The scorer's evidence table and tie-break order, as specified *)
(* ===================================================================== *)

Module Evidence.
Import Classifier.

#[global] Instance mfg_type_eq_dec : EqDecision mfg_type.
Proof. solve_decision. Defined.

(** Position of a type in the tie-break order (0 is the highest priority):
    OFFICIAL, ENTERPRISE, MOBILE_HOTSPOT, PUBLIC, IOT, ISP_DEFAULT, STANDARD. *)
Definition priority_rank (t : network_type) : nat :=
  match t with
  | POSSIBLE_OFFICIAL => 0
  | ENTERPRISE => 1
  | MOBILE_HOTSPOT => 2
  | PUBLIC => 3
  | IOT => 4
  | ISP_PROVIDED => 5
  | STANDARD => 6
  end.

(** Number of the given keywords that occur in [s]. *)
Definition hits (keywords : list string) (s : string) : Z :=
  Z.of_nat (length (List.filter (fun k => PyStr.contains k s) keywords)).

(** The keyword list of a type ([STANDARD] has none). *)
Definition keywords (t : network_type) : list string :=
  flat_map (fun '(k, patterns) => if decide (k = t) then patterns else [])
    NETWORK_TYPES.

(** The vendor names of a vendor class. *)
Definition vendors (m : mfg_type) : list string :=
  flat_map (fun '(k, names) => if decide (k = m) then names else [])
    MANUFACTURER_TYPES.

(** Concealment: +3 OFFICIAL, +2 ENTERPRISE. *)
Definition concealment (t : network_type) : Z :=
  match t with
  | POSSIBLE_OFFICIAL => 3
  | ENTERPRISE => 2
  | _ => 0
  end.

(** Strong encryption: +2 OFFICIAL, +2 ENTERPRISE, +1 ISP_DEFAULT. *)
Definition strong_encryption (t : network_type) : Z :=
  match t with
  | POSSIBLE_OFFICIAL => 2
  | ENTERPRISE => 2
  | ISP_PROVIDED => 1
  | _ => 0
  end.

(** No encryption: +3 PUBLIC. *)
Definition open_encryption (t : network_type) : Z :=
  match t with
  | PUBLIC => 3
  | _ => 0
  end.

(** Vendor class: GOVERNMENT +4 OFFICIAL; ENTERPRISE_VENDOR +3 ENTERPRISE;
    CONSUMER_VENDOR +2 STANDARD and +1 ISP_DEFAULT; MOBILE_VENDOR +4
    MOBILE_HOTSPOT; IOT_VENDOR +4 IOT. *)
Definition vendor (m : mfg_type) (t : network_type) : Z :=
  match m, t with
  | GOVERNMENT, POSSIBLE_OFFICIAL => 4
  | MFG_ENTERPRISE, ENTERPRISE => 3
  | CONSUMER, STANDARD => 2
  | CONSUMER, ISP_PROVIDED => 1
  | MOBILE, MOBILE_HOTSPOT => 4
  | MFG_IOT, IOT => 4
  | _, _ => 0
  end.

(** Signal above -40: +1 STANDARD, +1 ISP_DEFAULT. *)
Definition very_strong_signal (t : network_type) : Z :=
  match t with
  | STANDARD => 1
  | ISP_PROVIDED => 1
  | _ => 0
  end.

(** Signal below -80: +1 MOBILE_HOTSPOT. *)
Definition weak_signal (t : network_type) : Z :=
  match t with
  | MOBILE_HOTSPOT => 1
  | _ => 0
  end.

End Evidence.

(* ===================================================================== *)
(** ** Predicates on the scanner's store *)
(* ===================================================================== *)

Module Store.
Import Dot11 Scanner.

(** Every address in [hidden_networks] has an entry, and that entry is
    flagged hidden. *)
Definition hidden_known (st : state) : Prop :=
  forall b, b ∈ hidden_networks st ->
    exists n, networks st !! b = Some n /\ hidden n = true.

(** The station [b] has an entry that is not flagged hidden, and [b] is not
    in [hidden_networks]. *)
Definition visible (st : state) (b : string) : Prop :=
  (b ∉ hidden_networks st)
  /\ exists n, networks st !! b = Some n /\ hidden n = false.

(** Every entry flagged hidden has its address in [hidden_networks]. *)
Definition flagged_listed (st : state) : Prop :=
  forall b n, networks st !! b = Some n -> hidden n = true -> b ∈ hidden_networks st.

End Store.

(* ===================================================================== *)
(** ** Concrete records, sample sequences and captures *)
(* ===================================================================== *)

Module Examples.
Import Classifier Dot11.

(** A record with no evidence, one with a clear winner, and the tie of the
    specification's example (ENTERPRISE and PUBLIC both at 4). *)
Definition nd_silent : network_data :=
  {| nd_ssid := Some "blue sky"; nd_encryption := Some "WPA2";
     nd_hidden := Some false; nd_manufacturer := Some "Unknown";
     nd_signal := Some (-60) |}.

Definition nd_cafe : network_data :=
  {| nd_ssid := Some "Cafe Luna"; nd_encryption := Some "Open";
     nd_hidden := Some false; nd_manufacturer := None;
     nd_signal := Some (-60) |}.

Definition nd_office_guest : network_data :=
  {| nd_ssid := Some "Office Guest"; nd_encryption := Some "WPA2";
     nd_hidden := Some false; nd_manufacturer := Some "Unknown";
     nd_signal := Some (-60) |}.

(** The five samples of the specification's stability example. *)
Definition five_samples : list Z := [-50; -51; -49; -50; -52].

(** Sample sequences for the four bands and the five trend outcomes. *)
Definition stamped (vs : list Z) : list (Z * Z) :=
  combine (map Z.of_nat (seq 0 (length vs))) vs.

Definition two_samples : list Z := [-50; -60].
Definition stable_samples : list Z := [-50; -54; -50; -54].
Definition moderate_samples : list Z := [-50; -50; -50; -60; -60; -60].
Definition unstable_samples : list Z := [-40; -60; -40; -60].

(** The ten samples of the specification's trend example. *)
Definition ten_samples : list Z :=
  [-50; -50; -50; -50; -50; -60; -60; -60; -60; -60].
Definition rising_samples : list Z :=
  [-60; -60; -60; -60; -60; -50; -50; -50; -50; -50].
Definition flat_samples : list Z :=
  [-50; -51; -50; -51; -50; -51; -50; -51; -50; -51].

(** Nine samples whose exact standard deviation is 2, and the same samples
    in another order. *)
Definition edge_samples : list Z := [-73; -76; -75; -70; -73; -72; -74; -70; -71].
Definition edge_samples_reordered : list Z :=
  [-73; -75; -70; -76; -73; -72; -74; -71; -70].

(** Ten samples whose halves have the exact means -62.4 and -65.4. *)
Definition tied_halves : list Z :=
  [-62; -62; -62; -63; -63; -65; -65; -65; -66; -66].

(** Example frames: a beacon and a probe response from a station. *)
Definition beacon (b : string) (name : option string) (ch : Z) (enc : string)
    (sig : Z) : packet :=
  {| has_Dot11Beacon := true; has_Dot11ProbeResp := false; addr2 := b;
     info := name; readers_raise := false;
     elt_channel := ch; cap_encryption := enc;
     dBm_AntSignal := Some sig; manuf := None |}.

Definition probe_response (b : string) (name : option string) : packet :=
  {| has_Dot11Beacon := false; has_Dot11ProbeResp := true; addr2 := b;
     info := name; readers_raise := false;
     elt_channel := 0; cap_encryption := "Open";
     dBm_AntSignal := None; manuf := None |}.

(** The store after station AA:1 was first seen with an empty name, and
    after station BB:2 was first seen as "Cafe". *)
Definition st_concealed : Scanner.state :=
  Scanner.process_beacon 10 11 (beacon "AA:1" (Some "") 6 "WPA2" (-55)) Scanner.init.

Definition st_two : Scanner.state :=
  Scanner.process_beacon 12 13 (beacon "BB:2" (Some "Cafe") 1 "Open" (-70)) st_concealed.

(** After the disclosure: station AA:1 broadcasts an empty name again, a
    probe response names the sentinel, and a beacon has an undecodable
    name. *)
Definition later_events : list Scanner.event :=
  [ {| Scanner.ev_packet := beacon "AA:1" (Some "") 6 "WPA2" (-58);
       Scanner.ev_now := 30; Scanner.ev_now' := 31 |};
    {| Scanner.ev_packet := probe_response "AA:1" (Some Scanner.HIDDEN_NETWORK);
       Scanner.ev_now := 32; Scanner.ev_now' := 33 |};
    {| Scanner.ev_packet := beacon "AA:1" None 6 "WPA2" (-61);
       Scanner.ev_now := 34; Scanner.ev_now' := 35 |} ].

(** A station whose broadcast name is literally the sentinel. *)
Definition sentinel_beacon : Scanner.event :=
  {| Scanner.ev_packet := beacon "AA:2" (Some "[Hidden Network]") 6 "WPA2" (-55);
     Scanner.ev_now := 10; Scanner.ev_now' := 11 |}.

(** Station AA:1 known to the scanner on channel 1 with WPA2, and the next
    beacon it sends from channel 6 without encryption. *)
Definition st_channel_1 : Scanner.state :=
  Scanner.process_beacon 10 11 (beacon "AA:1" (Some "Lab") 1 "WPA2" (-55)) Scanner.init.

Definition beacon_channel_6 : packet := beacon "AA:1" (Some "Lab") 6 "Open" (-48).

(** The tracker after one beacon of station AA:1. *)
Definition tracked_once : option SignalTracker.state :=
  SignalTracker.process_beacon 10 (beacon "AA:1" (Some "Lab") 1 "WPA2" (-55))
    SignalTracker.init.

Definition st_tracked : SignalTracker.state :=
  default SignalTracker.init tracked_once.

End Examples.

(* ===================================================================== *)
(** ** Captures and clocks of a scanner session *)
(* ===================================================================== *)

Module Session.
Import Dot11 Scanner.

(** The senders of the beacon frames of a capture. *)
Definition beacon_senders (evs : list event) : gset string :=
  list_to_set
    (map (fun ev => addr2 (ev_packet ev))
       (List.filter (fun ev => has_Dot11Beacon (ev_packet ev)) evs)).

(** The event is a probe response (and not a beacon) sent by [b]. *)
Definition probe_response_from (b : string) (ev : event) : Prop :=
  has_Dot11Beacon (ev_packet ev) = false
  /\ has_Dot11ProbeResp (ev_packet ev) = true
  /\ addr2 (ev_packet ev) = b.

(** Both readers return on the packet of the event. *)
Definition quiet (ev : event) : Prop := readers_raise (ev_packet ev) = false.

(** The senders of the beacon frames of a capture on which both readers
    return. *)
Definition read_senders (evs : list event) : gset string :=
  list_to_set
    (map (fun ev => addr2 (ev_packet ev))
       (List.filter
          (fun ev => has_Dot11Beacon (ev_packet ev)
                     && negb (readers_raise (ev_packet ev))) evs)).

(** The senders of the beacon frames of a capture with an empty name. *)
Definition silent_senders (evs : list event) : gset string :=
  list_to_set
    (map (fun ev => addr2 (ev_packet ev))
       (List.filter
          (fun ev => has_Dot11Beacon (ev_packet ev)
                     && bool_decide (info (ev_packet ev) = Some "")) evs)).

(** The clock never runs backwards: starting from reading [t], the readings
    taken while the events are processed do not decrease. *)
Fixpoint monotone_clock (t : Z) (evs : list event) : Prop :=
  match evs with
  | [] => True
  | ev :: evs' =>
      t <= ev_now ev /\ ev_now ev <= ev_now' ev /\ monotone_clock (ev_now' ev) evs'
  end.

(** The five values the scanner stores under ["type"]. *)
Definition scanner_types : list string :=
  ["POSSIBLE_OFFICIAL"; "ENTERPRISE"; "MOBILE_HOTSPOT"; "PUBLIC"; "STANDARD"].

(** What holds of every entry of a store. *)
Definition entry_ok (b : string) (n : network) : Prop :=
  bssid n = b
  /\ hidden n = String.eqb (ssid n) HIDDEN_NETWORK
  /\ In (type n) scanner_types
  /\ (hidden n = true -> type n = "STANDARD").

Definition entries_ok (st : state) : Prop :=
  forall b n, networks st !! b = Some n -> entry_ok b n.

(** The fields written only when an entry is created. *)
Definition same_origin (n n' : network) : Prop :=
  bssid n' = bssid n
  /\ channel n' = channel n
  /\ encryption n' = encryption n
  /\ manufacturer n' = manufacturer n
  /\ first_seen n' = first_seen n
  /\ type n' = type n.

(** The station [b] is concealed: it is in [hidden_networks] and its entry
    carries the sentinel name and the hidden flag. *)
Definition concealed (st : state) (b : string) : Prop :=
  b ∈ hidden_networks st
  /\ exists n, networks st !! b = Some n
             /\ ssid n = HIDDEN_NETWORK /\ hidden n = true.

(** Every entry was first seen no later than last seen, and last seen no
    later than [t]. *)
Definition seen_in_order (t : Z) (st : state) : Prop :=
  forall b n, networks st !! b = Some n ->
    first_seen n <= last_seen n /\ last_seen n <= t.

End Session.

Module SessionExamples.
Import Dot11 Scanner Examples.

(** Probe responses naming the station whose broadcast name is the
    sentinel. *)
Definition sentinel_probes : list event :=
  [ {| ev_packet := probe_response "AA:2" (Some "OFFICE-NET");
       ev_now := 20; ev_now' := 20 |};
    {| ev_packet := beacon "AA:2" (Some "OFFICE-NET") 6 "WPA2" (-50);
       ev_now := 21; ev_now' := 21 |} ].

(** Between the first beacon of AA:1 and the probe response that names it:
    another beacon of AA:1, a beacon of a second station, and a probe
    response of that second station. *)
Definition between_events : list event :=
  [ {| ev_packet := beacon "AA:1" (Some "") 6 "WPA2" (-57);
       ev_now := 12; ev_now' := 12 |};
    {| ev_packet := beacon "BB:2" (Some "") 1 "Open" (-70);
       ev_now := 13; ev_now' := 14 |};
    {| ev_packet := probe_response "BB:2" (Some "Cafe");
       ev_now := 15; ev_now' := 15 |} ].

End SessionExamples.

(* ===================================================================== *)
(** ** Captures of the signal tracker *)
(* ===================================================================== *)

Module Tracking.
Import Dot11 SignalTracker.

(** One callback of the capture loop of [signal_analyzer.main]: the packet
    and the reading of [time.time()] taken for it. *)
Definition event : Type := (Z * packet)%type.

(** [scapy.sniff(prn=process_packet)] over a capture; an exception raised by
    a callback ends the capture. *)
Fixpoint run (evs : list event) (st : state) : option state :=
  match evs with
  | [] => Some st
  | (timestamp, packet) :: evs' =>
      match process_packet timestamp packet st with
      | Some st' => run evs' st'
      | None => None
      end
  end.

(** The name [process_beacon] derives from a beacon. *)
Definition beacon_name (packet : packet) : string :=
  let s := match info packet with Some s => s | None => "Unknown" end in
  if String.eqb s "" then "[Hidden Network]" else s.

(** The beacons of station [b] in a capture, in arrival order. *)
Definition beacons_of (b : string) (evs : list event) : list event :=
  List.filter
    (fun ev => has_Dot11Beacon (snd ev) && bool_decide (addr2 (snd ev) = b)) evs.

(** The (timestamp, signal) samples station [b] contributes to a capture. *)
Definition samples_of (b : string) (evs : list event) : list (Z * Z) :=
  map (fun ev => (fst ev, get_signal_strength (snd ev))) (beacons_of b evs).

(** The history of station [b], empty when it has none. *)
Definition history (st : state) (b : string) : list (Z * Z) :=
  default [] (signal_history st !! b).

(** The two dictionaries agree on station [b]: either both lack it, or the
    entry is stored under its address, its [signals] are the non-empty
    history, and [first_seen] and [last_seen] are the timestamps of the
    first and of the last sample. *)
Definition agree_on (st : state) (b : string) : Prop :=
  match networks st !! b, signal_history st !! b with
  | None, None => True
  | Some n, Some h =>
      h <> []
      /\ signals n = h
      /\ bssid n = b
      /\ Some (first_seen n) = fst <$> head h
      /\ last_seen n = fst <$> last h
  | _, _ => False
  end.

End Tracking.

Module TrackingExamples.
Import Dot11 Examples.

(** A station whose first beacon has an empty name and whose later beacons
    carry the name "Lab". *)
Definition hidden_then_named : list Tracking.event :=
  [ (10, beacon "AA:1" (Some "") 6 "WPA2" (-55));
    (11, beacon "BB:2" (Some "Cafe") 1 "Open" (-70));
    (12, beacon "AA:1" (Some "Lab") 6 "WPA2" (-54));
    (13, probe_response "AA:1" (Some "Lab"));
    (14, beacon "AA:1" (Some "Lab") 6 "WPA2" (-56)) ].

End TrackingExamples.

(* ===================================================================== *)
(** ** Transformations of a sample sequence *)
(* ===================================================================== *)

Module Samples.

Definition raise (c v : Z) : Z := v + c.

(** Every signal value raised by the same amount [c], timestamps kept. *)
Definition shift (c : Z) (signals : list (Z * Z)) : list (Z * Z) :=
  map (fun s => (fst s, raise c (snd s))) signals.

End Samples.

(* ===================================================================== *)
(** ** The classifier's types as the strings the dictionaries hold *)
(* ===================================================================== *)

Module Names.
Import Classifier.

(** The dictionary key of a type. *)
Definition type_name (t : network_type) : string :=
  match t with
  | POSSIBLE_OFFICIAL => "POSSIBLE_OFFICIAL"
  | ENTERPRISE => "ENTERPRISE"
  | MOBILE_HOTSPOT => "MOBILE_HOTSPOT"
  | PUBLIC => "PUBLIC"
  | IOT => "IOT"
  | ISP_PROVIDED => "ISP_PROVIDED"
  | STANDARD => "STANDARD"
  end.

(** The type a key names, if any. *)
Definition type_of_name (s : string) : option network_type :=
  find (fun t => String.eqb s (type_name t)) score_keys.

(** An ASCII lower-case letter. *)
Definition is_lower (c : ascii) : bool :=
  let n := N_of_ascii c in ((97 <=? n) && (n <=? 122))%N.

(** The string has a lower-case letter. *)
Fixpoint has_lower (s : string) : bool :=
  match s with
  | EmptyString => false
  | String c s' => is_lower c || has_lower s'
  end.

(** The keyword list of MOBILE_HOTSPOT without "MiFi". *)
Definition mobile_keywords_upper : list string :=
  ["IPHONE"; "ANDROID"; "GALAXY"; "MOBILE"; "HOTSPOT";
   "PHONE"; "POCKET"; "SAMSUNG"; "HUAWEI"; "USB"].

(** A scanner entry as the dictionary [classify_network] receives when the
    classifier works on the scanner's [networks]: all five keys are
    present. *)
Definition as_network_data (n : Scanner.network) : network_data :=
  {| nd_ssid := Some (Scanner.ssid n);
     nd_encryption := Some (Scanner.encryption n);
     nd_hidden := Some (Scanner.hidden n);
     nd_manufacturer := Some (Scanner.manufacturer n);
     nd_signal := Some (Scanner.signal n) |}.

End Names.

(* ===================================================================== *)
(** ** network_classifier.py: classifying a set of networks *)
(* ===================================================================== *)

Module ClassifierReport.
Import Classifier Names.

(** A network dictionary as [enhanced_network_classification] and
    [analyze_network_distribution] use it: the keys [classify_network]
    reads, and the three keys the classification writes.  The other keys
    (["bssid"], ["channel"], ...) are neither read nor written. *)
Record network : Type := {
  data : network_data;
  type : option string;
  classification_confidence : option string;
  classification_note : option string
}.

(** The [networks] dictionary, as its [.items()] in order. *)
Definition networks_t : Type := list (string * network).

Definition string_of_Z (z : Z) : string := NilZero.string_of_int (Z.to_int z).

(** [f"{confidence:.2f}"] for a confidence in [0, 1]: the hundredths nearest
    to the value.  It is applied to whole tenths only, which are no rounding
    ties. *)
Definition format_2f (confidence : Q) : string :=
  let cents := Qfloor (confidence * 100 + (1 # 2)) in
  string_of_Z (cents / 100) ++ "."
  ++ (if cents mod 100 <? 10 then "0" else "") ++ string_of_Z (cents mod 100).

(** The [if classification == ...] chain: the note of each type but
    STANDARD. *)
Definition note_of (classification : network_type) : option string :=
  match classification with
  | POSSIBLE_OFFICIAL =>
      Some "This network has characteristics consistent with official/government networks. This is a heuristic classification only and should be verified."
  | ENTERPRISE =>
      Some "This network appears to be an enterprise/corporate network based on its characteristics."
  | MOBILE_HOTSPOT =>
      Some "This network appears to be a mobile hotspot or temporary network."
  | PUBLIC => Some "This network appears to be a public access point."
  | IOT => Some "This network appears to be associated with IoT devices."
  | ISP_PROVIDED =>
      Some "This network appears to be an ISP-provided default configuration."
  | STANDARD => None
  end.

(** The body of the loop of [enhanced_network_classification] for one
    network.  The result is [None] when the log line of the
    POSSIBLE_OFFICIAL branch reads [network['ssid']] and the key is absent
    ([KeyError]). *)
Definition enhance (net : network) : option network :=
  let '(classification, confidence) := classify_network (data net) in
  let net' :=
    {| data := data net;
       type := Some (type_name classification);
       classification_confidence := Some (format_2f confidence);
       classification_note :=
         match note_of classification with
         | Some note => Some note
         | None => classification_note net
         end |} in
  match classification, nd_ssid (data net) with
  | POSSIBLE_OFFICIAL, None => None
  | _, _ => Some net'
  end.

(** [enhanced_network_classification(networks)] *)
Definition enhanced_network_classification (networks : networks_t)
    : option networks_t :=
  mapM (fun '(bssid, net) => pair bssid <$> enhance net) networks.

(** The counter a network is added to by [analyze_network_distribution]. *)
Definition counted_as (net : network) : network_type :=
  let network_type := default "STANDARD" (type net) in
  match type_of_name network_type with
  | Some t => t
  | None => STANDARD
  end.

(** [analyze_network_distribution(networks)]: the seven counters. *)
Definition analyze_network_distribution (networks : networks_t) : scores_t :=
  fold_left
    (fun distribution '(_, net) => add_score (counted_as net) 1 distribution)
    networks scores_init.

(** The number of networks [analyze_network_distribution] counts as type
    [t]. *)
Definition counted (t : network_type) (networks : networks_t) : Z :=
  Z.of_nat
    (length (List.filter (fun bn => bool_decide (counted_as (snd bn) = t)) networks)).

(** The number of networks that [classify_network] puts in type [t]. *)
Definition classified (t : network_type) (networks : networks_t) : Z :=
  Z.of_nat
    (length
       (List.filter
          (fun bn => bool_decide (fst (classify_network (data (snd bn))) = t))
          networks)).

(** The network makes the POSSIBLE_OFFICIAL log line fail: it is classified
    POSSIBLE_OFFICIAL and has no ["ssid"] key. *)
Definition nameless_official (net : network) : Prop :=
  fst (classify_network (data net)) = POSSIBLE_OFFICIAL
  /\ nd_ssid (data net) = None.

End ClassifierReport.

Module ReportExamples.
Import Classifier ClassifierReport Examples.

(** Three networks as a scan leaves them, one of them with a stale note. *)
Definition scanned : networks_t :=
  [ ("AA:1", {| data := nd_office_guest; type := Some "PUBLIC";
                classification_confidence := None; classification_note := None |});
    ("BB:2", {| data := nd_cafe; type := Some "STANDARD";
                classification_confidence := None; classification_note := None |});
    ("CC:3", {| data := nd_silent; type := Some "HOME";
                classification_confidence := None;
                classification_note := Some "stale" |}) ].

(** A hidden network with strong encryption whose dictionary has no
    ["ssid"] key. *)
Definition nameless : networks_t :=
  [ ("DD:4", {| data := {| nd_ssid := None; nd_encryption := Some "WPA2/WPA3";
                           nd_hidden := Some true; nd_manufacturer := None;
                           nd_signal := Some (-60) |};
                type := None; classification_confidence := None;
                classification_note := None |}) ].

End ReportExamples.

(* ===================================================================== *)
(** ** wifi_scanner.py: reading the information elements of a frame *)
(* ===================================================================== *)

Module Frame.
Import Dot11.

(** One information element, by the three attributes the source reads:
    [.ID], [.len] and [.info]. *)
Record element : Type := {
  ID : Z;
  len : Z;
  elt_info : list Byte.byte
}.

(** What [packet[Dot11Elt]], [.payload], [.payload.payload], ... runs
    through: elements, up to the end of the packet ([NoPayload], which is
    false in a test) or up to a layer that is not an element ([Other], for
    instance the raw bytes left after the last element: true in a test, and
    reading its [.ID] raises [AttributeError]).  A packet without an element
    layer has a chain that does not start with an element;
    [packet[scapy.Dot11Elt]] raises on it.  The readers return [None] when
    they raise. *)
Inductive chain : Type :=
  | NoPayload
  | Elt (curr : element) (payload : chain)
  | Other.

(** [curr = packet[scapy.Dot11Elt]] *)
Definition first_element (packet : chain) : option chain :=
  match packet with
  | Elt _ _ => Some packet
  | NoPayload | Other => None
  end.

(** [while curr and curr.ID != i: curr = curr.payload] *)
Fixpoint seek (i : Z) (curr : chain) : option chain :=
  match curr with
  | NoPayload => Some NoPayload
  | Elt e payload => if ID e =? i then Some curr else seek i payload
  | Other => None
  end.

(** [ord(info)]: defined on a single byte only. *)
Definition ord (info : list Byte.byte) : option Z :=
  match info with
  | [b] => Some (Z.of_N (Byte.to_N b))
  | _ => None
  end.

(** [get_channel(packet)] *)
Definition get_channel (packet : chain) : option Z :=
  match first_element packet with
  | None => None
  | Some curr =>
      match seek 3 curr with
      | None => None
      | Some (Elt curr _) => if len curr =? 1 then ord (elt_info curr) else Some 0
      | Some _ => Some 0
      end
  end.

(** One digit of [bytes.hex()]. *)
Definition hex_digit (n : N) : ascii :=
  if (n <? 10)%N then ascii_of_N (48 + n) else ascii_of_N (87 + n).

(** [info.hex()] *)
Fixpoint hex (info : list Byte.byte) : string :=
  match info with
  | [] => EmptyString
  | b :: info' =>
      let n := Byte.to_N b in
      String (hex_digit (n / 16)) (String (hex_digit (n mod 16)) (hex info'))
  end.

(** [info.startswith(prefix)] *)
Fixpoint startswith (info prefix : list Byte.byte) : bool :=
  match prefix, info with
  | [], _ => true
  | _ :: _, [] => false
  | p :: prefix', b :: info' => Byte.eqb b p && startswith info' prefix'
  end.

(** [get_rsn_info(packet)]: the inner [None] is the function's own [None]. *)
Definition get_rsn_info (packet : chain) : option (option string) :=
  match first_element packet with
  | None => None
  | Some curr =>
      match seek 48 curr with
      | None => None
      | Some (Elt curr _) => Some (Some (hex (elt_info curr)))
      | Some _ => Some None
      end
  end.

(** The loop of [get_wpa_info]. *)
Fixpoint wpa_loop (curr : chain) : option bool :=
  match curr with
  | NoPayload => Some false
  | Elt e payload =>
      if (ID e =? 221)
         && startswith (elt_info e) [Byte.x00; Byte.x50; Byte.xf2; Byte.x01]
      then Some true
      else wpa_loop payload
  | Other => None
  end.

(** [get_wpa_info(packet)] *)
Definition get_wpa_info (packet : chain) : option bool :=
  match first_element packet with
  | None => None
  | Some curr => wpa_loop curr
  end.

(** [if rsn:] on the result of [get_rsn_info]. *)
Definition truthy (rsn : option string) : bool :=
  match rsn with
  | Some s => negb (String.eqb s "")
  | None => false
  end.

(** [get_encryption(packet)], from the text of the capability field and the
    element chain. *)
Definition get_encryption (capability : string) (packet : chain) : option string :=
  if PyStr.contains "privacy" capability then
    match get_rsn_info packet with
    | None => None
    | Some rsn =>
        if truthy rsn then
          if PyStr.contains "CCMP" (default "" rsn)
          then Some "WPA2/WPA3"
          else Some "WPA2"
        else
          match get_wpa_info packet with
          | None => None
          | Some true => Some "WPA"
          | Some false => Some "WEP"
          end
    end
  else Some "Open".

(** The labels [get_encryption] assigns in its four reachable branches. *)
Definition assigned_labels : list string := ["Open"; "WPA2"; "WPA"; "WEP"].

(** The packet, if a beacon, carries the outcome of the two readers on some
    frame, called in the order of [process_beacon]: it raises when one of
    them does, and has the channel and the encryption label they return
    otherwise. *)
Definition decoded (p : packet) : Prop :=
  has_Dot11Beacon p = true ->
  exists capability frame,
    match get_channel frame, get_encryption capability frame with
    | Some channel, Some encryption =>
        readers_raise p = false
        /\ elt_channel p = channel /\ cap_encryption p = encryption
    | _, _ => readers_raise p = true
    end.

(** The chain consists of elements only and ends with the packet. *)
Fixpoint elements_only (curr : chain) : Prop :=
  match curr with
  | NoPayload => True
  | Elt _ payload => elements_only payload
  | Other => False
  end.

(** Every element's length field is the length of its content. *)
Fixpoint well_formed (curr : chain) : Prop :=
  match curr with
  | Elt e payload =>
      len e = Z.of_nat (length (elt_info e)) /\ well_formed payload
  | NoPayload | Other => True
  end.

(** The element [e] is in the chain. *)
Fixpoint has_element (e : element) (curr : chain) : Prop :=
  match curr with
  | Elt e' payload => e' = e \/ has_element e payload
  | NoPayload | Other => False
  end.

(** An ASCII upper-case letter. *)
Definition is_upper (c : ascii) : bool :=
  let n := N_of_ascii c in ((65 <=? n) && (n <=? 90))%N.

(** The string has an upper-case letter. *)
Fixpoint has_upper (s : string) : bool :=
  match s with
  | EmptyString => false
  | String c s' => is_upper c || has_upper s'
  end.

End Frame.

Module FrameExamples.
Import Dot11 Frame Scanner.

Definition ssid_element : element :=
  {| ID := 0; len := 3; elt_info := [Byte.x4c; Byte.x61; Byte.x62] |}.

Definition ds_element : element :=
  {| ID := 3; len := 1; elt_info := [Byte.x06] |}.

(** An RSN element whose group and pairwise suites are CCMP
    (00-0f-ac-04). *)
Definition rsn_element : element :=
  {| ID := 48; len := 14;
     elt_info := [Byte.x01; Byte.x00; Byte.x00; Byte.x0f; Byte.xac; Byte.x04;
                  Byte.x01; Byte.x00; Byte.x00; Byte.x0f; Byte.xac; Byte.x04;
                  Byte.x00; Byte.x00] |}.

(** An SSID element, a DS parameter set naming channel 6 and the RSN
    element, then the end of the packet. *)
Definition rsn_frame : chain :=
  Elt ssid_element (Elt ds_element (Elt rsn_element NoPayload)).

(** The same elements followed by bytes that are not an element. *)
Definition rsn_frame_raw : chain :=
  Elt ssid_element (Elt ds_element (Elt rsn_element Other)).

(** One element and bytes that are not an element. *)
Definition stray_frame : chain := Elt ssid_element Other.

(** A beacon of a protected station with the first frame, a probe response,
    and a beacon of a hidden station with the last frame. *)
Definition rsn_capture : list event :=
  [ {| ev_packet :=
         {| has_Dot11Beacon := true; has_Dot11ProbeResp := false;
            addr2 := "AA:1"; info := Some "Lab";
            readers_raise := false;
            elt_channel := 6; cap_encryption := "WPA2";
            dBm_AntSignal := Some (-48); manuf := None |};
       ev_now := 10; ev_now' := 11 |};
    {| ev_packet :=
         {| has_Dot11Beacon := false; has_Dot11ProbeResp := true;
            addr2 := "AA:1"; info := Some "Lab";
            readers_raise := false;
            elt_channel := 0; cap_encryption := "";
            dBm_AntSignal := None; manuf := None |};
       ev_now := 12; ev_now' := 12 |};
    {| ev_packet :=
         {| has_Dot11Beacon := true; has_Dot11ProbeResp := false;
            addr2 := "CC:3"; info := Some "";
            readers_raise := true;
            elt_channel := 0; cap_encryption := "";
            dBm_AntSignal := Some (-60); manuf := None |};
       ev_now := 13; ev_now' := 13 |} ].

End FrameExamples.

(* ===================================================================== *)
(** ** utils/logging_utils.py: the network summary *)
(* ===================================================================== *)

Module Summary.

(** A network dictionary by the two keys [print_network_summary] reads. *)
Record entry : Type := {
  e_type : option string;
  e_encryption : option string
}.

(** The keys of the [types] dictionary. *)
Definition type_keys : list string :=
  ["POSSIBLE_OFFICIAL"; "ENTERPRISE"; "MOBILE_HOTSPOT"; "PUBLIC"; "STANDARD"].

(** The keys of the [encryption] dictionary when the loop starts. *)
Definition encryption_keys : list string := ["Open"; "WEP"; "WPA"; "WPA2/WPA3"].

(** A dictionary literal with every key at 0. *)
Definition zeros (keys : list string) : gmap string Z :=
  list_to_map (map (fun k => (k, 0)) keys).

Definition type_key (n : entry) : string := default "STANDARD" (e_type n).
Definition encryption_key (n : entry) : string := default "Unknown" (e_encryption n).

(** The body of the loop.  [types[...] += 1] raises [KeyError] on a key the
    dictionary does not have ([None]); the encryption counter is read with
    [.get(..., 0)]. *)
Definition tally (n : entry) (counters : gmap string Z * gmap string Z)
    : option (gmap string Z * gmap string Z) :=
  let '(types, encryption) := counters in
  match types !! type_key n with
  | None => None
  | Some c =>
      let k := encryption_key n in
      Some (<[type_key n := c + 1]> types,
            <[k := default 0 (encryption !! k) + 1]> encryption)
  end.

(** [for network in networks.values(): ...] *)
Fixpoint tally_all (networks : list entry) (counters : gmap string Z * gmap string Z)
    : option (gmap string Z * gmap string Z) :=
  match networks with
  | [] => Some counters
  | n :: networks' =>
      match tally n counters with
      | None => None
      | Some counters' => tally_all networks' counters'
      end
  end.

(** The numbers the summary prints: the two totals, the five type counts
    and the four encryption counts, in the order of the printed lines. *)
Record printed : Type := {
  p_total : Z;
  p_hidden : Z;
  p_types : list Z;
  p_encryption : list Z
}.

(** [print_network_summary(networks, hidden_count)], on the values of
    [networks] in order. *)
Definition print_network_summary (networks : list entry) (hidden_count : Z)
    : option printed :=
  match tally_all networks (zeros type_keys, zeros encryption_keys) with
  | None => None
  | Some (types, encryption) =>
      match mapM (fun k => types !! k) type_keys,
            mapM (fun k => encryption !! k)
              ["Open"; "WEP"; "WPA"; "WPA2/WPA3"] with
      | Some ts, Some es =>
          Some {| p_total := Z.of_nat (length networks);
                  p_hidden := hidden_count;
                  p_types := ts;
                  p_encryption := es |}
      | _, _ => None
      end
  end.

(** A scanner entry as the summary reads it. *)
Definition of_scanner (n : Scanner.network) : entry :=
  {| e_type := Some (Scanner.type n);
     e_encryption := Some (Scanner.encryption n) |}.

(** The values of the scanner's [networks]. *)
Definition entries_of (st : Scanner.state) : list entry :=
  map (fun bn => of_scanner (snd bn)) (map_to_list (Scanner.networks st)).

(** A network of the classifier as the summary reads it. *)
Definition of_classified (net : ClassifierReport.network) : entry :=
  {| e_type := ClassifierReport.type net;
     e_encryption := Classifier.nd_encryption (ClassifierReport.data net) |}.

(** The sum of the five type counters. *)
Definition sum5 (types : gmap string Z) : Z :=
  default 0 (types !! "POSSIBLE_OFFICIAL") + default 0 (types !! "ENTERPRISE")
  + default 0 (types !! "MOBILE_HOTSPOT") + default 0 (types !! "PUBLIC")
  + default 0 (types !! "STANDARD").

End Summary.

Module SummaryExamples.
Import Classifier ClassifierReport Examples.

(** A camera of a maker of IoT devices. *)
Definition camera : networks_t :=
  [ ("EE:5", {| data := {| nd_ssid := Some "CAM-01"; nd_encryption := Some "WPA2";
                           nd_hidden := Some false;
                           nd_manufacturer := Some "Nest Labs";
                           nd_signal := Some (-60) |};
                type := Some "STANDARD"; classification_confidence := None;
                classification_note := None |}) ].

End SummaryExamples.

(* ===================================================================== *)
(** ** graphs/signal_strength.py: the data of the bar chart *)
(* ===================================================================== *)

From Stdlib Require Import Sorted.

Module SignalChart.

(** A network dictionary by the keys [prepare_signal_data] reads.  [signal]
    is [Some v] when the key is present with a number (the scanner stores
    integers), [None] when it is absent or holds something else. *)
Record network : Type := {
  ssid : option string;
  bssid : option string;
  signal : option Z;
  type : option string
}.

(** ["signal" in n and isinstance(n["signal"], (int, float))] *)
Definition valid (n : network) : bool :=
  match signal n with Some _ => true | None => false end.

(** The sort key [n.get("signal", -100)]. *)
Definition key (n : network) : Z := default (-100) (signal n).

(** [sorted(..., key=..., reverse=True)]: the stable sort by decreasing key,
    networks with equal keys staying in their order. *)
Fixpoint insert_desc (n : network) (l : list network) : list network :=
  match l with
  | [] => [n]
  | m :: l' => if key n <? key m then m :: insert_desc n l' else n :: l
  end.

Definition sorted_desc (l : list network) : list network :=
  fold_right insert_desc [] l.

(** [l[:m]], also for a negative [m]. *)
Definition slice_to {A : Type} (m : Z) (l : list A) : list A :=
  if m <? 0 then firstn (Z.to_nat (Z.of_nat (length l) + m)) l
  else firstn (Z.to_nat m) l.

(** The label of one bar. *)
Definition label (n : network) : string :=
  let name :=
    match ssid n with
    | Some s => s
    | None => default "Unknown" (bssid n)
    end in
  let name :=
    match bssid n with
    | Some b =>
        if String.eqb name "[Hidden Network]"
        then ("Hidden (" ++ b ++ ")")%string
        else name
    | None => name
    end in
  if (20 <? String.length name)%nat
  then (substring 0 17 name ++ "...")%string
  else name.

(** [prepare_signal_data(networks, max_networks)] *)
Definition prepare_signal_data (networks : list network) (max_networks : Z)
    : list string * list Z * list string :=
  let valid_networks := List.filter valid networks in
  let sorted_networks := sorted_desc valid_networks in
  let sorted_networks :=
    if max_networks <? Z.of_nat (length sorted_networks)
    then slice_to max_networks sorted_networks
    else sorted_networks in
  (map label sorted_networks,
   map key sorted_networks,
   map (fun n => default "STANDARD" (type n)) sorted_networks).

(** The networks are in order of decreasing key. *)
Definition decreasing (l : list network) : Prop :=
  StronglySorted (fun a b => key b <= key a) l.

End SignalChart.

Module ChartExamples.
Import SignalChart.

Definition station (name b : string) (s : Z) : network :=
  {| ssid := Some name; bssid := Some b; signal := Some s;
     type := Some "STANDARD" |}.

(** Two hidden stations of one vendor, a named one, and one without a
    signal reading. *)
Definition four_stations : list network :=
  [ station "[Hidden Network]" "AA:BB:CC:00:00:01" (-70);
    station "Cafe" "DD:EE:FF:00:00:03" (-40);
    station "[Hidden Network]" "AA:BB:CC:00:00:02" (-55);
    {| ssid := Some "Lab"; bssid := None; signal := None; type := None |} ].

End ChartExamples.

(* ===================================================================== *)
(** * Properties of the classifier *)
(* ===================================================================== *)

Section ClassifierResolution.
Import Classifier Evidence Examples.

Lemma priority_rank_lookup t : priorities !! priority_rank t = Some t.
Proof. by destruct t. Qed.

Lemma max_of_upper (scores : scores_t) t : scores t <= max_of scores.
Proof. destruct t; unfold max_of; simpl; lia. Qed.

Lemma max_of_attained (scores : scores_t) : exists t, scores t = max_of scores.
Proof.
  assert (H : scores POSSIBLE_OFFICIAL = max_of scores
           \/ scores ENTERPRISE = max_of scores
           \/ scores MOBILE_HOTSPOT = max_of scores
           \/ scores PUBLIC = max_of scores
           \/ scores IOT = max_of scores
           \/ scores ISP_PROVIDED = max_of scores
           \/ scores STANDARD = max_of scores)
    by (unfold max_of; simpl; lia).
  decompose [or] H; eauto.
Qed.

(** Case analysis on which types reach the value [m]. *)
Ltac split_ties scores m :=
  destruct (Z.eqb_spec (scores POSSIBLE_OFFICIAL) m);
  destruct (Z.eqb_spec (scores ENTERPRISE) m);
  destruct (Z.eqb_spec (scores MOBILE_HOTSPOT) m);
  destruct (Z.eqb_spec (scores PUBLIC) m);
  destruct (Z.eqb_spec (scores IOT) m);
  destruct (Z.eqb_spec (scores ISP_PROVIDED) m);
  destruct (Z.eqb_spec (scores STANDARD) m).

Lemma resolve_no_evidence (scores : scores_t) :
  max_of scores = 0 -> resolve scores = (STANDARD, 0%Q).
Proof. intros H. unfold resolve. by rewrite H. Qed.

Lemma resolve_clear_winner (scores : scores_t) c :
  max_of scores <> 0 ->
  scores c = max_of scores ->
  (forall t, scores t = max_of scores -> t = c) ->
  resolve scores = (c, Qmin 1 (inject_Z (max_of scores) / 10)).
Proof.
  intros Hm Hc Huniq. unfold resolve.
  destruct (Z.eqb_spec (max_of scores) 0) as [|_]; [done|].
  unfold candidates_of, items, score_keys.
  generalize dependent (max_of scores). intros m Hm Hc Huniq.
  cbn [map List.filter].
  split_ties scores m; cbn [map fst];
    try (exfalso; destruct c; congruence);
    repeat match goal with
           | H : scores ?t = m |- _ => apply Huniq in H
           end;
    congruence.
Qed.

Lemma resolve_tie (scores : scores_t) c c' :
  max_of scores <> 0 ->
  scores c = max_of scores -> scores c' = max_of scores -> c <> c' ->
  exists p,
    resolve scores = (p, Qmin (7 # 10) (inject_Z (max_of scores) / 10))
    /\ scores p = max_of scores
    /\ forall t, scores t = max_of scores -> (priority_rank p <= priority_rank t)%nat.
Proof.
  intros Hm Hc Hc' Hne. unfold resolve.
  destruct (Z.eqb_spec (max_of scores) 0) as [|_]; [done|].
  unfold candidates_of, items, score_keys.
  generalize dependent (max_of scores). intros m Hm Hc Hc'.
  cbn [map List.filter].
  split_ties scores m; cbn [map fst];
    try (exfalso; destruct c, c'; congruence);
    (eexists; split; [vm_compute; reflexivity|]; split; [assumption|];
     intros t Ht; destruct t; simpl; solve [lia | congruence]).
Qed.

(** C1. For every record, [classify_network] resolves the accumulated scores
    as follows, [m] being their maximum: when [m = 0] the result is
    [(STANDARD, 0.0)]; when exactly one type reaches [m] the result is that
    type with confidence [min(1.0, m/10)]; when several types reach [m] the
    result is the tied type that comes first in the priority order, with
    confidence [min(0.7, m/10)], which never exceeds 0.7. *)
Theorem classify_network_resolution (nd : network_data) :
  let scores := accumulate nd in
  let m := max_of scores in
  ((forall t, scores t <= m) /\ (exists t, scores t = m))
  /\ (m = 0 -> classify_network nd = (STANDARD, 0%Q))
  /\ (forall c,
        m <> 0 -> scores c = m -> (forall t, scores t = m -> t = c) ->
        classify_network nd = (c, Qmin 1 (inject_Z m / 10)))
  /\ (forall c c',
        m <> 0 -> scores c = m -> scores c' = m -> c <> c' ->
        exists p,
          classify_network nd = (p, Qmin (7 # 10) (inject_Z m / 10))
          /\ scores p = m
          /\ (forall t, scores t = m -> (priority_rank p <= priority_rank t)%nat)
          /\ (snd (classify_network nd) <= 7 # 10)%Q).
Proof.
  intros scores m. unfold classify_network. fold scores.
  split; [split; [apply max_of_upper | apply max_of_attained] |].
  split; [apply resolve_no_evidence |].
  split; [intros c; apply resolve_clear_winner |].
  intros c c' Hm Hc Hc' Hne.
  destruct (resolve_tie scores c c' Hm Hc Hc' Hne) as (p & Hp & Hpm & Hfirst).
  exists p. repeat split; try assumption.
  rewrite Hp. apply Q.le_min_l.
Qed.

Lemma classify_network_resolution_witness :
  classify_network nd_silent = (STANDARD, 0%Q)
  /\ classify_network nd_cafe = (PUBLIC, Qmin 1 (inject_Z 7 / 10))
  /\ exists p,
       classify_network nd_office_guest = (p, Qmin (7 # 10) (inject_Z 4 / 10))
       /\ accumulate nd_office_guest p = 4
       /\ (forall t, accumulate nd_office_guest t = 4 ->
             (priority_rank p <= priority_rank t)%nat)
       /\ (snd (classify_network nd_office_guest) <= 7 # 10)%Q.
Proof.
  split; [| split].
  - destruct (classify_network_resolution nd_silent) as (_ & H & _).
    apply H. reflexivity.
  - destruct (classify_network_resolution nd_cafe) as (_ & _ & H & _).
    apply (H PUBLIC).
    + vm_compute. discriminate.
    + reflexivity.
    + intros t. destruct t; vm_compute; congruence.
  - destruct (classify_network_resolution nd_office_guest) as (_ & _ & _ & H).
    apply (H ENTERPRISE PUBLIC).
    + vm_compute. discriminate.
    + reflexivity.
    + reflexivity.
    + discriminate.
Defined.

End ClassifierResolution.

(* ===================================================================== *)
(** * The accumulated scores *)
(* ===================================================================== *)

Section ClassifierEvidence.
Import Classifier Evidence.

Lemma add_score_at k n (scores : scores_t) t :
  add_score k n scores t = scores t + (if decide (t = k) then n else 0).
Proof. unfold add_score. destruct (decide (t = k)); lia. Qed.

Lemma hits_cons k keywords s :
  hits (k :: keywords) s
  = (if PyStr.contains k s then 1 else 0) + hits keywords s.
Proof.
  unfold hits. cbn [List.filter].
  destruct (PyStr.contains k s); cbn [length]; lia.
Qed.

Lemma hits_app ks1 ks2 s : hits (ks1 ++ ks2) s = hits ks1 s + hits ks2 s.
Proof.
  induction ks1 as [|k ks1 IH]; [reflexivity|].
  rewrite <- app_comm_cons, !hits_cons, IH. lia.
Qed.

(** One pass over a keyword list adds 4 per keyword found, to one type. *)
Lemma check_patterns_at ssid k patterns (scores : scores_t) t :
  check_patterns ssid k patterns scores t
  = scores t + (if decide (t = k) then 4 * hits patterns ssid else 0).
Proof.
  unfold check_patterns.
  revert scores. induction patterns as [|p patterns IH]; intros scores.
  - cbn [fold_left]. unfold hits. simpl. destruct (decide (t = k)); lia.
  - cbn [fold_left]. rewrite IH, hits_cons.
    destruct (PyStr.contains p ssid); [rewrite add_score_at|];
      destruct (decide (t = k)); lia.
Qed.

Lemma check_types_at ssid (types : list (network_type * list string))
    (scores : scores_t) t :
  fold_left
    (fun scores '(network_type, patterns) =>
       check_patterns ssid network_type patterns scores)
    types scores t
  = scores t
    + 4 * hits (flat_map (fun '(k, patterns) =>
                            if decide (k = t) then patterns else []) types) ssid.
Proof.
  revert scores. induction types as [|[k patterns] types IH]; intros scores.
  - cbn. unfold hits. simpl. lia.
  - cbn [fold_left flat_map]. rewrite IH, hits_app, check_patterns_at.
    destruct (decide (t = k)) as [->|Hne].
    + destruct (decide (k = k)); [lia | congruence].
    + destruct (decide (k = t)); [congruence|]. unfold hits at 2. simpl. lia.
Qed.

Lemma check_ssid_patterns_at ssid (scores : scores_t) t :
  check_ssid_patterns ssid scores t = scores t + 4 * hits (keywords t) ssid.
Proof. apply check_types_at. Qed.

Lemma mfg_hit_at m (scores : scores_t) t : mfg_hit m scores t = scores t + vendor m t.
Proof.
  destruct m; cbn [mfg_hit]; rewrite ?add_score_at; destruct t; simpl; lia.
Qed.

(** One pass over a vendor list adds the class's points per vendor found. *)
Lemma check_mfg_list_at manufacturer m mfg_list (scores : scores_t) t :
  check_mfg_list manufacturer m mfg_list scores t
  = scores t + vendor m t * hits mfg_list manufacturer.
Proof.
  unfold check_mfg_list.
  revert scores. induction mfg_list as [|v mfg_list IH]; intros scores.
  - cbn [fold_left]. unfold hits. simpl. lia.
  - cbn [fold_left]. rewrite IH, hits_cons.
    destruct (PyStr.contains v manufacturer); [rewrite mfg_hit_at|]; lia.
Qed.

Lemma check_manufacturer_at manufacturer (scores : scores_t) t :
  check_manufacturer manufacturer scores t
  = scores t
    + (vendor GOVERNMENT t * hits (vendors GOVERNMENT) manufacturer
       + vendor MFG_ENTERPRISE t * hits (vendors MFG_ENTERPRISE) manufacturer
       + vendor CONSUMER t * hits (vendors CONSUMER) manufacturer
       + vendor MOBILE t * hits (vendors MOBILE) manufacturer
       + vendor MFG_IOT t * hits (vendors MFG_IOT) manufacturer).
Proof.
  unfold check_manufacturer, MANUFACTURER_TYPES. cbn [fold_left].
  rewrite !check_mfg_list_at.
  change (vendors GOVERNMENT) with
    ["HARRIS"; "GENERAL DYNAMICS"; "NORTHROP"; "LOCKHEED"; "RAYTHEON"].
  change (vendors MFG_ENTERPRISE) with
    ["CISCO"; "ARUBA"; "JUNIPER"; "EXTREME"; "FORTINET"; "RUCKUS"].
  change (vendors CONSUMER) with
    ["NETGEAR"; "LINKSYS"; "TP-LINK"; "D-LINK"; "BELKIN"; "ASUS"].
  change (vendors MOBILE) with
    ["APPLE"; "SAMSUNG"; "GOOGLE"; "HUAWEI"; "XIAOMI"; "MOTOROLA"; "HTC"].
  change (vendors MFG_IOT) with
    ["NEST"; "RING"; "ECOBEE"; "WYZE"; "SONOS"; "ROKU"; "AMAZON"].
  lia.
Qed.

Lemma check_hidden_at hidden (scores : scores_t) t :
  check_hidden hidden scores t = scores t + (if hidden then concealment t else 0).
Proof.
  unfold check_hidden. destruct hidden; rewrite ?add_score_at;
    destruct t; simpl; lia.
Qed.

Lemma check_encryption_at encryption (scores : scores_t) t :
  check_encryption encryption scores t
  = scores t
    + (if String.eqb encryption "WPA2/WPA3" then strong_encryption t
       else if String.eqb encryption "Open" then open_encryption t
       else 0).
Proof.
  unfold check_encryption.
  destruct (String.eqb encryption "WPA2/WPA3");
    [| destruct (String.eqb encryption "Open")];
    rewrite ?add_score_at; destruct t; simpl; lia.
Qed.

Lemma check_signal_at signal (scores : scores_t) t :
  check_signal signal scores t
  = scores t
    + (if -40 <? signal then very_strong_signal t
       else if signal <? -80 then weak_signal t
       else 0).
Proof.
  unfold check_signal.
  destruct (-40 <? signal); [| destruct (signal <? -80)];
    rewrite ?add_score_at; destruct t; simpl; lia.
Qed.


(** The keyword and vendor lists read back from the source tables. *)
Example keywords_PUBLIC :
  keywords PUBLIC
  = ["PUBLIC"; "GUEST"; "FREE"; "WIFI"; "AIRPORT"; "HOTEL";
     "CAFE"; "RESTAURANT"; "OPEN"; "LIBRARY"; "STORE"].
Proof. reflexivity. Qed.

Example keywords_STANDARD : keywords STANDARD = [].
Proof. reflexivity. Qed.

(** Two vendor names of one class found in the manufacturer count twice. *)
Example two_enterprise_vendors :
  accumulate
    {| nd_ssid := Some "lab"; nd_encryption := Some "WPA2";
       nd_hidden := Some false; nd_manufacturer := Some "Cisco/Aruba";
       nd_signal := Some (-60) |} ENTERPRISE = 6.
Proof. reflexivity. Qed.

End ClassifierEvidence.
(* ===================================================================== *)
(** * Properties of the stability analysis *)
(* ===================================================================== *)

Section Binary64Order.
Import SpecFloat Float64.

Lemma binary_round_aux_signed prec emax sx mx ex lx :
  signed sx (binary_round_aux prec emax sx mx ex lx).
Proof.
  unfold binary_round_aux.
  destruct (shr_fexp prec emax mx ex lx) as [mrs' e'].
  destruct (shr_fexp prec emax _ e' loc_Exact) as [mrs'' e''].
  destruct (shr_m mrs''); cbn; [exact I| |exact I].
  destruct (e'' <=? emax - prec); reflexivity.
Qed.

Lemma binary_round_signed prec emax sx mx ex :
  signed sx (binary_round prec emax sx mx ex).
Proof.
  unfold binary_round.
  destruct (shl_align mx ex _) as [mz ez]. apply binary_round_aux_signed.
Qed.

Lemma above_positive (m : positive) (e : Z) (f : spec_float) :
  SFltb (S754_finite false m e) f = true -> signed true f -> False.
Proof.
  unfold SFltb, SFcompare. destruct f as [s'|s'| |s' m' e']; cbn.
  - discriminate.
  - intros H ->. discriminate.
  - discriminate.
  - intros H ->. discriminate.
Qed.

Lemma binary_normalize_opp prec emax m e sz (mc : positive) (ec : Z) :
  SFltb (S754_finite false mc ec) (binary_normalize prec emax m e sz) = true ->
  SFltb (S754_finite false mc ec) (binary_normalize prec emax (- m) e sz) = false.
Proof.
  intros Hlt.
  destruct m as [|p|p]; cbn [binary_normalize Z.opp] in *.
  - discriminate.
  - apply not_true_iff_false. intros H.
    apply (above_positive mc ec _ H), binary_round_signed.
  - exfalso. apply (above_positive mc ec _ Hlt), binary_round_signed.
Qed.

(** When [x - y] lies above a positive number, [y - x] does not. *)
Lemma SFsub_above prec emax (mc : positive) (ec : Z) (x y : spec_float) :
  SFltb (S754_finite false mc ec) (SFsub prec emax x y) = true ->
  SFltb (S754_finite false mc ec) (SFsub prec emax y x) = false.
Proof.
  destruct x as [sx|sx| |sx mx ex], y as [sy|sy| |sy my ey];
    try (repeat match goal with s : bool |- _ => destruct s end;
         cbn; first [discriminate | reflexivity]).
  cbn [SFsub]. rewrite (Z.min_comm ey ex).
  set (ez := Z.min ex ey). intros H.
  replace (cond_Zopp sy (Z.pos (fst (shl_align my ey ez)))
           - cond_Zopp sx (Z.pos (fst (shl_align mx ex ez))))
    with (- (cond_Zopp sx (Z.pos (fst (shl_align mx ex ez)))
             - cond_Zopp sy (Z.pos (fst (shl_align my ey ez))))) by lia.
  by apply binary_normalize_opp.
Qed.

(** Below a finite positive number with a smaller exponent means below one
    with a larger exponent. *)
Lemma SFltb_below (m1 m2 : positive) (e1 e2 : Z) (x : spec_float) :
  e1 < e2 ->
  SFltb x (S754_finite false m1 e1) = true ->
  SFltb x (S754_finite false m2 e2) = true.
Proof.
  intros He. unfold SFltb, SFcompare.
  destruct x as [s|s| |s m e];
    [destruct s; cbn; congruence | destruct s; cbn; congruence
    | cbn; congruence |].
  destruct s; [reflexivity|].
  destruct (Z.compare_spec e e1) as [->|Hlt|Hgt].
  - intros _. destruct (Z.compare_spec e1 e2); (lia || reflexivity).
  - intros _. destruct (Z.compare_spec e e2); (lia || reflexivity).
  - discriminate.
Qed.

End Binary64Order.

Section StabilityAnalysis.
Import Analyzer Examples.

(** The specification value of an integer literal. *)
Ltac spec_of k :=
  let v := eval vm_compute in (FloatOps.Prim2SF (Float64.of_Z k)) in
  change (FloatOps.Prim2SF (Float64.of_Z k)) with v.

(** The second test of the trend never holds together with the first. *)
Lemma exceeds_once (x y : PrimFloat.float) :
  Float64.exceeds x y 3 -> ~ Float64.exceeds y x 3.
Proof.
  unfold Float64.exceeds. intros H H'. revert H H'.
  rewrite !FloatAxioms.ltb_spec, !FloatAxioms.sub_spec.
  spec_of 3.
  unfold FloatAxioms.SF64sub. intros H H'. apply SFsub_above in H. congruence.
Qed.

(** The thresholds of the stability bands are in increasing order. *)
Lemma below_2_below_5 (x : PrimFloat.float) :
  Float64.lt x (Float64.of_Z 2) -> Float64.lt x (Float64.of_Z 5).
Proof.
  unfold Float64.lt. rewrite !FloatAxioms.ltb_spec.
  spec_of 2.
  spec_of 5.
  apply SFltb_below. lia.
Qed.

Lemma below_5_below_10 (x : PrimFloat.float) :
  Float64.lt x (Float64.of_Z 5) -> Float64.lt x (Float64.of_Z 10).
Proof.
  unfold Float64.lt. rewrite !FloatAxioms.ltb_spec.
  spec_of 5.
  spec_of 10.
  apply SFltb_below. lia.
Qed.

Lemma analyze_enough (signals : list (Z * Z)) :
  (3 <= length signals)%nat ->
  stability (analyze_signal_stability signals) = stability_of (map snd signals)
  /\ trend (analyze_signal_stability signals) = trend_of (map snd signals).
Proof.
  intros Hlen. unfold analyze_signal_stability.
  destruct (Nat.ltb_spec (length signals) 3); [lia|]. split; reflexivity.
Qed.

Lemma analyze_few (signals : list (Z * Z)) :
  (length signals < 3)%nat ->
  analyze_signal_stability signals
  = {| stability := "Unknown"; signal_range := 0;
       min_signal := None; max_signal := None; trend := "Unknown" |}.
Proof.
  intros Hlen. unfold analyze_signal_stability.
  destruct (Nat.ltb_spec (length signals) 3); [reflexivity | lia].
Qed.

Lemma stability_of_bands (vs : list Z) :
  let sd := NumPy.std vs in
  (Float64.lt sd (Float64.of_Z 2) -> stability_of vs = "Very Stable")
  /\ (~ Float64.lt sd (Float64.of_Z 2) -> Float64.lt sd (Float64.of_Z 5) ->
      stability_of vs = "Stable")
  /\ (~ Float64.lt sd (Float64.of_Z 5) -> Float64.lt sd (Float64.of_Z 10) ->
      stability_of vs = "Moderately Stable")
  /\ (~ Float64.lt sd (Float64.of_Z 10) -> stability_of vs = "Unstable").
Proof.
  intros sd. unfold stability_of. fold sd.
  pose proof (below_2_below_5 sd) as H25.
  pose proof (below_5_below_10 sd) as H510.
  unfold Float64.lt in *.
  destruct (PrimFloat.ltb sd (Float64.of_Z 2));
    destruct (PrimFloat.ltb sd (Float64.of_Z 5));
    destruct (PrimFloat.ltb sd (Float64.of_Z 10));
    repeat split; intros; try reflexivity; try congruence;
    exfalso; auto using eq_refl; discriminate (H25 eq_refl) || discriminate (H510 eq_refl).
Qed.

Lemma five_samples_std :
  Float64.to_Q (NumPy.std five_samples)
  = Some (4592788476274270 # 4503599627370496)%Q.
Proof. vm_compute. reflexivity. Qed.

(** C8 (amended). For every sequence of at least 3 samples the stability band
    follows the standard deviation of the signal values as [np.std]
    computes it in binary64: below 2 it is "Very Stable", from 2 and below 5
    "Stable", from 5 and below 10 "Moderately Stable", and "Unstable"
    otherwise.  The samples [-50, -51, -49, -50, -52] have a standard
    deviation of about 1.02 and are "Very Stable". *)
Theorem stability_bands (signals : list (Z * Z)) :
  (3 <= length signals)%nat ->
  NumPy.exactly_summed (map snd signals) ->
  let sd := NumPy.std (map snd signals) in
  let r := analyze_signal_stability signals in
  (Float64.lt sd (Float64.of_Z 2) -> stability r = "Very Stable")
  /\ (~ Float64.lt sd (Float64.of_Z 2) -> Float64.lt sd (Float64.of_Z 5) ->
      stability r = "Stable")
  /\ (~ Float64.lt sd (Float64.of_Z 5) -> Float64.lt sd (Float64.of_Z 10) ->
      stability r = "Moderately Stable")
  /\ (~ Float64.lt sd (Float64.of_Z 10) -> stability r = "Unstable")
  /\ (map snd signals = five_samples ->
        stability r = "Very Stable"
        /\ Float64.near sd (102 # 100) (1 # 1000)).
Proof.
  intros Hlen _ sd r.
  destruct (analyze_enough signals Hlen) as [Hs _]. subst r. rewrite Hs.
  destruct (stability_of_bands (map snd signals)) as (H2 & H5 & H10 & Hun).
  do 4 (split; [assumption|]).
  intros Hfive. subst sd. rewrite Hfive in *. split.
  - apply H2. vm_compute. reflexivity.
  - eexists. split; [apply five_samples_std|].
    split; unfold Qle; cbn; lia.
Qed.

Lemma small_samples (vs : list Z) :
  forallb (fun v => (- 2 ^ 31 <=? v) && (v <? 2 ^ 31)) vs = true ->
  Z.of_nat (length vs) <= 2 ^ 20 ->
  NumPy.exactly_summed vs.
Proof.
  intros Hall Hlen. split; [|exact Hlen].
  apply List.Forall_forall. intros v Hv.
  rewrite forallb_forall in Hall. specialize (Hall v Hv).
  apply andb_true_iff in Hall as [H1 H2]. lia.
Qed.

Lemma stability_bands_witness :
  stability (analyze_signal_stability (stamped five_samples)) = "Very Stable"
  /\ stability (analyze_signal_stability (stamped stable_samples)) = "Stable"
  /\ stability (analyze_signal_stability (stamped moderate_samples))
     = "Moderately Stable"
  /\ stability (analyze_signal_stability (stamped unstable_samples)) = "Unstable"
  /\ Float64.near (NumPy.std (map snd (stamped five_samples))) (102 # 100) (1 # 1000).
Proof.
  assert (H5 : (3 <= length (stamped five_samples))%nat) by (simpl; lia).
  assert (H4 : (3 <= length (stamped stable_samples))%nat) by (simpl; lia).
  assert (H6 : (3 <= length (stamped moderate_samples))%nat) by (simpl; lia).
  assert (H4' : (3 <= length (stamped unstable_samples))%nat) by (simpl; lia).
  assert (S5 : NumPy.exactly_summed (map snd (stamped five_samples)))
    by (apply small_samples; [reflexivity | simpl; lia]).
  assert (S4 : NumPy.exactly_summed (map snd (stamped stable_samples)))
    by (apply small_samples; [reflexivity | simpl; lia]).
  assert (S6 : NumPy.exactly_summed (map snd (stamped moderate_samples)))
    by (apply small_samples; [reflexivity | simpl; lia]).
  assert (S4' : NumPy.exactly_summed (map snd (stamped unstable_samples)))
    by (apply small_samples; [reflexivity | simpl; lia]).
  destruct (stability_bands (stamped five_samples) H5 S5) as (_ & _ & _ & _ & Hfive).
  destruct (stability_bands (stamped stable_samples) H4 S4) as (_ & Hstable & _).
  destruct (stability_bands (stamped moderate_samples) H6 S6) as (_ & _ & Hmod & _).
  destruct (stability_bands (stamped unstable_samples) H4' S4')
    as (_ & _ & _ & Hunst & _).
  split; [apply Hfive; reflexivity|].
  split; [apply Hstable; vm_compute; [discriminate | reflexivity]|].
  split; [apply Hmod; vm_compute; [discriminate | reflexivity]|].
  split; [apply Hunst; vm_compute; discriminate|].
  apply Hfive. reflexivity.
Defined.

(** The standard deviation [np.std] computes for [-50, -51, -49, -50, -52]
    is not within 0.1 of 1.17: it is 1.0198039027185568. *)
Lemma five_samples_std_dev_not_1_17 :
  (3 <= length (stamped five_samples))%nat
  /\ NumPy.exactly_summed (map snd (stamped five_samples))
  /\ ~ Float64.near (NumPy.std (map snd (stamped five_samples)))
        (117 # 100) (1 # 10).
Proof.
  split; [simpl; lia|]. split; [apply small_samples; [reflexivity | simpl; lia]|].
  change (map snd (stamped five_samples)) with five_samples.
  intros (v & Hv & Hlo & _). rewrite five_samples_std in Hv.
  injection Hv as <-. revert Hlo. unfold Qle. cbn. lia.
Qed.

(** Nine samples with the exact standard deviation 2, for which [np.std]
    returns 1.9999999999999998: the band is "Very Stable". *)
Example edge_samples_very_stable :
  (ExactAnalyzer.variance edge_samples == 4)%Q
  /\ stability (analyze_signal_stability (stamped edge_samples)) = "Very Stable".
Proof. split; reflexivity. Qed.

Lemma trend_of_cases (vs : list Z) :
  let n := length vs in
  let first_mean := NumPy.mean (firstn (n / 2) vs) in
  let second_mean := NumPy.mean (skipn (n / 2) vs) in
  ((10 <= n)%nat -> Float64.exceeds second_mean first_mean 3 ->
     trend_of vs = "Improving")
  /\ ((10 <= n)%nat -> Float64.exceeds first_mean second_mean 3 ->
        trend_of vs = "Deteriorating")
  /\ ((10 <= n)%nat -> ~ Float64.exceeds second_mean first_mean 3 ->
        ~ Float64.exceeds first_mean second_mean 3 -> trend_of vs = "Stable")
  /\ ((n < 10)%nat -> trend_of vs = "Insufficient Data").
Proof.
  intros n first_mean second_mean. unfold trend_of.
  fold n. fold first_mean. fold second_mean.
  pose proof (exceeds_once first_mean second_mean) as Honce.
  unfold Float64.exceeds in *.
  destruct (Nat.leb_spec 10 n) as [Hn|Hn].
  - destruct (PrimFloat.ltb (Float64.of_Z 3) (PrimFloat.sub second_mean first_mean));
      destruct (PrimFloat.ltb (Float64.of_Z 3) (PrimFloat.sub first_mean second_mean));
      repeat split; intros; try reflexivity; try congruence; try lia;
      exfalso; auto.
  - repeat split; intros; first [reflexivity | exfalso; lia].
Qed.

(** C7 (amended). With at least 10 samples the trend compares the means of
    the two halves of the signal values, split at the midpoint, as [np.mean]
    computes them in binary64: "Improving" when the second-half mean exceeds
    the first-half mean by more than 3, "Deteriorating" when the first-half
    mean exceeds the second-half mean by more than 3, "Stable" otherwise.
    With at least 3 and fewer than 10 samples the trend is "Insufficient
    Data"; with fewer than 3 samples it is "Unknown".  The samples
    [-50 x 5, -60 x 5] are "Deteriorating". *)
Theorem trend_by_halves (signals : list (Z * Z)) :
  NumPy.exactly_summed (map snd signals) ->
  let vs := map snd signals in
  let n := length vs in
  let first_mean := NumPy.mean (firstn (n / 2) vs) in
  let second_mean := NumPy.mean (skipn (n / 2) vs) in
  let r := analyze_signal_stability signals in
  ((10 <= n)%nat -> Float64.exceeds second_mean first_mean 3 ->
     trend r = "Improving")
  /\ ((10 <= n)%nat -> Float64.exceeds first_mean second_mean 3 ->
        trend r = "Deteriorating")
  /\ ((10 <= n)%nat -> ~ Float64.exceeds second_mean first_mean 3 ->
        ~ Float64.exceeds first_mean second_mean 3 -> trend r = "Stable")
  /\ ((3 <= n < 10)%nat -> trend r = "Insufficient Data")
  /\ ((n < 3)%nat -> trend r = "Unknown")
  /\ (vs = ten_samples -> trend r = "Deteriorating").
Proof.
  intros _ vs n first_mean second_mean r.
  assert (Hn : n = length signals) by (subst n vs; apply length_map).
  destruct (trend_of_cases vs) as (Hup & Hdown & Hflat & Hshort).
  fold n first_mean second_mean in Hup, Hdown, Hflat, Hshort.
  assert (Hr : (3 <= n)%nat -> trend r = trend_of vs).
  { intros H3. apply analyze_enough. lia. }
  repeat split.
  - intros. rewrite Hr by lia. auto.
  - intros. rewrite Hr by lia. auto.
  - intros. rewrite Hr by lia. auto.
  - intros. rewrite Hr by lia. apply Hshort. lia.
  - intros. subst r. rewrite analyze_few by lia. reflexivity.
  - intros Hvs. rewrite Hr by (subst n; rewrite Hvs; simpl; lia).
    rewrite Hvs. reflexivity.
Qed.

Lemma trend_by_halves_witness :
  trend (analyze_signal_stability (stamped rising_samples)) = "Improving"
  /\ trend (analyze_signal_stability (stamped ten_samples)) = "Deteriorating"
  /\ trend (analyze_signal_stability (stamped flat_samples)) = "Stable"
  /\ trend (analyze_signal_stability (stamped five_samples)) = "Insufficient Data"
  /\ trend (analyze_signal_stability (stamped two_samples)) = "Unknown".
Proof.
  destruct (trend_by_halves (stamped rising_samples)) as (Hup & _);
    [apply small_samples; [reflexivity | simpl; lia]|].
  destruct (trend_by_halves (stamped ten_samples)) as (_ & Hdown & _);
    [apply small_samples; [reflexivity | simpl; lia]|].
  destruct (trend_by_halves (stamped flat_samples)) as (_ & _ & Hflat & _);
    [apply small_samples; [reflexivity | simpl; lia]|].
  destruct (trend_by_halves (stamped five_samples)) as (_ & _ & _ & Hshort & _);
    [apply small_samples; [reflexivity | simpl; lia]|].
  destruct (trend_by_halves (stamped two_samples)) as (_ & _ & _ & _ & Hnone & _);
    [apply small_samples; [reflexivity | simpl; lia]|].
  split; [apply Hup; [simpl; lia | reflexivity]|].
  split; [apply Hdown; [simpl; lia | reflexivity]|].
  split; [apply Hflat; [simpl; lia | vm_compute; discriminate ..]|].
  split; [apply Hshort; simpl; lia|].
  apply Hnone. simpl. lia.
Defined.

(** Two samples are fewer than 10, and their trend is not
    "Insufficient Data". *)
Lemma two_samples_trend_unknown :
  (length (stamped two_samples) < 10)%nat
  /\ trend (analyze_signal_stability (stamped two_samples)) <> "Insufficient Data".
Proof. split; [simpl; lia | vm_compute; discriminate]. Qed.

(** Ten samples whose halves have exact means that differ by 3, not more:
    the binary64 means differ by 3.0000000000000071 and the trend is
    "Deteriorating". *)
Example tied_halves_deteriorating :
  (ExactAnalyzer.mean (firstn 5 tied_halves)
   - ExactAnalyzer.mean (skipn 5 tied_halves) == 3)%Q
  /\ trend (analyze_signal_stability (stamped tied_halves)) = "Deteriorating".
Proof. split; reflexivity. Qed.

(** C9. With fewer than 3 samples the analysis returns the report whose
    stability is "Unknown" (with zero range and "Unknown" trend); the
    function is total, so nothing is raised. *)
Theorem analyze_insufficient_data (signals : list (Z * Z)) :
  (length signals < 3)%nat ->
  analyze_signal_stability signals
  = {| stability := "Unknown"; signal_range := 0;
       min_signal := None; max_signal := None; trend := "Unknown" |}
  /\ stability (analyze_signal_stability signals) = "Unknown".
Proof.
  intros Hlen. rewrite analyze_few by assumption. split; reflexivity.
Qed.

Lemma analyze_insufficient_data_witness :
  stability (analyze_signal_stability []) = "Unknown"
  /\ stability (analyze_signal_stability (stamped two_samples)) = "Unknown".
Proof.
  split.
  - apply (analyze_insufficient_data []). simpl. lia.
  - apply (analyze_insufficient_data (stamped two_samples)). simpl. lia.
Defined.

End StabilityAnalysis.

(* ===================================================================== *)
(** * Properties of the scanner's station store *)
(* ===================================================================== *)

Section StationStore.
Import Dot11 Scanner Store Session Examples.

Lemma discloses_true st b s :
  discloses st b s = true
  <-> b ∈ hidden_networks st /\ s <> "" /\ s <> HIDDEN_NETWORK.
Proof.
  unfold discloses.
  rewrite !andb_true_iff, !negb_true_iff, bool_decide_eq_true.
  rewrite <- !not_true_iff_false, !String.eqb_eq. tauto.
Qed.

Lemma process_beacon_known now now' packet st n :
  networks st !! addr2 packet = Some n ->
  process_beacon now now' packet st
  = {| networks :=
         <[addr2 packet := refresh (get_signal_strength packet) now n]> (networks st);
       hidden_networks := hidden_networks st |}.
Proof. intros H. unfold process_beacon. by rewrite H. Qed.

Lemma process_probe_response_hit now packet st s n :
  info packet = Some s ->
  discloses st (addr2 packet) s = true ->
  networks st !! addr2 packet = Some n ->
  process_probe_response now packet st
  = {| networks := <[addr2 packet := uncover s now n]> (networks st);
       hidden_networks := hidden_networks st ∖ {[addr2 packet]} |}.
Proof.
  intros Hi Hd Hn. unfold process_probe_response. by rewrite Hi, Hd, Hn.
Qed.

Lemma process_beacon_hidden_known now now' packet st :
  readers_raise packet = false ->
  hidden_known st -> hidden_known (process_beacon now now' packet st).
Proof.
  intros Hret Hinv b. unfold process_beacon. rewrite Hret.
  destruct (networks st !! addr2 packet) as [n|] eqn:Hn; cbn.
  - intros Hb. destruct (Hinv b Hb) as (m & Hm & Hflag).
    destruct (decide (b = addr2 packet)) as [->|Hne].
    + rewrite lookup_insert_eq. eexists; split; [reflexivity|].
      cbn. congruence.
    + rewrite lookup_insert_ne by congruence. eauto.
  - destruct (String.eqb_spec
                (match info packet with Some s => s | None => "Unknown" end) "")
      as [Hempty|Hfull].
    + intros Hb. destruct (decide (b = addr2 packet)) as [->|Hne].
      * rewrite lookup_insert_eq. eexists; split; reflexivity.
      * rewrite lookup_insert_ne by congruence. apply Hinv.
        apply elem_of_union in Hb as [Hb%elem_of_singleton|Hb]; [contradiction | exact Hb].
    + intros Hb. destruct (Hinv b Hb) as (m & Hm & Hflag).
      destruct (decide (b = addr2 packet)) as [->|Hne]; [congruence|].
      rewrite lookup_insert_ne by congruence. eauto.
Qed.

Lemma process_probe_response_hidden_known now packet st :
  hidden_known st -> hidden_known (process_probe_response now packet st).
Proof.
  intros Hinv b. unfold process_probe_response.
  destruct (info packet) as [s|]; [|apply Hinv].
  destruct (discloses st (addr2 packet) s); [|apply Hinv].
  destruct (networks st !! addr2 packet) as [n|] eqn:Hn; [|apply Hinv].
  cbn. intros [Hb Hne%not_elem_of_singleton]%elem_of_difference.
  rewrite lookup_insert_ne by congruence. by apply Hinv.
Qed.

Lemma step_hidden_known st ev :
  quiet ev -> hidden_known st -> hidden_known (step st ev).
Proof.
  intros Hret Hinv. unfold step, process_packet.
  destruct (has_Dot11Beacon (ev_packet ev));
    [by apply process_beacon_hidden_known|].
  destruct (has_Dot11ProbeResp (ev_packet ev));
    [by apply process_probe_response_hidden_known | assumption].
Qed.

Lemma run_hidden_known evs st :
  Forall quiet evs -> hidden_known st -> hidden_known (run evs st).
Proof.
  revert st. induction evs as [|ev evs IH]; intros st Hall Hinv; [assumption|].
  inversion Hall; subst. cbn. apply IH; [assumption|].
  by apply step_hidden_known.
Qed.

Lemma init_hidden_known : hidden_known init.
Proof. intros b Hb. cbn in Hb. by apply not_elem_of_empty in Hb. Qed.

Lemma run_reachable evs st : reachable st -> reachable (run evs st).
Proof.
  revert st. induction evs as [|ev evs IH]; intros st Hst; [assumption|].
  cbn. apply IH. by constructor.
Qed.

(** A station that is visible stays visible through any event. *)
Lemma step_visible st ev b : visible st b -> visible (step st ev) b.
Proof.
  intros (Hout & n & Hn & Hflag). unfold visible, step, process_packet.
  destruct (has_Dot11Beacon (ev_packet ev)).
  - unfold process_beacon.
    destruct (networks st !! addr2 (ev_packet ev)) as [m|] eqn:Hm; cbn.
    + split; [assumption|].
      destruct (decide (addr2 (ev_packet ev) = b)) as [Heq|Hne].
      * rewrite Heq, lookup_insert_eq. eexists; split; [reflexivity|].
        cbn. congruence.
      * rewrite lookup_insert_ne by assumption. eauto.
    + assert (Hne : addr2 (ev_packet ev) <> b) by congruence.
      assert (Hstill :
        b ∉ (if String.eqb
                  match info (ev_packet ev) with Some s => s | None => "Unknown" end ""
             then {[addr2 (ev_packet ev)]} ∪ hidden_networks st
             else hidden_networks st)).
      { destruct (String.eqb _ ""); [|assumption].
        rewrite elem_of_union, elem_of_singleton. intros [Heq|Hin]; congruence. }
      destruct (readers_raise (ev_packet ev)); cbn.
      * split; [exact Hstill | eauto].
      * split; [exact Hstill|].
        rewrite lookup_insert_ne by assumption. eauto.
  - destruct (has_Dot11ProbeResp (ev_packet ev)); [|by split; eauto].
    unfold process_probe_response.
    destruct (info (ev_packet ev)) as [s|]; [|by split; eauto].
    destruct (discloses st (addr2 (ev_packet ev)) s) eqn:Hd; [|by split; eauto].
    destruct (networks st !! addr2 (ev_packet ev)) as [m|] eqn:Hm;
      [|by split; eauto].
    apply discloses_true in Hd as (Hin & _).
    assert (Hne : addr2 (ev_packet ev) <> b) by congruence.
    cbn. split; [rewrite elem_of_difference; tauto|].
    rewrite lookup_insert_ne by assumption. eauto.
Qed.

Lemma run_visible evs st b : visible st b -> visible (run evs st) b.
Proof.
  revert st. induction evs as [|ev evs IH]; intros st Hv; [assumption|].
  cbn. apply IH. by apply step_visible.
Qed.

Lemma st_two_reachable : reachable st_two.
Proof.
  apply (reachable_step _ {| ev_packet := beacon "BB:2" (Some "Cafe") 1 "Open" (-70);
                             ev_now := 12; ev_now' := 13 |}).
  apply (reachable_step _ {| ev_packet := beacon "AA:1" (Some "") 6 "WPA2" (-55);
                             ev_now := 10; ev_now' := 11 |}).
  constructor.
Qed.

Lemma st_two_hidden_known : hidden_known st_two.
Proof.
  unfold st_two, st_concealed.
  do 2 (apply process_beacon_hidden_known; [reflexivity|]).
  apply init_hidden_known.
Qed.

(** C3. In a store where every address of [hidden_networks] has an entry,
    a probe response changes the state only when its sender is in
    [hidden_networks] and the disclosed name is neither empty nor the
    "[Hidden Network]" sentinel; it then stores the name, clears the hidden
    flag, sets [last_seen] and removes the sender from [hidden_networks].
    For an unknown station, an already visible station, an undecodable,
    empty or sentinel name the state is returned unchanged. *)
Theorem probe_response_resolves (now : Z) (packet : packet) (st : state) :
  hidden_known st ->
  let b := addr2 packet in
  let st' := process_probe_response now packet st in
  (forall s,
      info packet = Some s -> b ∈ hidden_networks st ->
      s <> "" -> s <> HIDDEN_NETWORK ->
      exists n',
        networks st' !! b = Some n'
        /\ ssid n' = s /\ hidden n' = false /\ last_seen n' = now
        /\ hidden_networks st' = hidden_networks st ∖ {[b]})
  /\ (networks st !! b = None -> st' = st)
  /\ (forall n, networks st !! b = Some n -> hidden n = false -> st' = st)
  /\ (b ∉ hidden_networks st -> st' = st)
  /\ (info packet = None \/ info packet = Some ""
      \/ info packet = Some HIDDEN_NETWORK -> st' = st).
Proof.
  intros Hinv b st'.
  assert (Hout : b ∉ hidden_networks st -> st' = st).
  { intros Hb. subst st'. unfold process_probe_response.
    destruct (info packet) as [s|]; [|reflexivity].
    destruct (discloses st (addr2 packet) s) eqn:Hd; [|reflexivity].
    apply discloses_true in Hd as (Hin & _). contradiction. }
  split; [|split; [|split; [|split]]].
  - intros s Hs Hb Hne Hsent.
    destruct (Hinv b Hb) as (n & Hn & _).
    assert (Hd : discloses st b s = true) by (by apply discloses_true).
    subst st'. rewrite (process_probe_response_hit now packet st s n Hs Hd Hn).
    cbn. fold b. rewrite lookup_insert_eq. eauto 6.
  - intros Hnone. apply Hout. intros Hb.
    destruct (Hinv b Hb) as (n & Hn & _). congruence.
  - intros n Hn Hflag. apply Hout. intros Hb.
    destruct (Hinv b Hb) as (m & Hm & Hm'). congruence.
  - exact Hout.
  - subst st'. unfold process_probe_response.
    intros [-> | [-> | ->]]; [reflexivity | |].
    + unfold discloses. cbn. by rewrite andb_false_r.
    + unfold discloses. cbn. by rewrite andb_false_r.
Qed.

Lemma probe_response_resolves_witness :
  (exists n',
      networks (process_probe_response 20 (probe_response "AA:1" (Some "OFFICE-NET")) st_two)
        !! "AA:1" = Some n'
      /\ ssid n' = "OFFICE-NET" /\ hidden n' = false /\ last_seen n' = 20
      /\ hidden_networks
           (process_probe_response 20 (probe_response "AA:1" (Some "OFFICE-NET")) st_two)
         = hidden_networks st_two ∖ {["AA:1"]})
  /\ process_probe_response 20 (probe_response "CC:3" (Some "OFFICE-NET")) st_two = st_two
  /\ process_probe_response 20 (probe_response "BB:2" (Some "Bistro")) st_two = st_two
  /\ process_probe_response 20 (probe_response "AA:1" (Some "")) st_two = st_two.
Proof.
  pose proof st_two_hidden_known as Hinv.
  destruct (probe_response_resolves 20 (probe_response "AA:1" (Some "OFFICE-NET"))
              st_two Hinv) as (Hhit & _).
  destruct (probe_response_resolves 20 (probe_response "CC:3" (Some "OFFICE-NET"))
              st_two Hinv) as (_ & Hunknown & _).
  destruct (probe_response_resolves 20 (probe_response "BB:2" (Some "Bistro"))
              st_two Hinv) as (_ & _ & Hvisible & _).
  destruct (probe_response_resolves 20 (probe_response "AA:1" (Some ""))
              st_two Hinv) as (_ & _ & _ & _ & Hempty).
  split; [|split; [|split]].
  - apply (Hhit "OFFICE-NET"); [reflexivity | | discriminate | discriminate].
    apply (bool_decide_unpack _). vm_compute. exact I.
  - apply Hunknown. reflexivity.
  - eapply Hvisible; reflexivity.
  - apply Hempty. right. left. reflexivity.
Defined.

(** C10. When a probe response resolves a hidden station, the station's
    entry keeps its address, channel, encryption, signal, manufacturer, type
    and first_seen (only ssid, hidden and last_seen are assigned), and the
    entry of every other station is unchanged. *)
Theorem probe_response_frame (now : Z) (packet : packet) (st : state)
    (s : string) (n : network) :
  info packet = Some s ->
  addr2 packet ∈ hidden_networks st ->
  s <> "" -> s <> HIDDEN_NETWORK ->
  networks st !! addr2 packet = Some n ->
  let st' := process_probe_response now packet st in
  (exists n',
      networks st' !! addr2 packet = Some n'
      /\ (ssid n' = s /\ hidden n' = false /\ last_seen n' = now)
      /\ bssid n' = bssid n
      /\ channel n' = channel n
      /\ encryption n' = encryption n
      /\ signal n' = signal n
      /\ manufacturer n' = manufacturer n
      /\ type n' = type n
      /\ first_seen n' = first_seen n)
  /\ (forall b', b' <> addr2 packet -> networks st' !! b' = networks st !! b').
Proof.
  intros Hs Hb Hne Hsent Hn st'.
  assert (Hd : discloses st (addr2 packet) s = true) by (by apply discloses_true).
  subst st'. rewrite (process_probe_response_hit now packet st s n Hs Hd Hn).
  cbn. split.
  - rewrite lookup_insert_eq. eexists. split; [reflexivity|].
    cbn. tauto.
  - intros b' Hb'. by rewrite lookup_insert_ne.
Qed.

Lemma probe_response_frame_witness :
  let st' := process_probe_response 20 (probe_response "AA:1" (Some "OFFICE-NET")) st_two in
  (exists n',
      networks st' !! "AA:1" = Some n'
      /\ (ssid n' = "OFFICE-NET" /\ hidden n' = false /\ last_seen n' = 20)
      /\ bssid n' = "AA:1"
      /\ channel n' = 6
      /\ encryption n' = "WPA2"
      /\ signal n' = -55
      /\ manufacturer n' = "Unknown"
      /\ type n' = "STANDARD"
      /\ first_seen n' = 10)
  /\ (forall b', b' <> "AA:1" -> networks st' !! b' = networks st_two !! b').
Proof.
  apply (probe_response_frame 20 (probe_response "AA:1" (Some "OFFICE-NET")) st_two
           "OFFICE-NET"
           {| ssid := HIDDEN_NETWORK; bssid := "AA:1"; channel := 6;
              encryption := "WPA2"; signal := -55; manufacturer := "Unknown";
              first_seen := 10; last_seen := 11; hidden := true;
              type := "STANDARD" |}).
  - reflexivity.
  - apply (bool_decide_unpack _). vm_compute. exact I.
  - discriminate.
  - discriminate.
  - reflexivity.
Defined.

(** C6. Once a probe response has resolved a station, no later sequence of
    events puts its address back into [hidden_networks] or sets its hidden
    flag again; in particular later beacons with an empty name do not. *)
Theorem resolved_stays_visible (now : Z) (packet : packet) (st : state)
    (s : string) (evs : list event) :
  hidden_known st ->
  info packet = Some s ->
  addr2 packet ∈ hidden_networks st ->
  s <> "" -> s <> HIDDEN_NETWORK ->
  let st1 := process_probe_response now packet st in
  let st2 := run evs st1 in
  ((addr2 packet ∉ hidden_networks st1)
   /\ exists n1, networks st1 !! addr2 packet = Some n1 /\ hidden n1 = false)
  /\ ((addr2 packet ∉ hidden_networks st2)
      /\ exists n2, networks st2 !! addr2 packet = Some n2 /\ hidden n2 = false).
Proof.
  intros Hinv Hs Hb Hne Hsent st1 st2.
  assert (Hv : visible st1 (addr2 packet)).
  { destruct (Hinv _ Hb) as (n & Hn & _).
    assert (Hd : discloses st (addr2 packet) s = true) by (by apply discloses_true).
    subst st1. rewrite (process_probe_response_hit now packet st s n Hs Hd Hn).
    split; cbn.
    - rewrite elem_of_difference, elem_of_singleton. tauto.
    - rewrite lookup_insert_eq. eauto. }
  split; [exact Hv|]. subst st2. by apply run_visible.
Qed.

Lemma resolved_stays_visible_witness :
  let st2 :=
    run later_events
      (process_probe_response 20 (probe_response "AA:1" (Some "OFFICE-NET")) st_two) in
  ("AA:1" ∉ hidden_networks st2)
  /\ exists n2, networks st2 !! "AA:1" = Some n2 /\ hidden n2 = false.
Proof.
  apply (resolved_stays_visible 20 (probe_response "AA:1" (Some "OFFICE-NET")) st_two
           "OFFICE-NET" later_events).
  - apply st_two_hidden_known.
  - reflexivity.
  - apply (bool_decide_unpack _). vm_compute. exact I.
  - discriminate.
  - discriminate.
Defined.

Lemma step_flagged_listed st ev :
  info (ev_packet ev) <> Some HIDDEN_NETWORK ->
  flagged_listed st -> flagged_listed (step st ev).
Proof.
  intros Hname Hinv b n. unfold step, process_packet.
  destruct (has_Dot11Beacon (ev_packet ev)).
  - unfold process_beacon.
    destruct (networks st !! addr2 (ev_packet ev)) as [m|] eqn:Hm; cbn.
    + destruct (decide (addr2 (ev_packet ev) = b)) as [Heq|Hneq].
      * rewrite Heq, lookup_insert_eq. intros [= <-]. cbn.
        apply Hinv. congruence.
      * rewrite lookup_insert_ne by assumption. apply Hinv.
    + destruct (readers_raise (ev_packet ev)); cbn.
      { intros Hn Hflag. pose proof (Hinv b n Hn Hflag).
        destruct (String.eqb _ ""); [apply elem_of_union_r|]; assumption. }
      destruct (decide (addr2 (ev_packet ev) = b)) as [Heq|Hneq].
      * rewrite Heq, lookup_insert_eq. intros [= <-]. cbn.
        destruct (String.eqb_spec
                    (match info (ev_packet ev) with Some s => s | None => "Unknown" end)
                    "") as [Hempty|Hfull].
        -- intros _. apply elem_of_union_l, elem_of_singleton. reflexivity.
        -- intros Hsent%String.eqb_eq. exfalso.
           destruct (info (ev_packet ev)) as [s|]; [|discriminate].
           apply Hname. by f_equal.
      * rewrite lookup_insert_ne by assumption. intros Hn Hflag.
        pose proof (Hinv b n Hn Hflag).
        destruct (String.eqb _ ""); [apply elem_of_union_r|]; assumption.
  - destruct (has_Dot11ProbeResp (ev_packet ev)); [|apply Hinv].
    unfold process_probe_response.
    destruct (info (ev_packet ev)) as [s|]; [|apply Hinv].
    destruct (discloses st (addr2 (ev_packet ev)) s); [|apply Hinv].
    destruct (networks st !! addr2 (ev_packet ev)) as [m|] eqn:Hm; [|apply Hinv].
    cbn. destruct (decide (addr2 (ev_packet ev) = b)) as [Heq|Hneq].
    + rewrite Heq, lookup_insert_eq. intros [= <-]. cbn. discriminate.
    + rewrite lookup_insert_ne by assumption. intros Hn Hflag.
      rewrite elem_of_difference, elem_of_singleton. split; [|congruence].
      by apply (Hinv b n).
Qed.

Lemma run_flagged_listed evs st :
  Forall (fun ev => info (ev_packet ev) <> Some HIDDEN_NETWORK) evs ->
  flagged_listed st -> flagged_listed (run evs st).
Proof.
  revert st. induction evs as [|ev evs IH]; intros st Hall Hinv; [assumption|].
  inversion Hall; subst. cbn. apply IH; [assumption|].
  by apply step_flagged_listed.
Qed.

(** C5 (failing input). After the first beacon of a station that broadcasts
    the name "[Hidden Network]", its entry is flagged hidden while its
    address is not in [hidden_networks]: the set is not the set of flagged
    entries. *)
Theorem sentinel_name_flagged_not_listed :
  let st := step init sentinel_beacon in
  reachable st
  /\ (exists n, networks st !! "AA:2" = Some n /\ hidden n = true)
  /\ ("AA:2" ∉ hidden_networks st).
Proof.
  cbn zeta. split; [repeat constructor|]. split.
  - eexists. split; reflexivity.
  - cbn. apply not_elem_of_empty.
Qed.

End StationStore.

(* ===================================================================== *)
(** * A new sighting of a known station *)
(* ===================================================================== *)

Section KnownStation.
Import Dot11 Store Examples.

Lemma tracker_process_beacon_known ts packet (st : SignalTracker.state) n h :
  SignalTracker.networks st !! addr2 packet = Some n ->
  SignalTracker.signal_history st !! addr2 packet = Some h ->
  SignalTracker.process_beacon ts packet st
  = Some {| SignalTracker.networks :=
              <[addr2 packet :=
                  SignalTracker.sighting ts (get_signal_strength packet) n]>
                (SignalTracker.networks st);
            SignalTracker.signal_history :=
              <[addr2 packet := (h ++ [(ts, get_signal_strength packet)])%list]>
                (SignalTracker.signal_history st) |}.
Proof.
  intros Hn Hh. unfold SignalTracker.process_beacon. rewrite Hn, Hh.
  do 2 f_equal. apply map_eq. intros b. rewrite lookup_alter.
  destruct (decide (addr2 packet = b)) as [<-|Hne].
  - by rewrite lookup_insert_eq, Hn.
  - by rewrite lookup_insert_ne.
Qed.

(** C4 (amended). For a station already in the store, a new beacon
    - in the scanner overwrites [signal] with the newest value and sets
      [last_seen], and leaves the name, [first_seen], channel, encryption,
      manufacturer, type and hidden flag of the entry, the other entries and
      [hidden_networks] unchanged;
    - in the signal tracker appends the new (timestamp, signal) pair to
      [signals] and to the station's history and sets [last_seen], and
      leaves the name and [first_seen] unchanged; the same beacon processed
      twice with the same timestamp appends two samples and still leaves
      the name and [first_seen] unchanged. *)
Theorem beacon_of_known_station (packet : packet) :
  (forall now now' (st : Scanner.state) n,
      Scanner.networks st !! addr2 packet = Some n ->
      let st' := Scanner.process_beacon now now' packet st in
      (exists n',
          Scanner.networks st' !! addr2 packet = Some n'
          /\ Scanner.signal n' = get_signal_strength packet
          /\ Scanner.last_seen n' = now
          /\ Scanner.ssid n' = Scanner.ssid n
          /\ Scanner.first_seen n' = Scanner.first_seen n
          /\ Scanner.channel n' = Scanner.channel n
          /\ Scanner.encryption n' = Scanner.encryption n
          /\ Scanner.manufacturer n' = Scanner.manufacturer n
          /\ Scanner.type n' = Scanner.type n
          /\ Scanner.hidden n' = Scanner.hidden n)
      /\ (forall b', b' <> addr2 packet ->
            Scanner.networks st' !! b' = Scanner.networks st !! b')
      /\ Scanner.hidden_networks st' = Scanner.hidden_networks st)
  /\ (forall ts (st : SignalTracker.state) n h,
        SignalTracker.networks st !! addr2 packet = Some n ->
        SignalTracker.signal_history st !! addr2 packet = Some h ->
        let sample := (ts, get_signal_strength packet) in
        exists st1 n1 st2 n2,
          SignalTracker.process_beacon ts packet st = Some st1
          /\ SignalTracker.networks st1 !! addr2 packet = Some n1
          /\ SignalTracker.signals n1 = (SignalTracker.signals n ++ [sample])%list
          /\ SignalTracker.signal_history st1 !! addr2 packet
             = Some (h ++ [sample])%list
          /\ SignalTracker.last_seen n1 = Some ts
          /\ SignalTracker.ssid n1 = SignalTracker.ssid n
          /\ SignalTracker.first_seen n1 = SignalTracker.first_seen n
          /\ SignalTracker.process_beacon ts packet st1 = Some st2
          /\ SignalTracker.networks st2 !! addr2 packet = Some n2
          /\ SignalTracker.signals n2
             = (SignalTracker.signals n ++ [sample; sample])%list
          /\ SignalTracker.ssid n2 = SignalTracker.ssid n
          /\ SignalTracker.first_seen n2 = SignalTracker.first_seen n).
Proof.
  split.
  - intros now now' st n Hn st'. subst st'.
    rewrite (process_beacon_known now now' packet st n Hn). cbn.
    split; [|split; [|reflexivity]].
    + rewrite lookup_insert_eq. eexists. split; [reflexivity|].
      cbn. tauto.
    + intros b' Hb'. by rewrite lookup_insert_ne.
  - intros ts st n h Hn Hh sample.
    pose proof (tracker_process_beacon_known ts packet st n h Hn Hh) as H1.
    fold sample in H1.
    match type of H1 with _ = Some ?s => set (st1 := s) in * end.
    assert (Hn1 : SignalTracker.networks st1 !! addr2 packet
                  = Some (SignalTracker.sighting ts (get_signal_strength packet) n))
      by (subst st1; cbn; apply lookup_insert_eq).
    assert (Hh1 : SignalTracker.signal_history st1 !! addr2 packet
                  = Some (h ++ [sample])%list)
      by (subst st1; cbn; apply lookup_insert_eq).
    pose proof (tracker_process_beacon_known ts packet st1 _ _ Hn1 Hh1) as H2.
    match type of H2 with _ = Some ?s => set (st2 := s) in * end.
    exists st1, (SignalTracker.sighting ts (get_signal_strength packet) n), st2,
      (SignalTracker.sighting ts (get_signal_strength packet)
         (SignalTracker.sighting ts (get_signal_strength packet) n)).
    split; [exact H1|]. split; [exact Hn1|]. split; [reflexivity|].
    split; [exact Hh1|]. do 3 (split; [reflexivity|]).
    split; [exact H2|].
    split; [subst st2; cbn; apply lookup_insert_eq|].
    split; [cbn; by rewrite <- app_assoc|].
    split; reflexivity.
Qed.

Lemma beacon_of_known_station_witness :
  (exists n',
      Scanner.networks (Scanner.process_beacon 20 21 beacon_channel_6 st_channel_1)
        !! "AA:1" = Some n'
      /\ Scanner.signal n' = -48
      /\ Scanner.last_seen n' = 20
      /\ Scanner.ssid n' = "Lab"
      /\ Scanner.first_seen n' = 10
      /\ Scanner.channel n' = 1
      /\ Scanner.encryption n' = "WPA2")
  /\ (exists st1 n1 st2 n2,
        SignalTracker.process_beacon 20 beacon_channel_6 st_tracked = Some st1
        /\ SignalTracker.networks st1 !! "AA:1" = Some n1
        /\ SignalTracker.signals n1 = [(10, -55); (20, -48)]
        /\ SignalTracker.process_beacon 20 beacon_channel_6 st1 = Some st2
        /\ SignalTracker.networks st2 !! "AA:1" = Some n2
        /\ SignalTracker.signals n2 = [(10, -55); (20, -48); (20, -48)]
        /\ SignalTracker.ssid n2 = "Lab"
        /\ SignalTracker.first_seen n2 = 10).
Proof.
  destruct (beacon_of_known_station beacon_channel_6) as [Hscanner Htracker].
  split.
  - destruct (Hscanner 20 21 st_channel_1
                {| Scanner.ssid := "Lab"; Scanner.bssid := "AA:1";
                   Scanner.channel := 1; Scanner.encryption := "WPA2";
                   Scanner.signal := -55; Scanner.manufacturer := "Unknown";
                   Scanner.first_seen := 10; Scanner.last_seen := 11;
                   Scanner.hidden := false; Scanner.type := "STANDARD" |}
                eq_refl)
      as ((n' & Hn' & Hsig & Hlast & Hname & Hfirst & Hch & Henc & _) & _).
    exists n'. repeat (split; [assumption|]). assumption.
  - destruct (Htracker 20 st_tracked
                {| SignalTracker.ssid := "Lab"; SignalTracker.bssid := "AA:1";
                   SignalTracker.first_seen := 10;
                   SignalTracker.last_seen := Some 10;
                   SignalTracker.signals := [(10, -55)] |}
                [(10, -55)] eq_refl eq_refl)
      as (st1 & n1 & st2 & n2 & H1 & Hn1 & Hs1 & _ & _ & _ & _
          & H2 & Hn2 & Hs2 & Hname & Hfirst).
    exists st1, n1, st2, n2. repeat (split; [assumption|]). assumption.
Defined.

(** The scanner keeps the channel and the encryption of the first sighting:
    after the station's beacon from channel 6 without encryption, its entry
    still says channel 1 and WPA2. *)
Lemma known_station_keeps_channel :
  exists n n',
    Scanner.networks st_channel_1 !! addr2 beacon_channel_6 = Some n
    /\ Scanner.networks (Scanner.process_beacon 20 21 beacon_channel_6 st_channel_1)
         !! addr2 beacon_channel_6 = Some n'
    /\ Scanner.channel n' <> elt_channel beacon_channel_6
    /\ Scanner.encryption n' <> cap_encryption beacon_channel_6
    /\ Scanner.channel n' = 1
    /\ Scanner.encryption n' = "WPA2".
Proof.
  do 2 eexists. split; [reflexivity|]. split; [reflexivity|].
  cbn. repeat split; discriminate.
Qed.

End KnownStation.

(* ===================================================================== *)
(** * The scanner's store over a whole session *)
(* ===================================================================== *)

Section ScannerSession.
Import Dot11 Scanner Store Session Examples SessionExamples.

Lemma classify_network_types s : In (classify_network s) scanner_types.
Proof.
  unfold classify_network, scanner_types.
  repeat match goal with
         | |- context [if ?c then _ else _] => destruct c
         end; simpl; tauto.
Qed.

Lemma classify_network_sentinel : classify_network HIDDEN_NETWORK = "STANDARD".
Proof. reflexivity. Qed.

Lemma step_entries_ok st ev : entries_ok st -> entries_ok (step st ev).
Proof.
  intros Hinv b n. unfold step, process_packet.
  destruct (has_Dot11Beacon (ev_packet ev)).
  - unfold process_beacon.
    destruct (networks st !! addr2 (ev_packet ev)) as [m|] eqn:Hm; cbn.
    + destruct (decide (addr2 (ev_packet ev) = b)) as [Heq|Hne].
      * rewrite Heq, lookup_insert_eq. intros [= <-].
        rewrite Heq in Hm. apply (Hinv b m Hm).
      * rewrite lookup_insert_ne by assumption. apply Hinv.
    + destruct (readers_raise (ev_packet ev)); cbn; [apply Hinv|].
      destruct (decide (addr2 (ev_packet ev) = b)) as [Heq|Hne].
      * rewrite Heq, lookup_insert_eq. intros [= <-]. unfold entry_ok. cbn.
        split; [reflexivity|]. split; [reflexivity|].
        split; [apply classify_network_types|].
        intros Hs%String.eqb_eq. rewrite Hs. reflexivity.
      * rewrite lookup_insert_ne by assumption. apply Hinv.
  - destruct (has_Dot11ProbeResp (ev_packet ev)); [|apply Hinv].
    unfold process_probe_response.
    destruct (info (ev_packet ev)) as [s|]; [|apply Hinv].
    destruct (discloses st (addr2 (ev_packet ev)) s) eqn:Hd; [|apply Hinv].
    destruct (networks st !! addr2 (ev_packet ev)) as [m|] eqn:Hm; [|apply Hinv].
    cbn. destruct (decide (addr2 (ev_packet ev) = b)) as [Heq|Hne].
    + rewrite Heq, lookup_insert_eq. intros [= <-].
      rewrite Heq in Hm. destruct (Hinv b m Hm) as (Hb & _ & Hty & _).
      apply discloses_true in Hd as (_ & _ & Hsent).
      unfold entry_ok. cbn. split; [assumption|].
      split; [symmetry; by apply String.eqb_neq|].
      split; [assumption | discriminate].
    + rewrite lookup_insert_ne by assumption. apply Hinv.
Qed.

Lemma reachable_entries_ok st : reachable st -> entries_ok st.
Proof.
  induction 1 as [|st ev _ IH]; [|by apply step_entries_ok].
  intros b n Hn. cbn in Hn. by rewrite lookup_empty in Hn.
Qed.

Lemma silent_senders_cons ev evs :
  silent_senders (ev :: evs)
  = (if has_Dot11Beacon (ev_packet ev)
        && bool_decide (info (ev_packet ev) = Some "")
     then {[addr2 (ev_packet ev)]} else ∅)
    ∪ silent_senders evs.
Proof.
  unfold silent_senders. cbn [List.filter].
  destruct (has_Dot11Beacon (ev_packet ev)
            && bool_decide (info (ev_packet ev) = Some ""));
    cbn [map list_to_set].
  - reflexivity.
  - by rewrite (left_id_L ∅ (∪)).
Qed.

Lemma empty_name (packet : packet) :
  String.eqb match info packet with Some s => s | None => "Unknown" end ""
  = bool_decide (info packet = Some "").
Proof.
  destruct (info packet) as [s|]; [|reflexivity].
  destruct (String.eqb_spec s "") as [->|Hne].
  - symmetry. by apply bool_decide_eq_true.
  - symmetry. apply bool_decide_eq_false. congruence.
Qed.

Lemma step_hidden_from st ev :
  hidden_networks (step st ev)
  ⊆ hidden_networks st
    ∪ (if has_Dot11Beacon (ev_packet ev)
          && bool_decide (info (ev_packet ev) = Some "")
       then {[addr2 (ev_packet ev)]} else ∅).
Proof.
  unfold step, process_packet.
  destruct (has_Dot11Beacon (ev_packet ev)); cbn [andb].
  - unfold process_beacon.
    destruct (networks st !! addr2 (ev_packet ev)) as [m|]; cbn;
      [set_solver|].
    rewrite empty_name.
    destruct (bool_decide (info (ev_packet ev) = Some ""));
      destruct (readers_raise (ev_packet ev)); cbn; set_solver.
  - destruct (has_Dot11ProbeResp (ev_packet ev)); [|set_solver].
    unfold process_probe_response.
    destruct (info (ev_packet ev)) as [s|]; [|set_solver].
    destruct (discloses st (addr2 (ev_packet ev)) s); [|set_solver].
    destruct (networks st !! addr2 (ev_packet ev)) as [m|]; cbn; set_solver.
Qed.

Lemma run_hidden_from evs st :
  hidden_networks (run evs st) ⊆ hidden_networks st ∪ silent_senders evs.
Proof.
  revert st. induction evs as [|ev evs IH]; intros st; [set_solver|].
  cbn [run fold_left]. fold (run evs (step st ev)).
  rewrite silent_senders_cons.
  pose proof (IH (step st ev)). pose proof (step_hidden_from st ev). set_solver.
Qed.

(** X1. In every state of a session, each entry is stored under its own
    address, is flagged hidden exactly when its name is the sentinel, and
    has one of the scanner's five types, "STANDARD" when it is flagged
    hidden.  [hidden_networks] holds only senders of beacons with an empty
    name; when no reader raised during the session, every address in it has
    an entry flagged hidden. *)
Theorem session_store_invariant (evs : list event) :
  let st := run evs init in
  (forall b n,
      networks st !! b = Some n ->
      bssid n = b
      /\ (hidden n = true <-> ssid n = HIDDEN_NETWORK)
      /\ In (type n) scanner_types
      /\ (hidden n = true -> type n = "STANDARD"))
  /\ hidden_networks st ⊆ silent_senders evs
  /\ (Forall quiet evs ->
      forall b,
        b ∈ hidden_networks st ->
        exists n, networks st !! b = Some n /\ hidden n = true).
Proof.
  intros st. split; [|split].
  - intros b n Hn.
    assert (Hst : reachable st) by (apply run_reachable; constructor).
    destruct (reachable_entries_ok st Hst b n Hn) as (Hb & Hflag & Hty & Hstd).
    split; [assumption|]. split; [|split; assumption].
    rewrite Hflag. apply String.eqb_eq.
  - pose proof (run_hidden_from evs init) as H. cbn in H. set_solver.
  - intros Hquiet. apply run_hidden_known; [assumption | apply init_hidden_known].
Qed.

Lemma beacon_senders_cons ev evs :
  beacon_senders (ev :: evs)
  = (if has_Dot11Beacon (ev_packet ev) then {[addr2 (ev_packet ev)]} else ∅)
    ∪ beacon_senders evs.
Proof.
  unfold beacon_senders. cbn [List.filter].
  destruct (has_Dot11Beacon (ev_packet ev)); cbn [map list_to_set].
  - reflexivity.
  - by rewrite (left_id_L ∅ (∪)).
Qed.

Lemma read_senders_cons ev evs :
  read_senders (ev :: evs)
  = (if has_Dot11Beacon (ev_packet ev) && negb (readers_raise (ev_packet ev))
     then {[addr2 (ev_packet ev)]} else ∅)
    ∪ read_senders evs.
Proof.
  unfold read_senders. cbn [List.filter].
  destruct (has_Dot11Beacon (ev_packet ev) && negb (readers_raise (ev_packet ev)));
    cbn [map list_to_set].
  - reflexivity.
  - by rewrite (left_id_L ∅ (∪)).
Qed.

Lemma step_dom st ev :
  dom (networks (step st ev))
  = dom (networks st)
    ∪ (if has_Dot11Beacon (ev_packet ev) && negb (readers_raise (ev_packet ev))
       then {[addr2 (ev_packet ev)]} else ∅).
Proof.
  unfold step, process_packet.
  destruct (has_Dot11Beacon (ev_packet ev)); cbn [andb].
  - unfold process_beacon.
    destruct (networks st !! addr2 (ev_packet ev)) as [m|] eqn:Hm.
    + cbn. rewrite dom_insert_L.
      assert (addr2 (ev_packet ev) ∈ dom (networks st))
        by (apply elem_of_dom; eauto).
      destruct (readers_raise (ev_packet ev)); cbn; set_solver.
    + destruct (readers_raise (ev_packet ev)); cbn.
      * by rewrite (right_id_L ∅ (∪)).
      * rewrite dom_insert_L. apply (comm_L (∪)).
  - rewrite (right_id_L ∅ (∪)).
    destruct (has_Dot11ProbeResp (ev_packet ev)); [|reflexivity].
    unfold process_probe_response.
    destruct (info (ev_packet ev)) as [s|]; [|reflexivity].
    destruct (discloses st (addr2 (ev_packet ev)) s); [|reflexivity].
    destruct (networks st !! addr2 (ev_packet ev)) as [m|] eqn:Hm; [|reflexivity].
    cbn. rewrite dom_insert_L.
    assert (addr2 (ev_packet ev) ∈ dom (networks st))
      by (apply elem_of_dom; eauto).
    apply subseteq_union_1_L, singleton_subseteq_l. assumption.
Qed.

Lemma read_senders_quiet evs :
  Forall quiet evs -> read_senders evs = beacon_senders evs.
Proof.
  induction 1 as [|ev evs Hev _ IH]; [reflexivity|].
  rewrite read_senders_cons, beacon_senders_cons, IH.
  unfold quiet in Hev. rewrite Hev. by rewrite andb_true_r.
Qed.

Lemma read_senders_sub evs : read_senders evs ⊆ beacon_senders evs.
Proof.
  induction evs as [|ev evs IH]; [reflexivity|].
  rewrite read_senders_cons, beacon_senders_cons.
  destruct (has_Dot11Beacon (ev_packet ev));
    destruct (readers_raise (ev_packet ev)); cbn; set_solver.
Qed.

(** X2. The addresses with an entry after a capture are those that had one
    before together with the senders of the beacons on which both readers
    return: no event deletes an entry, probe responses create none, and a
    beacon on which a reader raises stores none.  From the empty store the
    number of entries is the number of these senders; they are all the
    beacon senders when no reader raises. *)
Theorem session_entries_are_read_senders (evs : list event) (st : state) :
  dom (networks (run evs st)) = dom (networks st) ∪ read_senders evs
  /\ dom (networks (run evs init)) = read_senders evs
  /\ size (networks (run evs init)) = size (read_senders evs)
  /\ read_senders evs ⊆ beacon_senders evs
  /\ (Forall quiet evs -> dom (networks (run evs init)) = beacon_senders evs).
Proof.
  assert (Hgen : forall evs st,
             dom (networks (run evs st)) = dom (networks st) ∪ read_senders evs).
  { clear. induction evs as [|ev evs IH]; intros st.
    - cbn. unfold read_senders. cbn. by rewrite (right_id_L ∅ (∪)).
    - cbn [run fold_left]. fold (run evs (step st ev)).
      rewrite IH, step_dom, read_senders_cons. by rewrite (assoc_L (∪)). }
  assert (Hinit : dom (networks (run evs init)) = read_senders evs).
  { rewrite Hgen. cbn. rewrite dom_empty_L. apply (left_id_L ∅ (∪)). }
  split; [apply Hgen|]. split; [exact Hinit|]. split; [|split].
  - rewrite <- Hinit. symmetry. apply size_dom.
  - apply read_senders_sub.
  - intros Hquiet. by rewrite Hinit, read_senders_quiet.
Qed.

Lemma step_same_origin st ev b n :
  networks st !! b = Some n ->
  exists n', networks (step st ev) !! b = Some n' /\ same_origin n n'.
Proof.
  intros Hn. unfold step, process_packet, same_origin.
  destruct (has_Dot11Beacon (ev_packet ev)).
  - unfold process_beacon.
    destruct (networks st !! addr2 (ev_packet ev)) as [m|] eqn:Hm; cbn.
    + destruct (decide (addr2 (ev_packet ev) = b)) as [Heq|Hne].
      * rewrite Heq, lookup_insert_eq. rewrite Heq, Hn in Hm.
        injection Hm as <-. eexists. split; [reflexivity|]. cbn. tauto.
      * rewrite lookup_insert_ne by assumption. eauto 10.
    + assert (Hne : addr2 (ev_packet ev) <> b) by congruence.
      destruct (readers_raise (ev_packet ev)); cbn; [eauto 10|].
      rewrite lookup_insert_ne by assumption. eauto 10.
  - destruct (has_Dot11ProbeResp (ev_packet ev)); [|eauto 10].
    unfold process_probe_response.
    destruct (info (ev_packet ev)) as [s|]; [|eauto 10].
    destruct (discloses st (addr2 (ev_packet ev)) s); [|eauto 10].
    destruct (networks st !! addr2 (ev_packet ev)) as [m|] eqn:Hm; [|eauto 10].
    cbn. destruct (decide (addr2 (ev_packet ev) = b)) as [Heq|Hne].
    + rewrite Heq, lookup_insert_eq. rewrite Heq, Hn in Hm.
      injection Hm as <-. eexists. split; [reflexivity|]. cbn. tauto.
    + rewrite lookup_insert_ne by assumption. eauto 10.
Qed.

Lemma first_sighting_frozen_aux (evs : list event) (st : state)
    (b : string) (n : network) :
  networks st !! b = Some n ->
  exists n', networks (run evs st) !! b = Some n' /\ same_origin n n'.
Proof.
  revert st n. induction evs as [|ev evs IH]; intros st n Hn.
  - exists n. cbn. unfold same_origin. tauto.
  - destruct (step_same_origin st ev b n Hn) as (n1 & Hn1 & H1).
    destruct (IH (step st ev) n1 Hn1) as (n2 & Hn2 & H2).
    exists n2. split; [exact Hn2|].
    unfold same_origin in *. intuition congruence.
Qed.

(** X3. Whatever is captured later, an entry keeps the address, channel,
    encryption, manufacturer, first_seen and type of its first sighting; in
    particular the type is never recomputed, not even when a probe response
    discloses the name. *)
Theorem first_sighting_fields_frozen (evs : list event) (st : state)
    (b : string) (n : network) :
  networks st !! b = Some n ->
  exists n',
    networks (run evs st) !! b = Some n'
    /\ bssid n' = bssid n
    /\ channel n' = channel n
    /\ encryption n' = encryption n
    /\ manufacturer n' = manufacturer n
    /\ first_seen n' = first_seen n
    /\ type n' = type n.
Proof.
  revert st n. induction evs as [|ev evs IH]; intros st n Hn.
  - exists n. cbn. tauto.
  - destruct (step_same_origin st ev b n Hn) as (n1 & Hn1 & H1).
    destruct (IH (step st ev) n1 Hn1) as (n2 & Hn2 & H2).
    exists n2. split; [exact Hn2|].
    unfold same_origin in H1. intuition congruence.
Qed.

Lemma first_sighting_fields_frozen_witness :
  exists n',
    networks
      (run later_events
         (process_probe_response 20 (probe_response "AA:1" (Some "FBI-VAN")) st_two))
      !! "AA:1" = Some n'
    /\ bssid n' = "AA:1"
    /\ channel n' = 6
    /\ encryption n' = "WPA2"
    /\ manufacturer n' = "Unknown"
    /\ first_seen n' = 10
    /\ type n' = "STANDARD".
Proof.
  apply (first_sighting_fields_frozen
           (({| ev_packet := probe_response "AA:1" (Some "FBI-VAN");
                ev_now := 20; ev_now' := 20 |}) :: later_events)
           st_two "AA:1"
           {| ssid := HIDDEN_NETWORK; bssid := "AA:1"; channel := 6;
              encryption := "WPA2"; signal := -55; manufacturer := "Unknown";
              first_seen := 10; last_seen := 11; hidden := true;
              type := "STANDARD" |}).
  reflexivity.
Defined.

Lemma step_outside_hidden st ev b n :
  networks st !! b = Some n -> b ∉ hidden_networks st ->
  exists n',
    networks (step st ev) !! b = Some n'
    /\ ssid n' = ssid n /\ hidden n' = hidden n
    /\ b ∉ hidden_networks (step st ev).
Proof.
  intros Hn Hout. unfold step, process_packet.
  destruct (has_Dot11Beacon (ev_packet ev)).
  - unfold process_beacon.
    destruct (networks st !! addr2 (ev_packet ev)) as [m|] eqn:Hm; cbn.
    + destruct (decide (addr2 (ev_packet ev) = b)) as [Heq|Hne].
      * rewrite Heq, lookup_insert_eq. rewrite Heq, Hn in Hm.
        injection Hm as <-. eexists. split; [reflexivity|]. cbn. tauto.
      * rewrite lookup_insert_ne by assumption. eauto 10.
    + assert (Hne : addr2 (ev_packet ev) <> b) by congruence.
      assert (Hstill :
        b ∉ (if String.eqb
                  match info (ev_packet ev) with Some s => s | None => "Unknown" end ""
             then {[addr2 (ev_packet ev)]} ∪ hidden_networks st
             else hidden_networks st)).
      { destruct (String.eqb _ ""); [|assumption].
        rewrite elem_of_union, elem_of_singleton. intros [Heq|Hin]; congruence. }
      destruct (readers_raise (ev_packet ev)); cbn.
      * exists n. split; [assumption|]. do 2 (split; [reflexivity|]). exact Hstill.
      * rewrite lookup_insert_ne by assumption.
        exists n. split; [assumption|]. do 2 (split; [reflexivity|]). exact Hstill.
  - destruct (has_Dot11ProbeResp (ev_packet ev)); [|eauto 10].
    unfold process_probe_response.
    destruct (info (ev_packet ev)) as [s|]; [|eauto 10].
    destruct (discloses st (addr2 (ev_packet ev)) s) eqn:Hd; [|eauto 10].
    destruct (networks st !! addr2 (ev_packet ev)) as [m|] eqn:Hm; [|eauto 10].
    apply discloses_true in Hd as (Hin & _).
    assert (Hne : addr2 (ev_packet ev) <> b) by congruence.
    cbn. rewrite lookup_insert_ne by assumption.
    exists n. split; [assumption|]. do 2 (split; [reflexivity|]).
    rewrite elem_of_difference. tauto.
Qed.

(** X4. An entry whose address is not in [hidden_networks] keeps its name
    and its hidden flag through every later capture, and its address never
    enters the set.  This covers visible stations, and also an entry that is
    flagged hidden without being in the set: no probe response ever
    uncovers it. *)
Theorem name_settled_outside_hidden_set (evs : list event) (st : state)
    (b : string) (n : network) :
  networks st !! b = Some n ->
  b ∉ hidden_networks st ->
  exists n',
    networks (run evs st) !! b = Some n'
    /\ ssid n' = ssid n
    /\ hidden n' = hidden n
    /\ b ∉ hidden_networks (run evs st).
Proof.
  revert st n. induction evs as [|ev evs IH]; intros st n Hn Hout.
  - exists n. cbn. tauto.
  - destruct (step_outside_hidden st ev b n Hn Hout) as (n1 & Hn1 & Hs1 & Hh1 & Hout1).
    destruct (IH (step st ev) n1 Hn1 Hout1) as (n2 & Hn2 & Hs2 & Hh2 & Hout2).
    exists n2. cbn [run fold_left]. fold (run evs (step st ev)).
    repeat split; try assumption; congruence.
Qed.

Lemma name_settled_outside_hidden_set_witness :
  exists n',
    networks (run sentinel_probes (step init sentinel_beacon)) !! "AA:2" = Some n'
    /\ ssid n' = HIDDEN_NETWORK
    /\ hidden n' = true
    /\ "AA:2" ∉ hidden_networks (run sentinel_probes (step init sentinel_beacon)).
Proof.
  apply (name_settled_outside_hidden_set sentinel_probes (step init sentinel_beacon)
           "AA:2"
           {| ssid := HIDDEN_NETWORK; bssid := "AA:2"; channel := 6;
              encryption := "WPA2"; signal := -55; manufacturer := "Unknown";
              first_seen := 10; last_seen := 11; hidden := true;
              type := "STANDARD" |}).
  - reflexivity.
  - cbn. apply not_elem_of_empty.
Defined.

Lemma step_concealed st ev b :
  ~ probe_response_from b ev -> concealed st b -> concealed (step st ev) b.
Proof.
  intros Hev (Hin & n & Hn & Hname & Hflag). unfold concealed, step, process_packet.
  destruct (has_Dot11Beacon (ev_packet ev)) eqn:Hbeacon.
  - unfold process_beacon.
    destruct (networks st !! addr2 (ev_packet ev)) as [m|] eqn:Hm; cbn.
    + split; [assumption|].
      destruct (decide (addr2 (ev_packet ev) = b)) as [Heq|Hne].
      * rewrite Heq, lookup_insert_eq. rewrite Heq, Hn in Hm.
        injection Hm as <-. eexists. split; [reflexivity|]. cbn. tauto.
      * rewrite lookup_insert_ne by assumption. eauto.
    + assert (Hne : addr2 (ev_packet ev) <> b) by congruence.
      assert (Hstill :
        b ∈ (if String.eqb
                  match info (ev_packet ev) with Some s => s | None => "Unknown" end ""
             then {[addr2 (ev_packet ev)]} ∪ hidden_networks st
             else hidden_networks st)).
      { destruct (String.eqb _ ""); [apply elem_of_union_r|]; assumption. }
      destruct (readers_raise (ev_packet ev)); cbn.
      * split; [exact Hstill | eauto].
      * split; [exact Hstill|].
        rewrite lookup_insert_ne by assumption. eauto.
  - destruct (has_Dot11ProbeResp (ev_packet ev)) eqn:Hprobe; [|by split; eauto].
    assert (Hne : addr2 (ev_packet ev) <> b).
    { intros Heq. apply Hev. by repeat split. }
    unfold process_probe_response.
    destruct (info (ev_packet ev)) as [s|]; [|by split; eauto].
    destruct (discloses st (addr2 (ev_packet ev)) s); [|by split; eauto].
    destruct (networks st !! addr2 (ev_packet ev)) as [m|] eqn:Hm;
      [|by split; eauto].
    cbn. split.
    + rewrite elem_of_difference, elem_of_singleton. split; [assumption|congruence].
    + rewrite lookup_insert_ne by assumption. eauto.
Qed.

Lemma run_concealed evs st b :
  Forall (fun ev => ~ probe_response_from b ev) evs ->
  concealed st b -> concealed (run evs st) b.
Proof.
  revert st. induction evs as [|ev evs IH]; intros st Hall Hc; [assumption|].
  inversion Hall; subst. cbn. apply IH; [assumption|].
  by apply step_concealed.
Qed.

(** X5. A station is first seen in a beacon with an empty name on which
    both readers return, then any events other than a probe response of that
    station are captured (readers may raise on them), then
    the station answers a probe with a non-empty name that is not the
    sentinel.  Until the answer the station stays concealed; after it the
    entry carries the disclosed name with the hidden flag cleared, the
    first_seen and channel of the first beacon, the time of the answer as
    last_seen, and the type "STANDARD" computed from the sentinel name, and
    the station has left [hidden_networks]. *)
Theorem conceal_then_disclose (st : state) (evs : list event)
    (first answer : packet) (t1 t1' t2 t2' : Z) (s : string) :
  networks st !! addr2 first = None ->
  has_Dot11Beacon first = true ->
  info first = Some "" ->
  readers_raise first = false ->
  Forall (fun ev => ~ probe_response_from (addr2 first) ev) evs ->
  addr2 answer = addr2 first ->
  has_Dot11Beacon answer = false ->
  has_Dot11ProbeResp answer = true ->
  info answer = Some s -> s <> "" -> s <> HIDDEN_NETWORK ->
  let b := addr2 first in
  let st2 := run evs (process_packet t1 t1' first st) in
  let st3 := process_packet t2 t2' answer st2 in
  concealed st2 b
  /\ exists n3,
       networks st3 !! b = Some n3
       /\ ssid n3 = s
       /\ hidden n3 = false
       /\ first_seen n3 = t1
       /\ last_seen n3 = t2
       /\ channel n3 = elt_channel first
       /\ type n3 = "STANDARD"
       /\ b ∉ hidden_networks st3.
Proof.
  intros Hnew Hbeacon Hempty Hread Hquiet Haddr Hnb Hprobe Hs Hne Hsent b st2 st3.
  set (st1 := process_packet t1 t1' first st).
  set (n1 := {| ssid := HIDDEN_NETWORK; bssid := b; channel := elt_channel first;
                encryption := cap_encryption first;
                signal := get_signal_strength first;
                manufacturer := get_manufacturer first;
                first_seen := t1; last_seen := t1'; hidden := true;
                type := "STANDARD" |}).
  assert (H1 : networks st1 !! b = Some n1 /\ b ∈ hidden_networks st1).
  { subst st1. unfold process_packet, process_beacon. rewrite Hbeacon.
    fold b in Hnew |- *. rewrite Hnew, Hempty, Hread. cbn. split.
    - apply lookup_insert_eq.
    - apply elem_of_union_l, elem_of_singleton. reflexivity. }
  destruct H1 as [Hn1 Hin1].
  assert (Hc1 : concealed st1 b) by (split; [assumption|]; exists n1; by cbn).
  assert (Hc2 : concealed st2 b) by (by apply run_concealed).
  split; [exact Hc2|].
  destruct Hc2 as (Hin2 & n2 & Hn2 & _ & _).
  destruct (first_sighting_frozen_aux evs st1 b n1 Hn1) as (n2' & Hn2' & Horigin).
  change (networks st2 !! b = Some n2') in Hn2'.
  rewrite Hn2 in Hn2'. injection Hn2' as <-.
  destruct Horigin as (_ & Hch & _ & _ & Hfirst & Hty).
  assert (Hd : discloses st2 (addr2 answer) s = true).
  { apply discloses_true. rewrite Haddr. by repeat split. }
  subst st3. unfold process_packet. rewrite Hnb, Hprobe.
  assert (Hn2a : networks st2 !! addr2 answer = Some n2) by (by rewrite Haddr).
  rewrite (process_probe_response_hit t2 answer st2 s n2 Hs Hd Hn2a).
  cbn. rewrite Haddr. fold b. rewrite lookup_insert_eq.
  eexists. split; [reflexivity|]. cbn.
  repeat (split; [first [reflexivity | assumption]|]).
  rewrite elem_of_difference, elem_of_singleton. tauto.
Qed.

Lemma conceal_then_disclose_witness :
  let st3 :=
    process_packet 20 20 (probe_response "AA:1" (Some "OFFICE-NET"))
      (run between_events
         (process_packet 10 11 (beacon "AA:1" (Some "") 6 "WPA2" (-55)) init)) in
  exists n3,
    networks st3 !! "AA:1" = Some n3
    /\ ssid n3 = "OFFICE-NET"
    /\ hidden n3 = false
    /\ first_seen n3 = 10
    /\ last_seen n3 = 20
    /\ channel n3 = 6
    /\ type n3 = "STANDARD"
    /\ "AA:1" ∉ hidden_networks st3.
Proof.
  apply (conceal_then_disclose init between_events
           (beacon "AA:1" (Some "") 6 "WPA2" (-55))
           (probe_response "AA:1" (Some "OFFICE-NET")) 10 11 20 20 "OFFICE-NET");
    try reflexivity; try discriminate.
  repeat constructor; intros (Hb & Hp & Ha); discriminate.
Defined.

Lemma step_seen_in_order t st ev :
  t <= ev_now ev -> ev_now ev <= ev_now' ev ->
  seen_in_order t st -> seen_in_order (ev_now' ev) (step st ev).
Proof.
  intros Ht Hnow Hinv b n. unfold step, process_packet.
  assert (Hold : forall m, networks st !! b = Some m ->
                   first_seen m <= last_seen m /\ last_seen m <= ev_now' ev).
  { intros m Hm. destruct (Hinv b m Hm). lia. }
  assert (Hfirst : forall m, networks st !! b = Some m -> first_seen m <= ev_now ev).
  { intros m Hm. destruct (Hinv b m Hm). lia. }
  destruct (has_Dot11Beacon (ev_packet ev)).
  - unfold process_beacon.
    destruct (networks st !! addr2 (ev_packet ev)) as [m|] eqn:Hm; cbn.
    + destruct (decide (addr2 (ev_packet ev) = b)) as [Heq|Hne].
      * rewrite Heq, lookup_insert_eq. intros [= <-]. cbn.
        rewrite Heq in Hm. pose proof (Hfirst m Hm). lia.
      * rewrite lookup_insert_ne by assumption. apply Hold.
    + destruct (readers_raise (ev_packet ev)); cbn; [apply Hold|].
      destruct (decide (addr2 (ev_packet ev) = b)) as [Heq|Hne].
      * rewrite Heq, lookup_insert_eq. intros [= <-]. cbn. lia.
      * rewrite lookup_insert_ne by assumption. apply Hold.
  - destruct (has_Dot11ProbeResp (ev_packet ev)); [|apply Hold].
    unfold process_probe_response.
    destruct (info (ev_packet ev)) as [s|]; [|apply Hold].
    destruct (discloses st (addr2 (ev_packet ev)) s); [|apply Hold].
    destruct (networks st !! addr2 (ev_packet ev)) as [m|] eqn:Hm; [|apply Hold].
    cbn. destruct (decide (addr2 (ev_packet ev) = b)) as [Heq|Hne].
    + rewrite Heq, lookup_insert_eq. intros [= <-]. cbn.
      rewrite Heq in Hm. pose proof (Hfirst m Hm). lia.
    + rewrite lookup_insert_ne by assumption. apply Hold.
Qed.

(** X6. When the clock readings taken during a capture never decrease, every
    entry of the store built from the empty store has
    [first_seen <= last_seen]. *)
Theorem first_seen_before_last_seen (t : Z) (evs : list event) (b : string)
    (n : network) :
  monotone_clock t evs ->
  networks (run evs init) !! b = Some n ->
  first_seen n <= last_seen n.
Proof.
  intros Hclock.
  assert (Hgen : forall evs t st,
             monotone_clock t evs -> seen_in_order t st ->
             exists t', seen_in_order t' (run evs st)).
  { clear. induction evs as [|ev evs IH]; intros t st Hclock Hinv.
    - exists t. exact Hinv.
    - destruct Hclock as (Ht & Hnow & Hrest). cbn [run fold_left].
      apply (IH (ev_now' ev)); [assumption|]. by apply (step_seen_in_order t). }
  destruct (Hgen evs t init Hclock) as (t' & Hinv).
  - intros b' n' Hn'. cbn in Hn'. by rewrite lookup_empty in Hn'.
  - intros Hn. apply (Hinv b n Hn).
Qed.

Lemma first_seen_before_last_seen_witness :
  exists n,
    networks
      (run ({| ev_packet := beacon "AA:1" (Some "") 6 "WPA2" (-55);
               ev_now := 10; ev_now' := 11 |} :: between_events) init)
      !! "AA:1" = Some n
    /\ first_seen n <= last_seen n.
Proof.
  eexists. split; [reflexivity|].
  apply (first_seen_before_last_seen 0
           ({| ev_packet := beacon "AA:1" (Some "") 6 "WPA2" (-55);
               ev_now := 10; ev_now' := 11 |} :: between_events) "AA:1").
  - cbn. lia.
  - reflexivity.
Defined.

(** X20. In a session whose beacons never carry the sentinel text as their
    name, every address whose entry is flagged hidden is in
    [hidden_networks]; when moreover no reader raised, [hidden_networks] is
    exactly the set of these addresses. *)
Theorem hidden_set_exact_without_sentinel (evs : list event) (b : string) :
  Forall (fun ev => info (ev_packet ev) <> Some HIDDEN_NETWORK) evs ->
  ((exists n, networks (run evs init) !! b = Some n /\ hidden n = true) ->
   b ∈ hidden_networks (run evs init))
  /\ (Forall quiet evs ->
      b ∈ hidden_networks (run evs init)
      <-> exists n, networks (run evs init) !! b = Some n /\ hidden n = true).
Proof.
  intros Hclean.
  assert (Hlisted :
    (exists n, networks (run evs init) !! b = Some n /\ hidden n = true) ->
    b ∈ hidden_networks (run evs init)).
  { intros (n & Hn & Hflag).
    apply (run_flagged_listed evs init Hclean) with (n := n); [|assumption..].
    intros b' n' Hn'. cbn in Hn'. by rewrite lookup_empty in Hn'. }
  split; [exact Hlisted|]. intros Hquiet. split; [|exact Hlisted].
  apply run_hidden_known; [assumption | apply init_hidden_known].
Qed.

Lemma hidden_set_exact_without_sentinel_witness :
  "AA:1" ∈ hidden_networks
             (run ({| ev_packet := beacon "AA:1" (Some "") 6 "WPA2" (-55);
                      ev_now := 10; ev_now' := 11 |} :: between_events) init)
  <-> exists n,
        networks
          (run ({| ev_packet := beacon "AA:1" (Some "") 6 "WPA2" (-55);
                   ev_now := 10; ev_now' := 11 |} :: between_events) init)
          !! "AA:1" = Some n
        /\ hidden n = true.
Proof.
  apply (hidden_set_exact_without_sentinel
           ({| ev_packet := beacon "AA:1" (Some "") 6 "WPA2" (-55);
               ev_now := 10; ev_now' := 11 |} :: between_events) "AA:1").
  - repeat constructor; discriminate.
  - repeat constructor.
Defined.

End ScannerSession.

(* ===================================================================== *)
(** * The signal tracker over a whole capture *)
(* ===================================================================== *)

Section TrackerCapture.
Import Dot11 SignalTracker Tracking Examples TrackingExamples.

Lemma samples_of_cons b ev evs :
  samples_of b (ev :: evs)
  = ((if has_Dot11Beacon (snd ev) && bool_decide (addr2 (snd ev) = b)
      then [(fst ev, get_signal_strength (snd ev))] else []) ++ samples_of b evs)%list.
Proof.
  unfold samples_of, beacons_of. cbn [List.filter].
  destruct (has_Dot11Beacon (snd ev) && bool_decide (addr2 (snd ev) = b));
    reflexivity.
Qed.

Lemma head_snoc_nonempty {A} (l : list A) (x : A) :
  l <> [] -> head (l ++ [x]) = head l.
Proof. destruct l; [congruence | reflexivity]. Qed.

(** One packet: the tracker does not raise on a store whose dictionaries
    agree, they still agree afterwards, and each history grows by the
    sample the packet contributes. *)
Lemma process_packet_agree timestamp packet st :
  (forall b, agree_on st b) ->
  exists st',
    process_packet timestamp packet st = Some st'
    /\ (forall b, agree_on st' b)
    /\ (forall b, history st' b
                  = (history st b ++ samples_of b [(timestamp, packet)])%list)
    /\ (forall b n, networks st !! b = Some n ->
          exists n', networks st' !! b = Some n' /\ ssid n' = ssid n)
    /\ (forall b, networks st !! b = None ->
          has_Dot11Beacon packet = true -> addr2 packet = b ->
          exists n', networks st' !! b = Some n' /\ ssid n' = beacon_name packet).
Proof.
  intros Hinv. unfold process_packet.
  destruct (has_Dot11Beacon packet) eqn:Hbeacon.
  2:{ exists st. split; [reflexivity|]. split; [assumption|].
      split; [|split; [eauto | discriminate]].
      intros b. rewrite samples_of_cons. cbn. rewrite Hbeacon. cbn.
      by rewrite app_nil_r. }
  set (a := addr2 packet). set (sample := (timestamp, get_signal_strength packet)).
  assert (Hsamples : forall b,
             samples_of b [(timestamp, packet)]
             = if decide (a = b) then [sample] else []).
  { intros b. rewrite samples_of_cons. cbn. rewrite Hbeacon. cbn. fold a.
    destruct (decide (a = b)).
    - by rewrite bool_decide_eq_true_2.
    - by rewrite bool_decide_eq_false_2. }
  pose proof (Hinv a) as Ha. unfold agree_on in Ha.
  unfold process_beacon. cbv zeta. fold a. fold sample.
  destruct (networks st !! a) as [n|] eqn:Hn;
    destruct (signal_history st !! a) as [h|] eqn:Hh; try contradiction.
  - (* a known station *)
    destruct Ha as (Hne & Hsig & Hb & Hfirst & Hlast).
    eexists. split; [reflexivity|].
    split; [|split; [|split]].
    + intros b. unfold agree_on. cbn [networks signal_history].
      destruct (decide (a = b)) as [<-|Hab].
      * rewrite lookup_alter, Hn, lookup_insert_eq. rewrite decide_True by reflexivity.
        cbn. fold sample. rewrite Hsig.
        split; [by destruct h|]. split; [reflexivity|]. split; [assumption|].
        split; [by rewrite head_snoc_nonempty | by rewrite last_snoc].
      * rewrite lookup_alter, lookup_insert_ne by assumption.
        rewrite decide_False by assumption. apply (Hinv b).
    + intros b. rewrite Hsamples. unfold history. cbn [signal_history].
      destruct (decide (a = b)) as [<-|Hab].
      * by rewrite lookup_insert_eq, Hh.
      * rewrite lookup_insert_ne by assumption. by rewrite app_nil_r.
    + intros b m Hm. cbn [networks]. rewrite lookup_alter.
      destruct (decide (a = b)) as [<-|Hab].
      * rewrite Hm. cbn. eauto.
      * rewrite Hm. eauto.
    + intros b Hnone _ Hab. congruence.
  - (* a new station *)
    cbn [networks signal_history]. rewrite lookup_insert_eq.
    eexists. split; [reflexivity|].
    split; [|split; [|split]].
    + intros b. unfold agree_on. cbn [networks signal_history].
      destruct (decide (a = b)) as [<-|Hab].
      * rewrite lookup_alter, !lookup_insert_eq. rewrite decide_True by reflexivity.
        cbn. repeat split; discriminate.
      * rewrite lookup_alter, decide_False by assumption.
        rewrite !lookup_insert_ne by assumption. apply (Hinv b).
    + intros b. rewrite Hsamples. unfold history. cbn [signal_history].
      destruct (decide (a = b)) as [<-|Hab].
      * by rewrite lookup_insert_eq, Hh.
      * rewrite !lookup_insert_ne by assumption. by rewrite app_nil_r.
    + intros b m Hm. cbn [networks]. rewrite lookup_alter.
      destruct (decide (a = b)) as [<-|Hab]; [congruence|].
      rewrite lookup_insert_ne by assumption. rewrite Hm. eauto.
    + intros b _ _ Hab. subst b. cbn [networks].
      rewrite lookup_alter, decide_True by reflexivity.
      rewrite lookup_insert_eq. cbn. eexists. split; [reflexivity|]. reflexivity.
Qed.

Lemma samples_of_split b ev evs :
  samples_of b (ev :: evs) = (samples_of b [ev] ++ samples_of b evs)%list.
Proof.
  rewrite !samples_of_cons. unfold samples_of at 2. cbn. by rewrite app_nil_r.
Qed.

Lemma agree_on_absent st b :
  agree_on st b -> history st b = [] -> networks st !! b = None.
Proof.
  unfold agree_on, history.
  destruct (networks st !! b) as [n|]; [|reflexivity].
  destruct (signal_history st !! b) as [h|]; [|contradiction].
  cbn. intros (Hne & _) ->. congruence.
Qed.

Lemma beacons_of_cons b ev evs :
  beacons_of b (ev :: evs)
  = if has_Dot11Beacon (snd ev) && bool_decide (addr2 (snd ev) = b)
    then ev :: beacons_of b evs else beacons_of b evs.
Proof. reflexivity. Qed.

Lemma run_agree evs st :
  (forall b, agree_on st b) ->
  exists st',
    run evs st = Some st'
    /\ (forall b, agree_on st' b)
    /\ (forall b, history st' b = (history st b ++ samples_of b evs)%list)
    /\ (forall b n, networks st !! b = Some n ->
          exists n', networks st' !! b = Some n' /\ ssid n' = ssid n)
    /\ (forall b ev, networks st !! b = None ->
          head (beacons_of b evs) = Some ev ->
          exists n', networks st' !! b = Some n' /\ ssid n' = beacon_name (snd ev)).
Proof.
  revert st. induction evs as [|[ts p] evs IH]; intros st Hinv.
  - exists st. split; [reflexivity|]. split; [assumption|].
    split; [intros b; unfold samples_of; cbn; by rewrite app_nil_r|].
    split; [eauto | discriminate].
  - destruct (process_packet_agree ts p st Hinv)
      as (st1 & Hstep & Hinv1 & Hhist1 & Hkeep1 & Hnew1).
    destruct (IH st1 Hinv1) as (st2 & Hrun & Hinv2 & Hhist2 & Hkeep2 & Hnew2).
    exists st2. cbn [run]. rewrite Hstep.
    split; [exact Hrun|]. split; [exact Hinv2|].
    split; [|split].
    + intros b. rewrite Hhist2, Hhist1, (samples_of_split b (ts, p) evs).
      by rewrite app_assoc.
    + intros b n Hn. destruct (Hkeep1 b n Hn) as (n1 & Hn1 & Hs1).
      destruct (Hkeep2 b n1 Hn1) as (n2 & Hn2 & Hs2).
      exists n2. split; [assumption | congruence].
    + intros b ev Hnone. rewrite beacons_of_cons. cbn [snd].
      destruct (has_Dot11Beacon p) eqn:Hbeacon; cbn [andb].
      * destruct (decide (addr2 p = b)) as [Hab|Hab].
        -- rewrite bool_decide_eq_true_2 by assumption. cbn. intros [= <-].
           destruct (Hnew1 b Hnone eq_refl Hab) as (n1 & Hn1 & Hs1).
           destruct (Hkeep2 b n1 Hn1) as (n2 & Hn2 & Hs2).
           exists n2. split; [assumption | cbn; congruence].
        -- rewrite bool_decide_eq_false_2 by assumption. apply Hnew2.
           apply agree_on_absent; [apply Hinv1|].
           rewrite Hhist1. unfold samples_of, beacons_of. cbn [List.filter snd].
           rewrite Hbeacon, bool_decide_eq_false_2 by assumption. cbn.
           rewrite app_nil_r.
           pose proof (Hinv b) as Hb. unfold agree_on in Hb. rewrite Hnone in Hb.
           unfold history. destruct (signal_history st !! b); [contradiction|].
           reflexivity.
      * apply Hnew2. apply agree_on_absent; [apply Hinv1|].
        rewrite Hhist1. unfold samples_of, beacons_of. cbn [List.filter snd].
        rewrite Hbeacon. cbn. rewrite app_nil_r.
        pose proof (Hinv b) as Hb. unfold agree_on in Hb. rewrite Hnone in Hb.
        unfold history. destruct (signal_history st !! b); [contradiction|].
        reflexivity.
Qed.

Lemma init_agree b : agree_on init b.
Proof. unfold agree_on. cbn. by rewrite !lookup_empty. Qed.

(** X7. From the empty store the tracker never raises, whatever is captured.
    Afterwards a station has an entry and a history exactly when the capture
    holds a beacon of it; its history and the [signals] of its entry are the
    (timestamp, signal) pairs of its beacons in arrival order, the entry is
    stored under its address, and [first_seen] and [last_seen] are the
    timestamps of its first and of its last beacon. *)
Theorem tracker_capture (evs : list event) :
  exists st,
    run evs init = Some st
    /\ forall b,
         (samples_of b evs = [] ->
            networks st !! b = None /\ signal_history st !! b = None)
         /\ (samples_of b evs <> [] ->
              exists n,
                networks st !! b = Some n
                /\ signal_history st !! b = Some (samples_of b evs)
                /\ signals n = samples_of b evs
                /\ bssid n = b
                /\ Some (first_seen n) = fst <$> head (samples_of b evs)
                /\ last_seen n = fst <$> last (samples_of b evs)).
Proof.
  destruct (run_agree evs init init_agree) as (st & Hrun & Hinv & Hhist & _).
  exists st. split; [exact Hrun|]. intros b.
  pose proof (Hinv b) as Hb. pose proof (Hhist b) as Hh.
  unfold history in Hh at 2. cbn in Hh. rewrite lookup_empty in Hh. cbn in Hh.
  unfold agree_on in Hb. unfold history in Hh.
  destruct (networks st !! b) as [n|]; destruct (signal_history st !! b) as [h|];
    try contradiction; cbn in Hh.
  - destruct Hb as (Hne & Hsig & Hbssid & Hfirst & Hlast).
    rewrite Hh in Hne, Hsig, Hfirst, Hlast |- *. split.
    + intros Hnil. congruence.
    + intros _. exists n. repeat split; assumption.
  - split; [by split | congruence].
Qed.

(** X8. The tracker names a station after the first beacon it captured of
    it: the decoded SSID, "Unknown" when it cannot be decoded, and
    "[Hidden Network]" when it is empty.  Later beacons never change the
    name. *)
Theorem tracker_name_is_first_beacon (evs : list event) (b : string) (ev : event) :
  head (beacons_of b evs) = Some ev ->
  exists st n,
    run evs init = Some st
    /\ networks st !! b = Some n
    /\ ssid n = beacon_name (snd ev).
Proof.
  intros Hev.
  destruct (run_agree evs init init_agree) as (st & Hrun & _ & _ & _ & Hnew).
  destruct (Hnew b ev) as (n & Hn & Hs); [apply lookup_empty | assumption |].
  exists st, n. repeat split; assumption.
Qed.

Lemma tracker_name_is_first_beacon_witness :
  exists st n,
    run hidden_then_named SignalTracker.init = Some st
    /\ networks st !! "AA:1" = Some n
    /\ ssid n = "[Hidden Network]".
Proof.
  apply (tracker_name_is_first_beacon hidden_then_named "AA:1"
           (10, beacon "AA:1" (Some "") 6 "WPA2" (-55))).
  reflexivity.
Defined.

End TrackerCapture.
(* ===================================================================== *)
(** * More on the stability analysis: range, bounds, offsets *)
(* ===================================================================== *)

Section AnalysisBounds.
Import Analyzer Samples Examples.

Lemma fold_min_spec (vs : list Z) (v : Z) :
  (forall x, In x (v :: vs) -> fold_left Z.min vs v <= x)
  /\ In (fold_left Z.min vs v) (v :: vs).
Proof.
  revert v. induction vs as [|w vs IH]; intros v; cbn [fold_left].
  - split; [intros x [<-|[]]; lia | by left].
  - destruct (IH (Z.min v w)) as [Hle Hin]. split.
    + intros x [<-|[<-|Hx]].
      * specialize (Hle (Z.min v w) (or_introl eq_refl)). lia.
      * specialize (Hle (Z.min v w) (or_introl eq_refl)). lia.
      * apply Hle. by right.
    + destruct Hin as [Heq|Hin]; [|by right; right].
      rewrite <- Heq. destruct (Z.min_spec v w) as [[_ ->]|[_ ->]];
        [by left | by right; left].
Qed.

Lemma fold_max_spec (vs : list Z) (v : Z) :
  (forall x, In x (v :: vs) -> x <= fold_left Z.max vs v)
  /\ In (fold_left Z.max vs v) (v :: vs).
Proof.
  revert v. induction vs as [|w vs IH]; intros v; cbn [fold_left].
  - split; [intros x [<-|[]]; lia | by left].
  - destruct (IH (Z.max v w)) as [Hle Hin]. split.
    + intros x [<-|[<-|Hx]].
      * specialize (Hle (Z.max v w) (or_introl eq_refl)). lia.
      * specialize (Hle (Z.max v w) (or_introl eq_refl)). lia.
      * apply Hle. by right.
    + destruct Hin as [Heq|Hin]; [|by right; right].
      rewrite <- Heq. destruct (Z.max_spec v w) as [[_ ->]|[_ ->]];
        [by right; left | by left].
Qed.

Lemma py_min_spec (vs : list Z) :
  vs <> [] -> (forall x, In x vs -> py_min vs <= x) /\ In (py_min vs) vs.
Proof. destruct vs as [|v vs]; [congruence|]. intros _. apply fold_min_spec. Qed.

Lemma py_max_spec (vs : list Z) :
  vs <> [] -> (forall x, In x vs -> x <= py_max vs) /\ In (py_max vs) vs.
Proof. destruct vs as [|v vs]; [congruence|]. intros _. apply fold_max_spec. Qed.

Lemma analyze_full (signals : list (Z * Z)) :
  (3 <= length signals)%nat ->
  analyze_signal_stability signals
  = {| stability := stability_of (map snd signals);
       signal_range := py_max (map snd signals) - py_min (map snd signals);
       min_signal := Some (py_min (map snd signals));
       max_signal := Some (py_max (map snd signals));
       trend := trend_of (map snd signals) |}.
Proof.
  intros Hlen. unfold analyze_signal_stability.
  destruct (Nat.ltb_spec (length signals) 3); [lia | reflexivity].
Qed.

Lemma values_nonempty (signals : list (Z * Z)) :
  (3 <= length signals)%nat -> map snd signals <> [].
Proof. destruct signals; cbn; [lia | discriminate]. Qed.

(** X9. With at least 3 samples the report's minimum and maximum are signal
    values of the sequence that bound every signal value, and the range is
    their difference: it is never negative, and it is 0 exactly when all
    signal values are equal. *)
Theorem report_range (signals : list (Z * Z)) :
  (3 <= length signals)%nat ->
  let r := analyze_signal_stability signals in
  exists lo hi,
    min_signal r = Some lo /\ max_signal r = Some hi
    /\ In lo (map snd signals) /\ In hi (map snd signals)
    /\ (forall v, In v (map snd signals) -> lo <= v <= hi)
    /\ signal_range r = hi - lo
    /\ 0 <= signal_range r
    /\ (signal_range r = 0 <->
        forall v w, In v (map snd signals) -> In w (map snd signals) -> v = w).
Proof.
  intros Hlen r. subst r. rewrite analyze_full by assumption. cbn.
  pose proof (values_nonempty signals Hlen) as Hne.
  destruct (py_min_spec _ Hne) as [Hlo Hlo_in].
  destruct (py_max_spec _ Hne) as [Hhi Hhi_in].
  exists (py_min (map snd signals)), (py_max (map snd signals)).
  do 4 (split; [first [reflexivity | assumption]|]).
  split; [intros v Hv; split; auto|].
  split; [reflexivity|].
  split; [specialize (Hlo _ Hhi_in); lia|].
  split.
  - intros Hzero v w Hv Hw.
    pose proof (Hlo v Hv). pose proof (Hhi v Hv).
    pose proof (Hlo w Hw). pose proof (Hhi w Hw). lia.
  - intros Hall. rewrite (Hall _ _ Hhi_in Hlo_in). lia.
Qed.

Lemma report_range_witness :
  exists lo hi,
    min_signal (analyze_signal_stability (stamped five_samples)) = Some lo
    /\ max_signal (analyze_signal_stability (stamped five_samples)) = Some hi
    /\ lo = -52 /\ hi = -49
    /\ signal_range (analyze_signal_stability (stamped five_samples)) = 3.
Proof.
  destruct (report_range (stamped five_samples)) as (lo & hi & Hlo & Hhi & _ & _ & _ & Hr & _);
    [simpl; lia|].
  exists lo, hi. split; [assumption|]. split; [assumption|].
  assert (lo = -52) by (vm_compute in Hlo; congruence).
  assert (hi = -49) by (vm_compute in Hhi; congruence).
  split; [assumption|]. split; [assumption|]. rewrite Hr. lia.
Defined.

Lemma shift_values (c : Z) (signals : list (Z * Z)) :
  map snd (shift c signals) = map (raise c) (map snd signals).
Proof. unfold shift. rewrite !map_map. reflexivity. Qed.

Lemma fold_max_shift (c v : Z) (vs : list Z) :
  fold_left Z.max (map (raise c) vs) (raise c v) = raise c (fold_left Z.max vs v).
Proof.
  revert v. induction vs as [|w vs IH]; intros v; cbn [map fold_left]; [reflexivity|].
  unfold raise at 2 3. rewrite Z.add_max_distr_r. apply IH.
Qed.

Lemma fold_min_shift (c v : Z) (vs : list Z) :
  fold_left Z.min (map (raise c) vs) (raise c v) = raise c (fold_left Z.min vs v).
Proof.
  revert v. induction vs as [|w vs IH]; intros v; cbn [map fold_left]; [reflexivity|].
  unfold raise at 2 3. rewrite Z.add_min_distr_r. apply IH.
Qed.

(** X11. Raising every signal value by the same amount leaves the reported
    range unchanged and raises the reported minimum and maximum by that
    amount; a report for fewer than 3 samples does not change at all.  The
    two labels do depend on the level: there are samples whose stability
    band changes, and samples whose trend changes, when all values are
    raised by the same amount, because the binary64 mean is rounded
    differently. *)
Theorem offset_keeps_range_only (c : Z) (signals : list (Z * Z)) :
  let r := analyze_signal_stability signals in
  let r' := analyze_signal_stability (shift c signals) in
  signal_range r' = signal_range r
  /\ min_signal r' = (raise c) <$> min_signal r
  /\ max_signal r' = (raise c) <$> max_signal r
  /\ ((length signals < 3)%nat -> r' = r)
  /\ (exists samples offset,
        NumPy.exactly_summed samples
        /\ NumPy.exactly_summed (map (raise offset) samples)
        /\ stability (analyze_signal_stability (shift offset (stamped samples)))
           <> stability (analyze_signal_stability (stamped samples)))
  /\ (exists samples offset,
        NumPy.exactly_summed samples
        /\ NumPy.exactly_summed (map (raise offset) samples)
        /\ trend (analyze_signal_stability (shift offset (stamped samples)))
           <> trend (analyze_signal_stability (stamped samples))).
Proof.
  intros r r'. subst r r'.
  assert (Hlen : length (shift c signals) = length signals)
    by (unfold shift; apply length_map).
  split; [|split; [|split; [|split; [|split]]]].
  1-4: unfold analyze_signal_stability; rewrite Hlen;
       destruct (Nat.ltb_spec (length signals) 3) as [|H3];
       [first [reflexivity | intros; reflexivity] |].
  1-3: cbn; rewrite shift_values;
       destruct (map snd signals) as [|v vs] eqn:Hvs;
       [apply (f_equal (@length Z)) in Hvs; rewrite length_map in Hvs;
        cbn in Hvs; lia|];
       cbn [map py_max py_min]; rewrite ?fold_max_shift, ?fold_min_shift;
       unfold raise; first [reflexivity | lia].
  - intros. lia.
  - exists edge_samples, 10.
    split; [apply small_samples; [reflexivity | simpl; lia]|].
    split; [apply small_samples; [reflexivity | simpl; lia]|].
    vm_compute. discriminate.
  - exists tied_halves, (-40).
    split; [apply small_samples; [reflexivity | simpl; lia]|].
    split; [apply small_samples; [reflexivity | simpl; lia]|].
    vm_compute. discriminate.
Qed.

Lemma py_min_perm (vs ws : list Z) : Permutation vs ws -> py_min vs = py_min ws.
Proof.
  intros Hp. destruct (decide (vs = [])) as [->|Hne].
  - by rewrite (Permutation_nil Hp).
  - assert (Hne' : ws <> []).
    { intros ->. apply Hne. apply Permutation_nil. by symmetry. }
    destruct (py_min_spec vs Hne) as [Hle Hin].
    destruct (py_min_spec ws Hne') as [Hle' Hin'].
    apply (Permutation_in _ Hp) in Hin.
    apply (Permutation_in _ (Permutation_sym Hp)) in Hin'.
    specialize (Hle _ Hin'). specialize (Hle' _ Hin). lia.
Qed.

Lemma py_max_perm (vs ws : list Z) : Permutation vs ws -> py_max vs = py_max ws.
Proof.
  intros Hp. destruct (decide (vs = [])) as [->|Hne].
  - by rewrite (Permutation_nil Hp).
  - assert (Hne' : ws <> []).
    { intros ->. apply Hne. apply Permutation_nil. by symmetry. }
    destruct (py_max_spec vs Hne) as [Hle Hin].
    destruct (py_max_spec ws Hne') as [Hle' Hin'].
    apply (Permutation_in _ Hp) in Hin.
    apply (Permutation_in _ (Permutation_sym Hp)) in Hin'.
    specialize (Hle _ Hin'). specialize (Hle' _ Hin). lia.
Qed.

(** X12. The minimum, the maximum and the range do not depend on the
    order of the samples, and neither does a report for fewer than 3
    samples.  The two labels do: there are samples whose stability band
    changes when they are reordered, because the squared deviations are
    added in another order, and samples whose trend changes. *)
Theorem order_keeps_range_only (signals signals' : list (Z * Z)) :
  Permutation signals signals' ->
  let r := analyze_signal_stability signals in
  let r' := analyze_signal_stability signals' in
  signal_range r' = signal_range r
  /\ min_signal r' = min_signal r
  /\ max_signal r' = max_signal r
  /\ ((length signals < 3)%nat -> r' = r)
  /\ (exists samples samples',
        Permutation samples samples'
        /\ NumPy.exactly_summed samples
        /\ stability (analyze_signal_stability (stamped samples'))
           <> stability (analyze_signal_stability (stamped samples)))
  /\ (exists samples samples',
        Permutation samples samples'
        /\ NumPy.exactly_summed samples
        /\ trend (analyze_signal_stability (stamped samples'))
           <> trend (analyze_signal_stability (stamped samples))).
Proof.
  intros Hp r r'. subst r r'.
  assert (Hv : Permutation (map snd signals) (map snd signals'))
    by (by apply Permutation_map).
  split; [|split; [|split; [|split; [|split]]]].
  1-4: unfold analyze_signal_stability; rewrite <- (Permutation_length Hp);
       destruct (Nat.ltb_spec (length signals) 3) as [|H3];
       [first [reflexivity | intros; reflexivity] |].
  1-3: cbn; by rewrite ?(py_min_perm _ _ Hv), ?(py_max_perm _ _ Hv).
  - intros. lia.
  - exists edge_samples, edge_samples_reordered.
    split; [|split; [apply small_samples; [reflexivity | simpl; lia]|]].
    + apply (Permutation_trans (l' := [-73; -75; -76; -70; -73; -72; -74; -70; -71]));
        unfold edge_samples, edge_samples_reordered.
      * apply perm_skip, perm_swap.
      * do 2 apply perm_skip.
        apply (Permutation_trans (l' := [-70; -76; -73; -72; -74; -70; -71]));
          [apply perm_swap|].
        do 5 apply perm_skip. apply perm_swap.
    + vm_compute. discriminate.
  - exists ten_samples, (rev ten_samples).
    split; [apply Permutation_rev|].
    split; [apply small_samples; [reflexivity | simpl; lia]|].
    vm_compute. discriminate.
Qed.

Lemma order_keeps_range_only_witness :
  let r := analyze_signal_stability (stamped ten_samples) in
  let r' := analyze_signal_stability (rev (stamped ten_samples)) in
  signal_range r' = signal_range r
  /\ min_signal r' = min_signal r
  /\ max_signal r' = max_signal r.
Proof.
  destruct (order_keeps_range_only (stamped ten_samples) (rev (stamped ten_samples)))
    as (Hr & Hlo & Hhi & _).
  - apply Permutation_rev.
  - split; [exact Hr|]. split; [exact Hlo | exact Hhi].
Defined.

End AnalysisBounds.

(* ===================================================================== *)
(** * The range and the band in exact arithmetic *)
(* ===================================================================== *)

Section ExactBounds.
Import Analyzer ExactAnalyzer Samples Examples.

Lemma Qltb_lt a b : Qltb a b = true <-> (a < b)%Q.
Proof.
  unfold Qltb. rewrite negb_true_iff, <- not_true_iff_false, Qle_bool_iff.
  split; [apply Qnot_le_lt | apply Qlt_not_le].
Qed.

Lemma sumQ_cons (q : Q) (qs : list Q) : sumQ (q :: qs) = (q + sumQ qs)%Q.
Proof. reflexivity. Qed.

Lemma len_nonneg (vs : list Z) : (0 <= len vs)%Q.
Proof.
  unfold len. change 0%Q with (inject_Z 0). rewrite <- Zle_Qle. lia.
Qed.

Lemma Q2R_inject_Z (z : Z) : Q2R (inject_Z z) = IZR z.
Proof. unfold Q2R, inject_Z. simpl. lra. Qed.

Lemma exact_analyze_full (signals : list (Z * Z)) :
  (3 <= length signals)%nat ->
  analyze_signal_stability signals
  = {| stability := stability_of (map snd signals);
       signal_range := py_max (map snd signals) - py_min (map snd signals);
       min_signal := Some (py_min (map snd signals));
       max_signal := Some (py_max (map snd signals));
       trend := trend_of (map snd signals) |}.
Proof.
  intros Hlen. unfold analyze_signal_stability.
  destruct (Nat.ltb_spec (length signals) 3); [lia | reflexivity].
Qed.

Lemma len_cons (v : Z) (vs : list Z) : (len (v :: vs) == 1 + len vs)%Q.
Proof.
  unfold len. cbn [length]. rewrite Nat2Z.inj_succ, <- Z.add_1_l, inject_Z_plus.
  reflexivity.
Qed.

Lemma len_pos (vs : list Z) : vs <> [] -> (0 < len vs)%Q.
Proof.
  destruct vs as [|v vs]; [congruence|]. intros _.
  rewrite len_cons. pose proof (len_nonneg vs). Lqa.lra.
Qed.

Lemma sumZ_bounds (lo hi : Z) (vs : list Z) :
  (forall x, In x vs -> lo <= x <= hi) ->
  Z.of_nat (length vs) * lo <= sumZ vs <= Z.of_nat (length vs) * hi.
Proof.
  induction vs as [|v vs IH]; intros Hall; cbn [sumZ fold_right length].
  - lia.
  - fold (sumZ vs).
    assert (lo <= v <= hi) by (apply Hall; by left).
    assert (Z.of_nat (length vs) * lo <= sumZ vs <= Z.of_nat (length vs) * hi)
      by (apply IH; intros x Hx; apply Hall; by right).
    lia.
Qed.

Lemma mean_bounds (lo hi : Z) (vs : list Z) :
  vs <> [] -> (forall x, In x vs -> lo <= x <= hi) ->
  (inject_Z lo <= mean vs <= inject_Z hi)%Q.
Proof.
  intros Hne Hall. pose proof (len_pos vs Hne) as Hpos.
  destruct (sumZ_bounds lo hi vs Hall) as [Hlo Hhi].
  unfold mean. split.
  - apply Qle_shift_div_l; [assumption|]. unfold len.
    rewrite <- inject_Z_mult, <- Zle_Qle. lia.
  - apply Qle_shift_div_r; [assumption|]. unfold len.
    rewrite <- inject_Z_mult, <- Zle_Qle. lia.
Qed.

Lemma Qsquare_le (d r : Q) : (- r <= d)%Q -> (d <= r)%Q -> (d * d <= r * r)%Q.
Proof.
  intros Hlo Hhi.
  assert (H : (0 <= (r - d) * (r + d))%Q)
    by (apply Qmult_le_0_compat; Lqa.lra).
  Lqa.lra.
Qed.

Lemma sumQ_le_each (c : Q) (f : Z -> Q) (vs : list Z) :
  (forall x, In x vs -> (f x <= c)%Q) -> (sumQ (map f vs) <= len vs * c)%Q.
Proof.
  induction vs as [|v vs IH]; intros Hall.
  - change (0 <= 0 * c)%Q. Lqa.lra.
  - cbn [map]. rewrite sumQ_cons, len_cons.
    assert (f v <= c)%Q by (apply Hall; by left).
    assert (sumQ (map f vs) <= len vs * c)%Q
      by (apply IH; intros x Hx; apply Hall; by right).
    Lqa.lra.
Qed.

(** The variance is at most the square of the spread of the values. *)
Lemma variance_le_spread (lo hi : Z) (vs : list Z) :
  vs <> [] -> (forall x, In x vs -> lo <= x <= hi) ->
  (variance vs <= inject_Z ((hi - lo) * (hi - lo)))%Q.
Proof.
  intros Hne Hall. pose proof (len_pos vs Hne) as Hpos.
  destruct (mean_bounds lo hi vs Hne Hall) as [Hmlo Hmhi].
  unfold variance. apply Qle_shift_div_r; [assumption|].
  rewrite Qmult_comm. apply sumQ_le_each. intros x Hx.
  destruct (Hall x Hx) as [Hxlo Hxhi].
  rewrite Zle_Qle in Hxlo, Hxhi.
  rewrite inject_Z_mult. unfold Zminus. rewrite inject_Z_plus, inject_Z_opp.
  apply Qsquare_le; Lqa.lra.
Qed.

Lemma std_dev_lt_of_spread (lo hi k : Z) (vs : list Z) :
  vs <> [] -> (forall x, In x vs -> lo <= x <= hi) ->
  0 <= hi - lo < k -> std_dev_lt vs k = true.
Proof.
  intros Hne Hall Hk. unfold std_dev_lt. apply Qltb_lt.
  eapply Qle_lt_trans; [by apply (variance_le_spread lo hi)|].
  rewrite <- Zlt_Qlt. nia.
Qed.



End ExactBounds.

(* ===================================================================== *)
(** * More on the classifier: bounds, keywords, the scanner's labels *)
(* ===================================================================== *)

Section ClassifierBounds.
Import Classifier Evidence Names Examples.

Lemma hits_nonneg ks s : 0 <= hits ks s.
Proof. unfold hits. lia. Qed.

Lemma vendor_nonneg m t : 0 <= vendor m t.
Proof. destruct m, t; simpl; lia. Qed.

Lemma accumulate_nonneg (nd : network_data) (t : network_type) :
  0 <= accumulate nd t.
Proof.
  unfold accumulate.
  rewrite check_signal_at, check_manufacturer_at, check_ssid_patterns_at,
    check_encryption_at, check_hidden_at.
  unfold scores_init.
  set (ssid := PyStr.upper _). set (mfr := PyStr.upper _).
  pose proof (hits_nonneg (keywords t) ssid).
  pose proof (hits_nonneg (vendors GOVERNMENT) mfr).
  pose proof (hits_nonneg (vendors MFG_ENTERPRISE) mfr).
  pose proof (hits_nonneg (vendors CONSUMER) mfr).
  pose proof (hits_nonneg (vendors MOBILE) mfr).
  pose proof (hits_nonneg (vendors MFG_IOT) mfr).
  pose proof (vendor_nonneg GOVERNMENT t).
  pose proof (vendor_nonneg MFG_ENTERPRISE t).
  pose proof (vendor_nonneg CONSUMER t).
  pose proof (vendor_nonneg MOBILE t).
  pose proof (vendor_nonneg MFG_IOT t).
  assert (0 <= (if default false (nd_hidden nd) then concealment t else 0))
    by (destruct (default false (nd_hidden nd)), t; simpl; lia).
  assert (0 <= (if String.eqb (default "Unknown" (nd_encryption nd)) "WPA2/WPA3"
                then strong_encryption t
                else if String.eqb (default "Unknown" (nd_encryption nd)) "Open"
                     then open_encryption t else 0)).
  { destruct (String.eqb _ "WPA2/WPA3"); [destruct t; simpl; lia|].
    destruct (String.eqb _ "Open"); [destruct t; simpl; lia | lia]. }
  assert (0 <= (if -40 <? default (-100) (nd_signal nd) then very_strong_signal t
                else if default (-100) (nd_signal nd) <? -80 then weak_signal t
                     else 0)).
  { destruct (-40 <? _); [destruct t; simpl; lia|].
    destruct (_ <? -80); [destruct t; simpl; lia | lia]. }
  nia.
Qed.

(** Which types reach the value [m], for the seven types in turn. *)
Ltac ties_at scores m :=
  destruct (Z.eqb_spec (scores POSSIBLE_OFFICIAL) m);
  destruct (Z.eqb_spec (scores ENTERPRISE) m);
  destruct (Z.eqb_spec (scores MOBILE_HOTSPOT) m);
  destruct (Z.eqb_spec (scores PUBLIC) m);
  destruct (Z.eqb_spec (scores IOT) m);
  destruct (Z.eqb_spec (scores ISP_PROVIDED) m);
  destruct (Z.eqb_spec (scores STANDARD) m).

(** Whatever the scores, a non-zero maximum is returned with a type that
    reaches it and one of the two capped confidences. *)
Lemma resolve_positive (scores : scores_t) :
  max_of scores <> 0 ->
  exists t,
    scores t = max_of scores
    /\ (resolve scores = (t, Qmin 1 (inject_Z (max_of scores) / 10))
        \/ resolve scores = (t, Qmin (7 # 10) (inject_Z (max_of scores) / 10))).
Proof.
  intros Hm. unfold resolve.
  destruct (Z.eqb_spec (max_of scores) 0) as [|_]; [done|].
  destruct (max_of_attained scores) as [c Hc].
  unfold candidates_of, items, score_keys.
  generalize dependent (max_of scores). intros m Hm Hc.
  cbn [map List.filter].
  ties_at scores m; cbn [map fst];
    try (exfalso; destruct c; congruence);
    (eexists; split; cycle 1;
     [first [left; reflexivity | right; reflexivity] | assumption]).
Qed.

Lemma tenths_le (m c : Z) : m <= c -> (inject_Z m / 10 <= inject_Z c / 10)%Q.
Proof.
  intros H. apply Qmult_le_compat_r; [by rewrite <- Zle_Qle | discriminate].
Qed.

(** The capped confidence is a whole number of tenths. *)
Lemma capped_tenths (q : Q) (c m : Z) :
  (q == inject_Z c / 10)%Q ->
  (Qmin q (inject_Z m / 10) == inject_Z (Z.min c m) / 10)%Q.
Proof.
  intros Hq. destruct (Z.min_spec c m) as [[Hlt ->]|[Hle ->]].
  - rewrite Q.min_l; [assumption|]. rewrite Hq. apply tenths_le. lia.
  - rewrite Q.min_r; [reflexivity|]. rewrite Hq. apply tenths_le. lia.
Qed.

(** X13. Every accumulated score is non-negative; the returned type always
    has the maximum score; the confidence is a whole number of tenths
    between 0.0 and 1.0, and it is 0.0 exactly when no category has any
    evidence. *)
Theorem classify_network_bounds (nd : network_data) :
  let scores := accumulate nd in
  let result := classify_network nd in
  (forall t, 0 <= scores t)
  /\ scores (fst result) = max_of scores
  /\ (exists k, 0 <= k <= 10 /\ (snd result == inject_Z k / 10)%Q)
  /\ (0 <= snd result <= 1)%Q
  /\ ((snd result == 0)%Q <-> forall t, scores t = 0).
Proof.
  intros scores result.
  assert (Hnn : forall t, 0 <= scores t) by apply accumulate_nonneg.
  split; [exact Hnn|].
  assert (Hcases :
    (max_of scores = 0 /\ result = (STANDARD, 0%Q))
    \/ (exists t k, 1 <= k <= 10 /\ 1 <= max_of scores /\ scores t = max_of scores
                    /\ fst result = t /\ (snd result == inject_Z k / 10)%Q)).
  { destruct (Z.eq_dec (max_of scores) 0) as [H0|Hpos].
    - left. split; [assumption|]. by apply resolve_no_evidence.
    - right. destruct (resolve_positive scores Hpos) as (t & Ht & Hres).
      assert (Hm : 1 <= max_of scores).
      { pose proof (max_of_upper scores t). pose proof (Hnn t). lia. }
      unfold result, classify_network. fold scores.
      destruct Hres as [-> | ->]; cbn [fst snd].
      + exists t, (Z.min 10 (max_of scores)).
        split; [lia|]. do 3 (split; [first [assumption | reflexivity]|]).
        by apply (capped_tenths 1 10).
      + exists t, (Z.min 7 (max_of scores)).
        split; [lia|]. do 3 (split; [first [assumption | reflexivity]|]).
        by apply (capped_tenths (7 # 10) 7). }
  assert (Hzero : max_of scores = 0 -> forall t, scores t = 0).
  { intros H0 t. pose proof (max_of_upper scores t). pose proof (Hnn t). lia. }
  destruct Hcases as [[H0 Hres] | (t & k & Hk & Hm & Ht & Hfst & Hsnd)].
  - rewrite Hres. cbn [fst snd].
    split; [rewrite H0; by apply Hzero|].
    split; [exists 0; split; [lia | reflexivity]|].
    split; [split; discriminate|].
    split; [intros _; by apply Hzero | reflexivity].
  - split; [by rewrite Hfst|].
    split; [exists k; split; [lia | assumption]|].
    assert (Hk1 : (inject_Z 1 / 10 <= inject_Z k / 10)%Q) by (apply tenths_le; lia).
    assert (Hk10 : (inject_Z k / 10 <= inject_Z 10 / 10)%Q) by (apply tenths_le; lia).
    change (inject_Z 1 / 10)%Q with (1 # 10)%Q in Hk1.
    assert (H10 : (inject_Z 10 / 10 == 1)%Q) by reflexivity.
    split; [rewrite Hsnd; split; Lqa.lra|].
    split.
    + intros Hz. rewrite Hsnd in Hz. Lqa.lra.
    + intros Hall. rewrite <- Ht, Hall in Hm. lia.
Qed.

Lemma upper_ascii_not_lower (c : ascii) : is_lower (PyStr.upper_ascii c) = false.
Proof. destruct c as [[] [] [] [] [] [] [] []]; reflexivity. Qed.

Lemma upper_has_no_lower (s : string) : has_lower (PyStr.upper s) = false.
Proof.
  induction s as [|c s IH]; [reflexivity|].
  cbn [PyStr.upper has_lower]. by rewrite upper_ascii_not_lower, IH.
Qed.

Lemma prefix_has_lower (p s : string) :
  String.prefix p s = true -> has_lower p = true -> has_lower s = true.
Proof.
  revert s. induction p as [|a p IH]; intros s; [discriminate 2|].
  destruct s as [|c s]; [discriminate|]. cbn [String.prefix has_lower].
  destruct (ascii_dec a c) as [->|]; [|discriminate].
  intros Hp. destruct (is_lower c); [reflexivity|]. cbn. by apply IH.
Qed.

Lemma contains_has_lower (p s : string) :
  PyStr.contains p s = true -> has_lower p = true -> has_lower s = true.
Proof.
  intros Hc Hp. induction s as [|c s IH]; cbn [PyStr.contains] in Hc.
  - rewrite orb_false_r in Hc. by apply (prefix_has_lower p).
  - apply orb_true_iff in Hc as [Hpre|Hrest].
    + by apply (prefix_has_lower p).
    + cbn [has_lower]. rewrite (IH Hrest). apply orb_true_r.
Qed.

(** A pattern with a lower-case letter is never found in an upper-cased
    string. *)
Lemma lower_pattern_never_found (p s : string) :
  has_lower p = true -> PyStr.contains p (PyStr.upper s) = false.
Proof.
  intros Hp. apply not_true_iff_false. intros Hc.
  pose proof (contains_has_lower _ _ Hc Hp) as H.
  by rewrite upper_has_no_lower in H.
Qed.

(** X14. The MOBILE_HOTSPOT keyword "MiFi" is never found, because the name
    is upper-cased before the search: whatever the record, the keyword
    points of MOBILE_HOTSPOT are those of the ten other keywords, and a
    record named "MiFi" gets none. *)
Theorem mifi_keyword_never_matches (nd : network_data) :
  let ssid := PyStr.upper (default "" (nd_ssid nd)) in
  PyStr.contains "MiFi" ssid = false
  /\ hits (keywords MOBILE_HOTSPOT) ssid = hits mobile_keywords_upper ssid
  /\ (nd_ssid nd = Some "MiFi" -> hits (keywords MOBILE_HOTSPOT) ssid = 0).
Proof.
  intros ssid.
  assert (Hmifi : PyStr.contains "MiFi" ssid = false)
    by (by apply lower_pattern_never_found).
  assert (Heq : hits (keywords MOBILE_HOTSPOT) ssid = hits mobile_keywords_upper ssid).
  { change (keywords MOBILE_HOTSPOT)
      with (["IPHONE"; "ANDROID"; "GALAXY"; "MOBILE"; "HOTSPOT"]
            ++ "MiFi" :: ["PHONE"; "POCKET"; "SAMSUNG"; "HUAWEI"; "USB"])%list.
    change mobile_keywords_upper
      with (["IPHONE"; "ANDROID"; "GALAXY"; "MOBILE"; "HOTSPOT"]
            ++ ["PHONE"; "POCKET"; "SAMSUNG"; "HUAWEI"; "USB"])%list.
    rewrite !hits_app, (hits_cons "MiFi"), Hmifi. lia. }
  split; [exact Hmifi|]. split; [exact Heq|].
  intros Hname. rewrite Heq. subst ssid. rewrite Hname. reflexivity.
Qed.

Lemma mifi_keyword_never_matches_witness :
  hits (keywords MOBILE_HOTSPOT) (PyStr.upper "MiFi") = 0.
Proof.
  apply (mifi_keyword_never_matches
           {| nd_ssid := Some "MiFi"; nd_encryption := Some "WPA2";
              nd_hidden := Some false; nd_manufacturer := Some "Unknown";
              nd_signal := Some (-60) |}).
  reflexivity.
Defined.

Lemma prefix_contains (p s : string) :
  String.prefix p s = true -> PyStr.contains p s = true.
Proof. intros H. destruct s; cbn [PyStr.contains]; by rewrite H. Qed.

Lemma contains_cons (p : string) (c : ascii) (s : string) :
  PyStr.contains p s = true -> PyStr.contains p (String c s) = true.
Proof. intros H. cbn [PyStr.contains]. rewrite H. apply orb_true_r. Qed.

Lemma prefix_app_l (p q s : string) :
  String.prefix (p ++ q) s = true -> String.prefix p s = true.
Proof.
  revert s. induction p as [|a p IH]; intros s; [by destruct s|].
  destruct s as [|c s]; [discriminate|]. simpl.
  destruct (ascii_dec a c); [apply IH | discriminate].
Qed.

(** A string that contains [p ++ q] contains [p]. *)
Lemma contains_app_l (p q s : string) :
  PyStr.contains (p ++ q) s = true -> PyStr.contains p s = true.
Proof.
  induction s as [|c s IH]; cbn [PyStr.contains]; intros H.
  - rewrite orb_false_r in H. apply prefix_app_l in H. by rewrite H.
  - apply orb_true_iff in H as [H|H].
    + apply prefix_app_l in H. by rewrite H.
    + rewrite (IH H). apply orb_true_r.
Qed.

Lemma contains_drop_head (a : ascii) (p s : string) :
  PyStr.contains (String a p) s = true -> PyStr.contains p s = true.
Proof.
  induction s as [|c s IH]; cbn [PyStr.contains String.prefix]; intros H.
  - discriminate.
  - apply orb_true_iff in H as [H|H].
    + destruct (ascii_dec a c); [|discriminate].
      apply contains_cons. by apply prefix_contains.
    + apply contains_cons. by apply IH.
Qed.

(** A string that contains [q ++ p] contains [p]. *)
Lemma contains_app_r (q p s : string) :
  PyStr.contains (q ++ p) s = true -> PyStr.contains p s = true.
Proof.
  induction q as [|a q IH]; [done|]. simpl.
  intros H. apply IH. by apply (contains_drop_head a).
Qed.

Lemma hits_member (k : string) (ks : list string) (s : string) :
  In k ks -> PyStr.contains k s = true -> 1 <= hits ks s.
Proof.
  induction ks as [|k' ks IH]; [contradiction|].
  intros [->|Hin] Hk; rewrite hits_cons.
  - rewrite Hk. pose proof (hits_nonneg ks s). lia.
  - specialize (IH Hin Hk). destruct (PyStr.contains k' s); lia.
Qed.

(** The keyword points are a lower bound of the score. *)
Lemma accumulate_ge_keywords (nd : network_data) (t : network_type) :
  4 * hits (keywords t) (PyStr.upper (default "" (nd_ssid nd))) <= accumulate nd t.
Proof.
  unfold accumulate.
  rewrite check_signal_at, check_manufacturer_at, check_ssid_patterns_at.
  set (ssid := PyStr.upper (default "" _)). set (mfr := PyStr.upper _).
  set (base := check_encryption _ _).
  assert (Hbase : 0 <= base t).
  { subst base. rewrite check_encryption_at, check_hidden_at. unfold scores_init.
    assert (0 <= (if default false (nd_hidden nd) then concealment t else 0))
      by (destruct (default false (nd_hidden nd)), t; simpl; lia).
    destruct (String.eqb _ "WPA2/WPA3"); [destruct t; simpl in *; lia|].
    destruct (String.eqb _ "Open"); [destruct t; simpl in *; lia | lia]. }
  pose proof (hits_nonneg (vendors GOVERNMENT) mfr).
  pose proof (hits_nonneg (vendors MFG_ENTERPRISE) mfr).
  pose proof (hits_nonneg (vendors CONSUMER) mfr).
  pose proof (hits_nonneg (vendors MOBILE) mfr).
  pose proof (hits_nonneg (vendors MFG_IOT) mfr).
  pose proof (vendor_nonneg GOVERNMENT t).
  pose proof (vendor_nonneg MFG_ENTERPRISE t).
  pose proof (vendor_nonneg CONSUMER t).
  pose proof (vendor_nonneg MOBILE t).
  pose proof (vendor_nonneg MFG_IOT t).
  assert (0 <= (if -40 <? default (-100) (nd_signal nd) then very_strong_signal t
                else if default (-100) (nd_signal nd) <? -80 then weak_signal t
                     else 0)).
  { destruct (-40 <? _); [destruct t; simpl; lia|].
    destruct (_ <? -80); [destruct t; simpl; lia | lia]. }
  nia.
Qed.

Lemma hits_two (k1 k2 : string) (pre mid post : list string) (s : string) :
  PyStr.contains k1 s = true -> PyStr.contains k2 s = true ->
  2 <= hits (pre ++ k1 :: mid ++ k2 :: post) s.
Proof.
  intros H1 H2. rewrite hits_app, (hits_cons k1), hits_app, (hits_cons k2), H1, H2.
  pose proof (hits_nonneg pre s). pose proof (hits_nonneg mid s).
  pose proof (hits_nonneg post s). lia.
Qed.

(** X15. Keywords that contain another keyword of the same list count twice:
    a name containing "CAMERA" also contains "CAM" and scores at least 8 for
    IOT; likewise "CORPORATE" (with "CORP") for ENTERPRISE, "EMERGENCY" (with
    "EMERG") for OFFICIAL, and "IPHONE" (with "PHONE") for MOBILE_HOTSPOT. *)
Theorem nested_keywords_count_twice (nd : network_data) :
  let ssid := PyStr.upper (default "" (nd_ssid nd)) in
  (PyStr.contains "CAMERA" ssid = true -> 8 <= accumulate nd IOT)
  /\ (PyStr.contains "CORPORATE" ssid = true -> 8 <= accumulate nd ENTERPRISE)
  /\ (PyStr.contains "EMERGENCY" ssid = true -> 8 <= accumulate nd POSSIBLE_OFFICIAL)
  /\ (PyStr.contains "IPHONE" ssid = true -> 8 <= accumulate nd MOBILE_HOTSPOT).
Proof.
  intros ssid. split; [|split; [|split]]; intros H.
  - pose proof (accumulate_ge_keywords nd IOT) as Hge. fold ssid in Hge.
    assert (2 <= hits (keywords IOT) ssid); [|lia].
    apply (hits_two "CAM" "CAMERA" [] []); [|assumption].
    by apply (contains_app_l "CAM" "ERA").
  - pose proof (accumulate_ge_keywords nd ENTERPRISE) as Hge. fold ssid in Hge.
    assert (2 <= hits (keywords ENTERPRISE) ssid); [|lia].
    apply (hits_two "CORP" "CORPORATE" [] ["ENTERPRISE"; "STAFF"; "EMPLOYEE"]);
      [|assumption].
    by apply (contains_app_l "CORP" "ORATE").
  - pose proof (accumulate_ge_keywords nd POSSIBLE_OFFICIAL) as Hge. fold ssid in Hge.
    assert (2 <= hits (keywords POSSIBLE_OFFICIAL) ssid); [|lia].
    apply (hits_two "EMERGENCY" "EMERG"
             ["FBI"; "GOV"; "POLICE"; "FED"; "MIL"; "DOD"; "SECURE";
              "AGENCY"; "OFFICIAL"; "LEO"; "DHS"] []); [assumption|].
    by apply (contains_app_l "EMERG" "ENCY").
  - pose proof (accumulate_ge_keywords nd MOBILE_HOTSPOT) as Hge. fold ssid in Hge.
    assert (2 <= hits (keywords MOBILE_HOTSPOT) ssid); [|lia].
    apply (hits_two "IPHONE" "PHONE" [] ["ANDROID"; "GALAXY"; "MOBILE"; "HOTSPOT"; "MiFi"]);
      [assumption|].
    by apply (contains_app_r "I" "PHONE").
Qed.

Lemma nested_keywords_count_twice_witness :
  8 <= accumulate
         {| nd_ssid := Some "Backyard camera"; nd_encryption := Some "WPA2";
            nd_hidden := Some false; nd_manufacturer := Some "Unknown";
            nd_signal := Some (-60) |} IOT.
Proof.
  apply (nested_keywords_count_twice
           {| nd_ssid := Some "Backyard camera"; nd_encryption := Some "WPA2";
              nd_hidden := Some false; nd_manufacturer := Some "Unknown";
              nd_signal := Some (-60) |}).
  reflexivity.
Defined.

Lemma any_in_hits (ks ks' : list string) (s : string) :
  (forall k, In k ks -> In k ks') ->
  PyStr.any_in ks s = true -> 1 <= hits ks' s.
Proof.
  intros Hsub Hany. unfold PyStr.any_in in Hany.
  apply existsb_exists in Hany as (k & Hk & Hc).
  apply (hits_member k); auto.
Qed.

(** X16. The scanner's first-match label and the classifier's scores agree in
    one direction: when the scanner labels a name POSSIBLE_OFFICIAL,
    ENTERPRISE, MOBILE_HOTSPOT or PUBLIC, the classifier gives that type a
    score of at least 4 for any record with that name.  (The scanner never
    uses the labels IOT and ISP_PROVIDED.) *)
Theorem scanner_label_scores_in_classifier (name : string) (nd : network_data)
    (t : network_type) :
  nd_ssid nd = Some name ->
  Scanner.classify_network name = type_name t ->
  t <> STANDARD ->
  4 <= accumulate nd t /\ t <> IOT /\ t <> ISP_PROVIDED.
Proof.
  intros Hname Hlabel Hstd.
  pose proof (accumulate_ge_keywords nd t) as Hge. rewrite Hname in Hge.
  change (default "" (Some name)) with name in Hge.
  unfold Scanner.classify_network in Hlabel.
  assert (Hin : forall (k : string) (ks ks' : list string),
             forallb (fun k => existsb (String.eqb k) ks') ks = true ->
             In k ks -> In k ks').
  { intros k ks ks' Hall Hk. rewrite forallb_forall in Hall.
    apply Hall in Hk. apply existsb_exists in Hk as (k' & Hk' & ->%String.eqb_eq).
    assumption. }
  destruct (PyStr.any_in _ (PyStr.upper name)) eqn:H1 in Hlabel.
  { destruct t; try discriminate. split; [|split; discriminate].
    apply (any_in_hits _ (keywords POSSIBLE_OFFICIAL)) in H1; [lia|].
    intros k. by apply Hin. }
  destruct (PyStr.any_in _ (PyStr.upper name)) eqn:H2 in Hlabel.
  { destruct t; try discriminate. split; [|split; discriminate].
    apply (any_in_hits _ (keywords ENTERPRISE)) in H2; [lia|].
    intros k. by apply Hin. }
  destruct (PyStr.any_in _ (PyStr.upper name)) eqn:H3 in Hlabel.
  { destruct t; try discriminate. split; [|split; discriminate].
    apply (any_in_hits _ (keywords MOBILE_HOTSPOT)) in H3; [lia|].
    intros k. by apply Hin. }
  destruct (PyStr.any_in _ (PyStr.upper name)) eqn:H4 in Hlabel.
  { destruct t; try discriminate. split; [|split; discriminate].
    apply (any_in_hits _ (keywords PUBLIC)) in H4; [lia|].
    intros k. by apply Hin. }
  destruct t; try discriminate. congruence.
Qed.

Lemma scanner_label_scores_in_classifier_witness :
  4 <= accumulate nd_office_guest PUBLIC.
Proof.
  apply (scanner_label_scores_in_classifier "Office Guest" nd_office_guest PUBLIC).
  - reflexivity.
  - reflexivity.
  - discriminate.
Defined.

(** When POSSIBLE_OFFICIAL reaches a non-zero maximum it is returned: it
    comes first in the key order and in the priority order. *)
Lemma resolve_official_first (scores : scores_t) :
  max_of scores <> 0 ->
  scores POSSIBLE_OFFICIAL = max_of scores ->
  fst (resolve scores) = POSSIBLE_OFFICIAL.
Proof.
  intros Hm Hc. unfold resolve.
  destruct (Z.eqb_spec (max_of scores) 0) as [|_]; [done|].
  unfold candidates_of, items, score_keys.
  generalize dependent (max_of scores). intros m Hm Hc.
  cbn [map List.filter].
  ties_at scores m; cbn [map fst]; try congruence; reflexivity.
Qed.

Lemma max_of_is (scores : scores_t) (t : network_type) :
  (forall t', scores t' <= scores t) -> max_of scores = scores t.
Proof.
  intros Hle. destruct (max_of_attained scores) as [t' Ht'].
  pose proof (max_of_upper scores t). pose proof (Hle t'). lia.
Qed.

(** X21. A station the scanner still holds as hidden, with an unknown
    manufacturer, is always classified POSSIBLE_OFFICIAL, whatever its
    encryption and signal: concealment alone gives OFFICIAL 3 points, which
    nothing else reaches or which wins the tie by priority. *)
Theorem concealed_unknown_vendor_is_official (st : Scanner.state) (b : string)
    (n : Scanner.network) :
  Scanner.reachable st ->
  Scanner.networks st !! b = Some n ->
  Scanner.hidden n = true ->
  Scanner.manufacturer n = "Unknown" ->
  fst (classify_network (as_network_data n)) = POSSIBLE_OFFICIAL
  /\ 3 <= accumulate (as_network_data n) POSSIBLE_OFFICIAL <= 5.
Proof.
  intros Hst Hn Hflag Hmfr.
  destruct (reachable_entries_ok st Hst b n Hn) as (_ & Hname & _).
  rewrite Hflag in Hname. symmetry in Hname. apply String.eqb_eq in Hname.
  assert (Hscore : forall t,
    accumulate (as_network_data n) t
    = concealment t
      + (if String.eqb (Scanner.encryption n) "WPA2/WPA3" then strong_encryption t
         else if String.eqb (Scanner.encryption n) "Open" then open_encryption t
         else 0)
      + (if -40 <? Scanner.signal n then very_strong_signal t
         else if Scanner.signal n <? -80 then weak_signal t else 0)).
  { intros t. unfold accumulate, as_network_data. cbn [nd_ssid nd_encryption
      nd_hidden nd_manufacturer nd_signal].
    rewrite Hname, Hmfr, Hflag.
    rewrite check_signal_at, check_manufacturer_at, check_ssid_patterns_at,
      check_encryption_at, check_hidden_at.
    unfold scores_init.
    change (default "" (Some Scanner.HIDDEN_NETWORK)) with Scanner.HIDDEN_NETWORK.
    change (default "Unknown" (Some "Unknown")) with "Unknown".
    change (default false (Some true)) with true.
    change (default "Unknown" (Some (Scanner.encryption n)))
      with (Scanner.encryption n).
    change (default (-100) (Some (Scanner.signal n))) with (Scanner.signal n).
    assert (Hk : hits (keywords t) (PyStr.upper Scanner.HIDDEN_NETWORK) = 0)
      by (destruct t; reflexivity).
    assert (Hv : forall m, hits (vendors m) (PyStr.upper "Unknown") = 0)
      by (intros m; destruct m; reflexivity).
    rewrite Hk, !Hv. lia. }
  set (scores := accumulate (as_network_data n)) in *.
  assert (Hle : forall t, scores t <= scores POSSIBLE_OFFICIAL).
  { intros t. rewrite !Hscore.
    destruct (String.eqb (Scanner.encryption n) "WPA2/WPA3"),
      (String.eqb (Scanner.encryption n) "Open"),
      (-40 <? Scanner.signal n), (Scanner.signal n <? -80), t; simpl; lia. }
  assert (Hbounds : 3 <= scores POSSIBLE_OFFICIAL <= 5).
  { rewrite Hscore.
    destruct (String.eqb (Scanner.encryption n) "WPA2/WPA3"),
      (String.eqb (Scanner.encryption n) "Open"),
      (-40 <? Scanner.signal n), (Scanner.signal n <? -80); simpl; lia. }
  split; [|exact Hbounds].
  unfold classify_network. fold scores.
  pose proof (max_of_is scores POSSIBLE_OFFICIAL Hle) as Hmax.
  apply resolve_official_first; [lia | by symmetry].
Qed.

Lemma concealed_unknown_vendor_is_official_witness :
  exists n,
    Scanner.networks st_concealed !! "AA:1" = Some n
    /\ fst (classify_network (as_network_data n)) = POSSIBLE_OFFICIAL.
Proof.
  eexists. split; [reflexivity|].
  apply (concealed_unknown_vendor_is_official st_concealed "AA:1").
  - apply (Scanner.reachable_step _
             {| Scanner.ev_packet := beacon "AA:1" (Some "") 6 "WPA2" (-55);
                Scanner.ev_now := 10; Scanner.ev_now' := 11 |}).
    constructor.
  - reflexivity.
  - reflexivity.
  - reflexivity.
Defined.

End ClassifierBounds.

(* ===================================================================== *)
(** * Classifying a set of networks and counting the types *)
(* ===================================================================== *)

Section ClassifiedNetworks.
Import Classifier Names ClassifierReport ReportExamples.

Lemma type_of_name_type_name (t : network_type) : type_of_name (type_name t) = Some t.
Proof. by destruct t. Qed.

Lemma distribution_fold (networks : networks_t) (d : scores_t) (t : network_type) :
  fold_left
    (fun distribution '(_, net) => add_score (counted_as net) 1 distribution)
    networks d t
  = d t + counted t networks.
Proof.
  revert d. induction networks as [|[b n] networks IH]; intros d.
  - unfold counted. cbn. lia.
  - cbn [fold_left]. rewrite IH. unfold counted. cbn [List.filter snd].
    unfold add_score.
    destruct (decide (t = counted_as n)) as [->|Hne].
    + rewrite bool_decide_eq_true_2 by reflexivity. cbn [length]. lia.
    + rewrite bool_decide_eq_false_2 by congruence. lia.
Qed.

Lemma counted_total (networks : networks_t) :
  counted POSSIBLE_OFFICIAL networks + counted ENTERPRISE networks
  + counted MOBILE_HOTSPOT networks + counted PUBLIC networks
  + counted IOT networks + counted ISP_PROVIDED networks
  + counted STANDARD networks
  = Z.of_nat (length networks).
Proof.
  unfold counted. induction networks as [|[b n] networks IH]; [reflexivity|].
  cbn [List.filter snd length].
  destruct (counted_as n);
    repeat match goal with
           | |- context [bool_decide ?P] =>
               let b := eval vm_compute in (bool_decide P) in
               change (bool_decide P) with b
           end;
    cbn [length]; lia.
Qed.

(** X17. [analyze_network_distribution] loses no network: each of the seven
    counters holds the number of networks counted as that type, a network
    whose type is missing or is not one of the seven names being counted as
    STANDARD, and the seven counters add up to the number of networks. *)
Theorem distribution_counts_every_network (networks : networks_t) :
  let distribution := analyze_network_distribution networks in
  (forall t, distribution t = counted t networks)
  /\ (forall b net,
        In (b, net) networks ->
        (type net = None -> counted_as net = STANDARD)
        /\ (forall s, type net = Some s ->
              (forall t, s <> type_name t) -> counted_as net = STANDARD)
        /\ (forall t, type net = Some (type_name t) -> counted_as net = t))
  /\ distribution POSSIBLE_OFFICIAL + distribution ENTERPRISE
     + distribution MOBILE_HOTSPOT + distribution PUBLIC
     + distribution IOT + distribution ISP_PROVIDED + distribution STANDARD
     = Z.of_nat (length networks).
Proof.
  intros distribution.
  assert (Hd : forall t, distribution t = counted t networks).
  { intros t. subst distribution. unfold analyze_network_distribution.
    rewrite distribution_fold. unfold scores_init. lia. }
  split; [exact Hd|]. split.
  - intros b net _. unfold counted_as. split; [|split].
    + intros ->. reflexivity.
    + intros s -> Hnot. change (default "STANDARD" (Some s)) with s.
      destruct (type_of_name s) as [t|] eqn:Ht; [|reflexivity].
      exfalso. apply (Hnot t). unfold type_of_name in Ht.
      apply find_some in Ht as [_ Heq]. by apply String.eqb_eq.
    + intros t ->. change (default "STANDARD" (Some (type_name t))) with (type_name t).
      by rewrite type_of_name_type_name.
  - rewrite !Hd. apply counted_total.
Qed.

Lemma distribution_counts_every_network_witness :
  analyze_network_distribution scanned STANDARD = 2
  /\ analyze_network_distribution scanned PUBLIC = 1.
Proof.
  destruct (distribution_counts_every_network scanned) as (Hd & _ & _).
  split; rewrite Hd; reflexivity.
Defined.

Lemma enhance_Some (net net' : network) :
  enhance net = Some net' ->
  data net' = data net
  /\ type net' = Some (type_name (fst (classify_network (data net))))
  /\ classification_confidence net'
     = Some (format_2f (snd (classify_network (data net))))
  /\ classification_note net'
     = match note_of (fst (classify_network (data net))) with
       | Some note => Some note
       | None => classification_note net
       end.
Proof.
  unfold enhance. destruct (classify_network (data net)) as [c q]. cbn [fst snd].
  destruct c, (nd_ssid (data net)); intros [= <-]; cbn; tauto.
Qed.

Lemma enhance_None (net : network) :
  enhance net = None <-> nameless_official net.
Proof.
  unfold enhance, nameless_official.
  destruct (classify_network (data net)) as [c q]. cbn [fst].
  destruct c, (nd_ssid (data net)); split; try discriminate; try tauto;
    intros [? ?]; discriminate.
Qed.

Lemma enhance_again (net net' : network) :
  enhance net = Some net' -> enhance net' = Some net'.
Proof.
  intros H. destruct (enhance_Some net net' H) as (Hdata & Hty & Hconf & Hnote).
  destruct net' as [d ty cf nt]. cbn in *. subst d.
  unfold enhance in *. cbn [data classification_note] in *.
  destruct (classify_network (data net)) as [c q]. cbn [fst snd] in *.
  subst ty cf nt.
  destruct c, (nd_ssid (data net)); try discriminate; reflexivity.
Qed.

(** X18. [enhanced_network_classification] fails (with [KeyError]) exactly
    when some network is classified POSSIBLE_OFFICIAL and has no ["ssid"]
    key.  Otherwise it returns the networks under the same keys in the same
    order, with the classification inputs unchanged and the type set to the
    result of [classify_network]; a network classified STANDARD keeps the
    note it had; and classifying the result again changes nothing. *)
Theorem enhanced_classification (networks : networks_t) :
  (enhanced_network_classification networks = None <->
   exists b net, In (b, net) networks /\ nameless_official net)
  /\ forall networks',
       enhanced_network_classification networks = Some networks' ->
       map fst networks' = map fst networks
       /\ Forall2
            (fun bn bn' =>
               data (snd bn') = data (snd bn)
               /\ type (snd bn')
                  = Some (type_name (fst (classify_network (data (snd bn)))))
               /\ (fst (classify_network (data (snd bn))) = STANDARD ->
                   classification_note (snd bn') = classification_note (snd bn)))
            networks networks'
       /\ enhanced_network_classification networks' = Some networks'.
Proof.
  unfold enhanced_network_classification, networks_t. split.
  - rewrite mapM_None. rewrite Exists_exists. split.
    + intros ([b net] & Hin & Hnone).
      exists b, net. split; [by apply list_elem_of_In|].
      apply enhance_None. by destruct (enhance net).
    + intros (b & net & Hin & Hbad). exists (b, net).
      split; [by apply list_elem_of_In|].
      apply enhance_None in Hbad. by rewrite Hbad.
  - intros networks' Hsome. apply mapM_Some in Hsome.
    induction Hsome as [|[b net] [b' net'] networks networks' Hx _ IH].
    + by repeat split.
    + destruct IH as (Hkeys & Hall & Hagain).
      destruct (enhance net) as [net1|] eqn:Hnet; [|discriminate].
      cbn in Hx. injection Hx as <- <-.
      destruct (enhance_Some net net1 Hnet) as (Hdata & Hty & _ & Hnote).
      split; [cbn; by f_equal|]. split.
      * constructor; [|assumption]. cbn [snd].
        split; [assumption|]. split; [assumption|].
        intros Hstd. by rewrite Hnote, Hstd.
      * unfold networks_t in *. rewrite mapM_Some in Hagain |- *.
        constructor; [|assumption].
        by rewrite (enhance_again net net1 Hnet).
Qed.

Lemma enhanced_classification_witness :
  (exists b net, In (b, net) nameless /\ nameless_official net)
  /\ exists networks',
       enhanced_network_classification scanned = Some networks'
       /\ map fst networks' = ["AA:1"; "BB:2"; "CC:3"]
       /\ enhanced_network_classification networks' = Some networks'.
Proof.
  destruct (enhanced_classification nameless) as [Hfail _].
  destruct (enhanced_classification scanned) as [_ Hok].
  split; [by apply Hfail|].
  destruct (enhanced_network_classification scanned) as [networks'|] eqn:Hrun;
    [|vm_compute in Hrun; discriminate].
  exists networks'. split; [reflexivity|].
  destruct (Hok networks' eq_refl) as (Hkeys & _ & Hagain).
  split; assumption.
Defined.

(** X19. After a successful [enhanced_network_classification], the
    distribution counts, for each type, the networks that [classify_network]
    puts in that type: no network falls back to STANDARD for an unreadable
    type. *)
Theorem distribution_of_classified (networks networks' : networks_t)
    (t : network_type) :
  enhanced_network_classification networks = Some networks' ->
  analyze_network_distribution networks' t = classified t networks
  /\ analyze_network_distribution networks' t = classified t networks'.
Proof.
  intros Hsome. unfold analyze_network_distribution.
  rewrite distribution_fold. unfold scores_init.
  unfold enhanced_network_classification, networks_t in Hsome.
  apply mapM_Some in Hsome.
  assert (H : counted t networks' = classified t networks
              /\ counted t networks' = classified t networks').
  { unfold counted, classified.
    induction Hsome as [|[b net] [b' net'] networks networks' Hx _ IH];
      [by split|].
    destruct (enhance net) as [net1|] eqn:Hnet; [|discriminate].
    cbn in Hx. injection Hx as <- <-.
    destruct (enhance_Some net net1 Hnet) as (Hdata & Hty & _).
    cbn [List.filter snd]. rewrite Hdata.
    assert (Hc : counted_as net1 = fst (classify_network (data net))).
    { unfold counted_as. rewrite Hty.
      change (default "STANDARD" (Some ?x)) with x.
      by rewrite type_of_name_type_name. }
    rewrite Hc.
    destruct (bool_decide (fst (classify_network (data net)) = t));
      cbn [length]; lia. }
  destruct H. split; lia.
Qed.

Lemma distribution_of_classified_witness :
  exists networks',
    enhanced_network_classification scanned = Some networks'
    /\ analyze_network_distribution networks' ENTERPRISE = 1.
Proof.
  destruct (enhanced_network_classification scanned) as [networks'|] eqn:Hrun;
    [|vm_compute in Hrun; discriminate].
  exists networks'. split; [reflexivity|].
  destruct (distribution_of_classified scanned networks' ENTERPRISE Hrun) as [H _].
  rewrite H. reflexivity.
Defined.

End ClassifiedNetworks.

(* ===================================================================== *)
(** ** Reading channel and encryption from a frame *)
(* ===================================================================== *)

Section FrameReaders.
Import Dot11 Frame FrameExamples Scanner Session.

Lemma hex_digit_not_upper (n : N) : (n < 16)%N -> is_upper (hex_digit n) = false.
Proof.
  intros Hn. unfold hex_digit.
  destruct n as [|p]; [reflexivity|].
  do 4 (destruct p as [p|p|]; try reflexivity); lia.
Qed.

Lemma hex_has_no_upper (info : list Byte.byte) : has_upper (hex info) = false.
Proof.
  induction info as [|b info IH]; [reflexivity|].
  cbn [hex has_upper]. rewrite IH.
  assert (Hb : (Byte.to_N b <= 255)%N) by apply Byte.to_N_bounded.
  rewrite !hex_digit_not_upper; [reflexivity| |].
  - apply N.mod_lt. lia.
  - apply N.Div0.div_lt_upper_bound. lia.
Qed.

Lemma prefix_has_upper (p s : string) :
  String.prefix p s = true -> has_upper p = true -> has_upper s = true.
Proof.
  revert s. induction p as [|a p IH]; intros s; [discriminate 2|].
  destruct s as [|c s]; [discriminate|]. cbn [String.prefix has_upper].
  destruct (ascii_dec a c) as [->|]; [|discriminate].
  intros Hp. destruct (is_upper c); [reflexivity|]. cbn. by apply IH.
Qed.

Lemma contains_has_upper (p s : string) :
  PyStr.contains p s = true -> has_upper p = true -> has_upper s = true.
Proof.
  intros Hc Hp. induction s as [|c s IH]; cbn [PyStr.contains] in Hc.
  - rewrite orb_false_r in Hc. by apply (prefix_has_upper p).
  - apply orb_true_iff in Hc as [Hpre|Hrest].
    + by apply (prefix_has_upper p).
    + cbn [has_upper]. rewrite (IH Hrest). apply orb_true_r.
Qed.

(** The test ["CCMP" in rsn] fails on every hex dump. *)
Lemma ccmp_never_in_hex (info : list Byte.byte) :
  PyStr.contains "CCMP" (hex info) = false.
Proof.
  apply not_true_iff_false. intros Hc.
  pose proof (contains_has_upper _ _ Hc eq_refl) as H.
  by rewrite hex_has_no_upper in H.
Qed.

Lemma get_encryption_assigned (capability : string) (packet : chain) (e : string) :
  get_encryption capability packet = Some e -> In e assigned_labels.
Proof.
  unfold get_encryption, assigned_labels.
  destruct (PyStr.contains "privacy" capability);
    [|intros [= <-]; left; reflexivity].
  destruct (get_rsn_info packet) as [rsn|] eqn:Hrsn; [|discriminate].
  assert (Hccmp : PyStr.contains "CCMP" (default "" rsn) = false).
  { unfold get_rsn_info in Hrsn.
    destruct (first_element packet) as [curr|]; [|discriminate].
    destruct (seek 48 curr) as [[|e0 rest|]|]; try discriminate;
      injection Hrsn as <-; [reflexivity| |reflexivity].
    change (default "" (Some (hex (elt_info e0)))) with (hex (elt_info e0)).
    apply ccmp_never_in_hex. }
  rewrite Hccmp.
  destruct (truthy rsn); [intros [= <-]; cbn; tauto|].
  destruct (get_wpa_info packet) as [[]|]; [| |discriminate];
    intros [= <-]; cbn; tauto.
Qed.

Lemma seek_elements_only (i : Z) (curr : chain) :
  elements_only curr -> exists found, seek i curr = Some found /\ elements_only found.
Proof.
  induction curr as [|e payload IH|]; cbn [seek elements_only].
  - intros _. by exists NoPayload.
  - intros Hp. destruct (ID e =? i); [by exists (Elt e payload) | by apply IH].
  - intros [].
Qed.

Lemma wpa_loop_elements_only (curr : chain) :
  elements_only curr -> exists w, wpa_loop curr = Some w.
Proof.
  induction curr as [|e payload IH|]; cbn [wpa_loop elements_only].
  - by exists false.
  - intros Hp. destruct (_ && _); [by exists true | by apply IH].
  - intros [].
Qed.

Lemma get_encryption_returns (capability : string) (packet : chain) :
  elements_only packet -> first_element packet <> None ->
  exists e, get_encryption capability packet = Some e.
Proof.
  intros Hall Hfirst. unfold get_encryption, get_rsn_info, get_wpa_info.
  destruct (PyStr.contains "privacy" capability); [|by eexists].
  destruct packet as [|e0 payload|]; [done| |done]. cbn [first_element].
  destruct (seek_elements_only 48 _ Hall) as (found & -> & _).
  destruct (wpa_loop_elements_only _ Hall) as (w & ->).
  destruct found as [|e rest|].
  - cbn [truthy]. destruct w; by eexists.
  - destruct (truthy _); [destruct (PyStr.contains _ _); by eexists|].
    destruct w; by eexists.
  - cbn [truthy]. destruct w; by eexists.
Qed.

(** X22. [get_encryption] never answers "WPA2/WPA3": the RSN element is
    searched for "CCMP" after it was turned into lower-case hex digits.
    Whenever it returns, the label is "Open", "WPA2", "WPA" or "WEP".
    Without the privacy bit it returns "Open" and reads no element.  With
    the privacy bit it raises on a packet without an element layer and when
    the walk for the RSN element runs into a layer that is not an element;
    on a chain of elements that ends with the packet it returns. *)
Theorem get_encryption_never_wpa3 (capability : string) (packet : chain) :
  get_encryption capability packet <> Some "WPA2/WPA3"
  /\ (forall e, get_encryption capability packet = Some e -> In e assigned_labels)
  /\ (PyStr.contains "privacy" capability = false ->
      get_encryption capability packet = Some "Open")
  /\ (PyStr.contains "privacy" capability = true ->
      first_element packet = None \/ seek 48 packet = None ->
      get_encryption capability packet = None)
  /\ (elements_only packet -> first_element packet <> None ->
      exists e, get_encryption capability packet = Some e).
Proof.
  split; [|split; [|split; [|split]]].
  - intros He. apply get_encryption_assigned in He.
    unfold assigned_labels in He. cbn in He.
    destruct He as [He|[He|[He|[He|[]]]]]; discriminate.
  - intros e. apply get_encryption_assigned.
  - intros Hp. unfold get_encryption. by rewrite Hp.
  - intros Hp Hraise. unfold get_encryption, get_rsn_info. rewrite Hp.
    destruct packet as [|e0 payload|]; [reflexivity| |reflexivity].
    cbn [first_element]. destruct Hraise as [Hfirst|Hseek]; [discriminate|].
    by rewrite Hseek.
  - apply get_encryption_returns.
Qed.

Example rsn_frame_encryption :
  get_encryption "ESS+privacy" rsn_frame = Some "WPA2"
  /\ get_encryption "ESS+privacy" rsn_frame_raw = Some "WPA2"
  /\ get_encryption "ESS+privacy" stray_frame = None
  /\ get_encryption "ESS" stray_frame = Some "Open".
Proof. repeat split. Qed.

Lemma seek_found (i : Z) (packet : chain) (curr : element) (rest : chain) :
  seek i packet = Some (Elt curr rest) -> has_element curr packet /\ ID curr = i.
Proof.
  induction packet as [|e payload IH|]; [discriminate| |discriminate].
  cbn [seek has_element].
  destruct (Z.eqb_spec (ID e) i) as [Heq|_].
  - intros [= <- _]. split; [by left | exact Heq].
  - intros H. destruct (IH H) as [Hin Hid]. split; [by right | exact Hid].
Qed.

Lemma seek_not_other (i : Z) (packet : chain) : seek i packet <> Some Other.
Proof.
  induction packet as [|e payload IH|]; cbn [seek]; [discriminate| |discriminate].
  destruct (ID e =? i); [discriminate | exact IH].
Qed.

Lemma well_formed_element (e : element) (packet : chain) :
  well_formed packet -> has_element e packet ->
  len e = Z.of_nat (length (elt_info e)).
Proof.
  induction packet as [|e' payload IH|]; cbn [well_formed has_element];
    [intros _ []| |intros _ []].
  intros [Hlen Hrest] [->|Hin]; [exact Hlen | by apply IH].
Qed.

Lemma ord_range (info : list Byte.byte) (c : Z) : ord info = Some c -> 0 <= c <= 255.
Proof.
  destruct info as [|b [|? ?]]; try discriminate. intros [= <-].
  pose proof (Byte.to_N_bounded b) as Hb. lia.
Qed.

Lemma get_channel_range (packet : chain) (c : Z) :
  get_channel packet = Some c -> 0 <= c <= 255.
Proof.
  unfold get_channel. destruct (first_element packet) as [curr|]; [|discriminate].
  destruct (seek 3 curr) as [[|e rest|]|]; try discriminate;
    [intros [= <-]; lia | | intros [= <-]; lia].
  destruct (len e =? 1); [apply ord_range | intros [= <-]; lia].
Qed.

Lemma first_element_Some (packet curr : chain) :
  first_element packet = Some curr -> curr = packet.
Proof. destruct packet; [discriminate | by intros [= <-] | discriminate]. Qed.

(** X23. [get_channel] returns a channel between 0 and 255; a channel other
    than 0 is the single byte of the first element with ID 3.  It raises
    exactly on a packet without an element layer, when the walk runs into a
    layer that is not an element before it finds an element with ID 3, and
    when that element has length 1 but its content is not one byte.  On a
    chain of elements that ends with the packet, each with a length field
    that tells the length of its content, it returns. *)
Theorem get_channel_outcome (packet : chain) :
  (forall c, get_channel packet = Some c ->
     0 <= c <= 255
     /\ (c <> 0 ->
         exists curr rest,
           seek 3 packet = Some (Elt curr rest)
           /\ ID curr = 3 /\ ord (elt_info curr) = Some c))
  /\ (get_channel packet = None
      <-> first_element packet = None
          \/ seek 3 packet = None
          \/ exists curr rest,
               seek 3 packet = Some (Elt curr rest)
               /\ len curr = 1 /\ ord (elt_info curr) = None)
  /\ (elements_only packet -> well_formed packet ->
      first_element packet <> None ->
      exists c, get_channel packet = Some c).
Proof.
  assert (Hnone : get_channel packet = None
      <-> first_element packet = None
          \/ seek 3 packet = None
          \/ exists curr rest,
               seek 3 packet = Some (Elt curr rest)
               /\ len curr = 1 /\ ord (elt_info curr) = None).
  { unfold get_channel.
    destruct (first_element packet) as [curr0|] eqn:Hfirst; [|tauto].
    apply first_element_Some in Hfirst as ->.
    destruct (seek 3 packet) as [[|e rest|]|] eqn:Hseek.
    - split; [discriminate|]. intros [H|[H|(c & r & H & _)]]; discriminate.
    - destruct (Z.eqb_spec (len e) 1) as [Hlen|Hlen].
      + split.
        * intros Hord. right. right. by exists e, rest.
        * intros [H|[H|(c & r & [= <- <-] & _ & Hord)]]; [discriminate..|exact Hord].
      + split; [discriminate|].
        intros [H|[H|(c & r & [= <- <-] & Hl & _)]]; [discriminate..|contradiction].
    - by apply seek_not_other in Hseek.
    - split; [tauto | reflexivity]. }
  split; [|split; [exact Hnone|]].
  - intros c Hc. split; [exact (get_channel_range _ _ Hc)|].
    intros Hnz. unfold get_channel in Hc.
    destruct (first_element packet) as [curr0|] eqn:Hfirst; [|discriminate].
    apply first_element_Some in Hfirst as ->.
    destruct (seek 3 packet) as [[|e rest|]|] eqn:Hseek; try discriminate;
      [injection Hc as <-; contradiction| |injection Hc as <-; contradiction].
    destruct (len e =? 1); [|injection Hc as <-; contradiction].
    exists e, rest. split; [reflexivity|].
    split; [exact (proj2 (seek_found _ _ _ _ Hseek)) | exact Hc].
  - intros Hall Hwf Hfirst.
    destruct (get_channel packet) as [c|]; [by exists c|]. exfalso.
    destruct (proj1 Hnone eq_refl) as [H|[H|(curr & rest & Hseek & Hlen & Hord)]].
    + contradiction.
    + destruct (seek_elements_only 3 _ Hall) as (found & Hfound & _). congruence.
    + destruct (seek_found _ _ _ _ Hseek) as [Hin _].
      pose proof (well_formed_element _ _ Hwf Hin) as Hl. rewrite Hlen in Hl.
      destruct (elt_info curr) as [|b [|b' info]]; cbn [length] in Hl;
        try lia; discriminate.
Qed.

Example rsn_frame_channel :
  get_channel rsn_frame = Some 6
  /\ get_channel rsn_frame_raw = Some 6
  /\ get_channel stray_frame = None
  /\ get_channel NoPayload = None.
Proof. repeat split. Qed.

(** What a decoded beacon leaves in an entry. *)
Lemma step_decoded_entries (st : state) (ev : event) :
  decoded (ev_packet ev) ->
  (forall b n, networks st !! b = Some n ->
     In (encryption n) assigned_labels /\ 0 <= channel n <= 255) ->
  forall b n, networks (step st ev) !! b = Some n ->
    In (encryption n) assigned_labels /\ 0 <= channel n <= 255.
Proof.
  intros Hdec Hst b n. unfold step, process_packet.
  set (p := ev_packet ev) in *.
  destruct (has_Dot11Beacon p) eqn:Hbeacon.
  - unfold process_beacon.
    destruct (networks st !! addr2 p) as [n0|] eqn:Hknown; cbn [networks].
    + destruct (decide (b = addr2 p)) as [->|Hb].
      * rewrite lookup_insert_eq. intros [= <-]. cbn [encryption channel refresh].
        by apply (Hst (addr2 p)).
      * rewrite lookup_insert_ne by done. apply Hst.
    + destruct (readers_raise p) eqn:Hraise; cbn [networks]; [apply Hst|].
      destruct (decide (b = addr2 p)) as [->|Hb].
      * rewrite lookup_insert_eq. intros [= <-]. cbn [encryption channel].
        destruct (Hdec Hbeacon) as (capability & frame & Hread).
        destruct (get_channel frame) as [ch|] eqn:Hch; [|congruence].
        destruct (get_encryption capability frame) as [enc|] eqn:Henc;
          [|congruence].
        destruct Hread as (_ & -> & ->).
        split; [exact (get_encryption_assigned _ _ _ Henc)
               | exact (get_channel_range _ _ Hch)].
      * rewrite lookup_insert_ne by done. apply Hst.
  - destruct (has_Dot11ProbeResp p); [|apply Hst].
    unfold process_probe_response.
    destruct (info p) as [name|]; [|apply Hst].
    destruct (discloses st (addr2 p) name); [|apply Hst].
    destruct (networks st !! addr2 p) as [n0|] eqn:Hknown; [|apply Hst].
    cbn [networks].
    destruct (decide (b = addr2 p)) as [->|Hb].
    + rewrite lookup_insert_eq. intros [= <-]. cbn [encryption channel uncover].
      by apply (Hst (addr2 p)).
    + rewrite lookup_insert_ne by done. apply Hst.
Qed.

Lemma run_decoded_entries (evs : list event) :
  Forall (fun ev => decoded (ev_packet ev)) evs ->
  forall st,
    (forall b n, networks st !! b = Some n ->
       In (encryption n) assigned_labels /\ 0 <= channel n <= 255) ->
    forall b n, networks (run evs st) !! b = Some n ->
      In (encryption n) assigned_labels /\ 0 <= channel n <= 255.
Proof.
  induction 1 as [|ev evs Hev _ IH]; intros st Hst; [exact Hst|].
  cbn [run fold_left]. apply IH. by apply step_decoded_entries.
Qed.

(** X24. In a session whose beacons carry the channel and the label the two
    readers return, no entry is ever labelled "WPA2/WPA3": every stored
    label is "Open", "WPA2", "WPA" or "WEP", every stored channel is between
    0 and 255, and the classifier's rule for "WPA2/WPA3" adds nothing to the
    score of such an entry. *)
Theorem session_never_stores_wpa3 (evs : list event) (b : string) (n : network) :
  Forall (fun ev => decoded (ev_packet ev)) evs ->
  networks (run evs init) !! b = Some n ->
  In (encryption n) assigned_labels
  /\ 0 <= channel n <= 255
  /\ forall scores t,
       Classifier.check_encryption (encryption n) scores t
       = scores t
         + (if String.eqb (encryption n) "Open"
            then Evidence.open_encryption t else 0).
Proof.
  intros Hdec Hn.
  pose proof (run_decoded_entries evs Hdec) as Hinv.
  destruct (Hinv init) with (b := b) (n := n) as [Hlabel Hch]; [|exact Hn|].
  { intros b' n'. unfold init. cbn [networks]. by rewrite lookup_empty. }
  split; [exact Hlabel|]. split; [exact Hch|].
  intros scores t. rewrite check_encryption_at.
  unfold assigned_labels in Hlabel. cbn in Hlabel.
  destruct Hlabel as [<-|[<-|[<-|[<-|[]]]]]; cbn; lia.
Qed.

Lemma rsn_capture_decoded : Forall (fun ev => decoded (ev_packet ev)) rsn_capture.
Proof.
  repeat constructor.
  - intros _. exists "ESS+privacy", rsn_frame. by repeat split.
  - intros Hb. discriminate Hb.
  - intros _. exists "ESS+privacy", stray_frame. reflexivity.
Qed.

Lemma session_never_stores_wpa3_witness :
  exists n,
    networks (run rsn_capture init) !! "AA:1" = Some n
    /\ In (encryption n) assigned_labels
    /\ 0 <= channel n <= 255.
Proof.
  eexists. split; [reflexivity|].
  assert (H := session_never_stores_wpa3 rsn_capture "AA:1").
  edestruct H as (Hl & Hc & _); [| reflexivity | split; [exact Hl | exact Hc]].
  apply rsn_capture_decoded.
Defined.

End FrameReaders.

(* ===================================================================== *)
(** ** The network summary *)
(* ===================================================================== *)

Section NetworkSummary.
Import Dot11 Scanner Store Session Frame FrameExamples.
Import Classifier Names ClassifierReport SummaryExamples Summary.

Lemma tally_all_None (networks : list entry) (types encryption : gmap string Z) :
  tally_all networks (types, encryption) = None
  <-> Exists (fun n => types !! type_key n = None) networks.
Proof.
  revert types encryption.
  induction networks as [|n networks IH]; intros types encryption.
  - split; [discriminate | intros H; inversion H].
  - cbn [tally_all tally]. destruct (types !! type_key n) as [c|] eqn:Hc.
    + rewrite IH, List.Exists_cons.
      assert (Hsame : forall t, <[type_key n := c + 1]> types !! t = None
                                <-> types !! t = None).
      { intros t. destruct (decide (t = type_key n)) as [->|Ht].
        - rewrite lookup_insert_eq, Hc. split; discriminate.
        - by rewrite lookup_insert_ne. }
      split.
      * intros H. right. revert H. apply List.Exists_impl. intros a. apply Hsame.
      * intros [H|H]; [congruence|]. revert H. apply List.Exists_impl.
        intros a. apply Hsame.
    + split; [intros _; by left | reflexivity].
Qed.

Lemma zeros_type_keys (t : string) :
  zeros type_keys !! t = None <-> ~ In t type_keys.
Proof.
  unfold zeros. rewrite <- not_elem_of_list_to_map.
  change ((map (fun k => (k, 0)) type_keys).*1) with type_keys.
  by rewrite list_elem_of_In.
Qed.

Lemma sum5_insert (types : gmap string Z) (t : string) (c : Z) :
  In t type_keys -> types !! t = Some c ->
  sum5 (<[t := c + 1]> types) = sum5 types + 1.
Proof.
  intros Hin Hc. unfold type_keys in Hin. cbn [In] in Hin. unfold sum5.
  destruct Hin as [<-|[<-|[<-|[<-|[<-|[]]]]]];
    rewrite ?lookup_insert_eq; rewrite ?lookup_insert_ne by discriminate;
    rewrite ?lookup_insert_eq; rewrite Hc;
    change (default 0 (Some (c + 1))) with (c + 1);
    change (default 0 (Some c)) with c; lia.
Qed.

Lemma tally_all_Some (networks : list entry) :
  forall types encryption types' encryption',
  tally_all networks (types, encryption) = Some (types', encryption') ->
  (forall t, is_Some (types !! t) <-> In t type_keys) ->
  (forall t, is_Some (types' !! t) <-> In t type_keys)
  /\ sum5 types' = sum5 types + Z.of_nat (length networks)
  /\ (forall k, is_Some (encryption !! k) -> is_Some (encryption' !! k))
  /\ (forall k, Forall (fun n => encryption_key n <> k) networks ->
        encryption' !! k = encryption !! k).
Proof.
  induction networks as [|n networks IH];
    intros types encryption types' encryption' Hrun Hkeys.
  - injection Hrun as <- <-. repeat split; try done; try apply Hkeys.
    cbn [length]. lia.
  - cbn [tally_all tally] in Hrun.
    destruct (types !! type_key n) as [c|] eqn:Hc; [|discriminate].
    assert (Hin : In (type_key n) type_keys) by (apply Hkeys; by rewrite Hc).
    apply IH in Hrun as (Hkeys' & Hsum & Hkept & Hother).
    + split; [exact Hkeys'|]. split; [|split].
      * rewrite Hsum, (sum5_insert _ _ _ Hin Hc). cbn [length]. lia.
      * intros k Hk. apply Hkept.
        destruct (decide (k = encryption_key n)) as [->|Hne].
        -- rewrite lookup_insert_eq. by eexists.
        -- by rewrite lookup_insert_ne.
      * intros k Hk. inversion Hk as [|? ? Hn Hrest]; subst.
        rewrite (Hother k Hrest). by rewrite lookup_insert_ne.
    + intros t. rewrite <- Hkeys.
      destruct (decide (t = type_key n)) as [->|Hne].
      * rewrite lookup_insert_eq, Hc. split; intros _; by eexists.
      * by rewrite lookup_insert_ne.
Qed.

Lemma zeros_type_keys_Some (t : string) :
  is_Some (zeros type_keys !! t) <-> In t type_keys.
Proof.
  rewrite <- not_eq_None_Some, zeros_type_keys.
  split; [|tauto]. intros H.
  destruct (In_dec string_dec t type_keys); [assumption | contradiction].
Qed.

(** What a run of the loop that does not raise leaves to be printed. *)
Lemma summary_printed (networks : list entry) (hidden_count : Z)
    (types encryption : gmap string Z) :
  tally_all networks (zeros type_keys, zeros encryption_keys)
  = Some (types, encryption) ->
  exists p,
    print_network_summary networks hidden_count = Some p
    /\ p_total p = Z.of_nat (length networks)
    /\ p_hidden p = hidden_count
    /\ fold_right Z.add 0 (p_types p) = p_total p
    /\ (Forall (fun n => encryption_key n <> "WPA2/WPA3") networks ->
        p_encryption p !! 3%nat = Some 0).
Proof.
  intros Hrun. unfold print_network_summary. rewrite Hrun.
  destruct (tally_all_Some _ _ _ _ _ Hrun zeros_type_keys_Some)
    as (Hkeys & Hsum & Hkept & Hother).
  assert (Ht : forall t, In t type_keys -> exists c, types !! t = Some c)
    by (intros t Hin; by apply Hkeys).
  destruct (Ht "POSSIBLE_OFFICIAL") as [a Ha]; [cbn; tauto|].
  destruct (Ht "ENTERPRISE") as [b Hb]; [cbn; tauto|].
  destruct (Ht "MOBILE_HOTSPOT") as [c Hc]; [cbn; tauto|].
  destruct (Ht "PUBLIC") as [d Hd]; [cbn; tauto|].
  destruct (Ht "STANDARD") as [e He]; [cbn; tauto|].
  assert (He' : forall k, In k encryption_keys -> exists c, encryption !! k = Some c).
  { intros k Hin. apply Hkept. unfold encryption_keys in Hin. cbn [In] in Hin.
    destruct Hin as [<-|[<-|[<-|[<-|[]]]]]; by eexists. }
  destruct (He' "Open") as [o Ho]; [cbn; tauto|].
  destruct (He' "WEP") as [w Hw]; [cbn; tauto|].
  destruct (He' "WPA") as [x Hx]; [cbn; tauto|].
  destruct (He' "WPA2/WPA3") as [y Hy]; [cbn; tauto|].
  unfold type_keys. cbn [mapM]. rewrite Ha, Hb, Hc, Hd, He, Ho, Hw, Hx, Hy.
  eexists. split; [reflexivity|]. cbn [p_total p_hidden p_types p_encryption].
  split; [reflexivity|]. split; [reflexivity|]. split.
  - change (sum5 (zeros type_keys)) with 0 in Hsum.
    unfold sum5 in Hsum. rewrite Ha, Hb, Hc, Hd, He in Hsum.
    change (default 0 (Some a)) with a in Hsum.
    change (default 0 (Some b)) with b in Hsum.
    change (default 0 (Some c)) with c in Hsum.
    change (default 0 (Some d)) with d in Hsum.
    change (default 0 (Some e)) with e in Hsum. cbn [fold_right]. lia.
  - intros Hnone. rewrite (Hother _ Hnone) in Hy. injection Hy as <-. reflexivity.
Qed.

(** X25. The summary of classified networks.  The loop raises exactly when
    some network's type is not one of the five keys of [types]; so on the
    networks [enhanced_network_classification] returns it raises exactly when
    one of them was classified IOT or ISP_PROVIDED. *)
Theorem summary_raises_on_classifier_types (networks classified : networks_t)
    (hidden_count : Z) :
  enhanced_network_classification networks = Some classified ->
  print_network_summary (map (fun bn => of_classified (snd bn)) classified)
    hidden_count = None
  <-> Exists
        (fun bn =>
           fst (classify_network (data (snd bn))) = IOT
           \/ fst (classify_network (data (snd bn))) = ISP_PROVIDED)
        networks.
Proof.
  intros Hsome.
  unfold enhanced_network_classification, networks_t in Hsome.
  apply mapM_Some in Hsome.
  transitivity
    (tally_all (map (fun bn => of_classified (snd bn)) classified)
       (zeros type_keys, zeros encryption_keys) = None).
  { unfold print_network_summary.
    destruct (tally_all _ _) as [[types encryption]|] eqn:Hrun; [|done].
    destruct (summary_printed _ hidden_count _ _ Hrun) as (p & Hp & _).
    unfold print_network_summary in Hp. rewrite Hrun in Hp. rewrite Hp.
    split; discriminate. }
  rewrite tally_all_None.
  induction Hsome as [|[b net] [b' net'] networks classified Hhead _ IH].
  - split; intros H; inversion H.
  - cbn [map snd]. rewrite !List.Exists_cons, IH.
    assert (Hnet : zeros type_keys !! type_key (of_classified net') = None
                   <-> fst (classify_network (data net)) = IOT
                       \/ fst (classify_network (data net)) = ISP_PROVIDED).
    { destruct (enhance net) as [net''|] eqn:Henh; [|discriminate].
      cbn in Hhead. injection Hhead as _ <-.
      destruct (enhance_Some _ _ Henh) as (_ & Hty & _).
      unfold type_key, of_classified. cbn [e_type]. rewrite Hty.
      destruct (fst (classify_network (data net)));
        (split; [vm_compute; try discriminate; tauto
                |intros [H|H]; try discriminate H; reflexivity]). }
    cbn [snd]. by rewrite Hnet.
Qed.

Lemma summary_raises_on_classifier_types_witness :
  exists classified,
    enhanced_network_classification camera = Some classified
    /\ print_network_summary (map (fun bn => of_classified (snd bn)) classified) 0
       = None.
Proof.
  destruct (enhanced_network_classification camera) as [classified|] eqn:Hrun;
    [|vm_compute in Hrun; discriminate].
  exists classified. split; [reflexivity|].
  apply (summary_raises_on_classifier_types camera classified 0 Hrun).
  left. left. vm_compute. reflexivity.
Defined.

Lemma entries_of_elem (st : state) (e : entry) :
  In e (entries_of st) ->
  exists b n, networks st !! b = Some n /\ e = of_scanner n.
Proof.
  unfold entries_of. rewrite in_map_iff. intros ([b n] & <- & Hin).
  exists b, n. split; [|reflexivity].
  apply elem_of_map_to_list. by apply list_elem_of_In.
Qed.

(** X26. The summary of a scanner session, printed from the scanner's
    [networks] and the size of [hidden_networks]: the loop never raises, the
    five type counts add up to the number of networks, and the line for
    "WPA2/WPA3" shows 0 whenever the beacons carry the outcome of the two
    readers.  When no reader raised during the session the hidden count does
    not exceed the number of networks. *)
Theorem summary_of_session (evs : list event) :
  Forall (fun ev => decoded (ev_packet ev)) evs ->
  let st := run evs init in
  exists p,
    print_network_summary (entries_of st)
      (Z.of_nat (size (hidden_networks st))) = Some p
    /\ p_total p = Z.of_nat (size (networks st))
    /\ fold_right Z.add 0 (p_types p) = p_total p
    /\ p_encryption p !! 3%nat = Some 0
    /\ 0 <= p_hidden p
    /\ (Forall quiet evs -> p_hidden p <= p_total p).
Proof.
  intros Hdec st.
  assert (Hst : reachable st) by (apply run_reachable; constructor).
  destruct (tally_all (entries_of st) (zeros type_keys, zeros encryption_keys))
    as [[tys encs]|] eqn:Hrun.
  - destruct (summary_printed _ (Z.of_nat (size (hidden_networks st))) _ _ Hrun)
      as (p & Hp & Htotal & Hhidden & Hsum & Hwpa3).
    exists p. split; [exact Hp|].
    assert (Hlen : length (entries_of st) = size (networks st))
      by (unfold entries_of; by rewrite length_map, length_map_to_list).
    rewrite Hlen in Htotal.
    split; [exact Htotal|]. split; [exact Hsum|]. split; [|split].
    + apply Hwpa3. apply List.Forall_forall. intros e He.
      destruct (entries_of_elem _ _ He) as (b & n & Hn & ->).
      unfold encryption_key, of_scanner. cbn [e_encryption].
      change (default "Unknown" (Some (encryption n))) with (encryption n).
      destruct (run_decoded_entries evs Hdec init) with (b := b) (n := n)
        as [Hlabel _]; [|exact Hn|].
      { intros b' n'. unfold init. cbn [networks]. by rewrite lookup_empty. }
      unfold assigned_labels in Hlabel. cbn [In] in Hlabel.
      destruct Hlabel as [<-|[<-|[<-|[<-|[]]]]]; discriminate.
    + rewrite Hhidden. lia.
    + intros Hquiet. rewrite Hhidden, Htotal.
      apply Nat2Z.inj_le. rewrite <- (size_dom (networks st)).
      apply subseteq_size. intros b Hb. apply elem_of_dom.
      destruct (run_hidden_known evs init Hquiet init_hidden_known b Hb)
        as (n & Hn & _).
      by exists n.
  - exfalso. apply tally_all_None in Hrun. apply List.Exists_exists in Hrun.
    destruct Hrun as (e & He & Hnone).
    destruct (entries_of_elem _ _ He) as (b & n & Hn & ->).
    apply zeros_type_keys in Hnone. apply Hnone.
    destruct (reachable_entries_ok st Hst b n Hn) as (_ & _ & Hty & _).
    exact Hty.
Qed.

Lemma summary_of_session_witness :
  exists p,
    print_network_summary (entries_of (run rsn_capture init))
      (Z.of_nat (size (hidden_networks (run rsn_capture init)))) = Some p
    /\ p_total p = 1
    /\ p_encryption p !! 3%nat = Some 0.
Proof.
  destruct (summary_of_session rsn_capture rsn_capture_decoded)
    as (p & Hp & Htotal & _ & Hwpa3 & _).
  exists p. split; [exact Hp|]. split; [|exact Hwpa3].
  rewrite Htotal. vm_compute. reflexivity.
Defined.

End NetworkSummary.

(* ===================================================================== *)
(** ** The data of the signal strength chart *)
(* ===================================================================== *)

Section SignalChartData.
Import SignalChart ChartExamples.

Lemma insert_desc_perm (n : network) (l : list network) :
  Permutation (insert_desc n l) (n :: l).
Proof.
  induction l as [|m l IH]; [reflexivity|]. cbn [insert_desc].
  destruct (key n <? key m); [|reflexivity].
  rewrite IH. apply perm_swap.
Qed.

Lemma sorted_desc_perm (l : list network) : Permutation (sorted_desc l) l.
Proof.
  induction l as [|n l IH]; [reflexivity|].
  cbn [sorted_desc fold_right]. fold (sorted_desc l).
  rewrite insert_desc_perm. by constructor.
Qed.

Lemma insert_desc_decreasing (n : network) (l : list network) :
  decreasing l -> decreasing (insert_desc n l).
Proof.
  unfold decreasing. induction l as [|m l IH]; intros Hl.
  - repeat constructor.
  - cbn [insert_desc]. apply StronglySorted_inv in Hl as [Hl Hm].
    destruct (Z.ltb_spec (key n) (key m)) as [Hlt|Hge].
    + constructor; [by apply IH|].
      apply List.Forall_forall. intros x Hx.
      apply (Permutation_in _ (insert_desc_perm n l)) in Hx as [<-|Hx]; [lia|].
      rewrite List.Forall_forall in Hm. by apply Hm.
    + constructor; [by constructor|].
      constructor; [lia|].
      rewrite List.Forall_forall in Hm |- *. intros x Hx.
      specialize (Hm x Hx). lia.
Qed.

Lemma sorted_desc_decreasing (l : list network) : decreasing (sorted_desc l).
Proof.
  induction l as [|n l IH]; [constructor|].
  cbn [sorted_desc fold_right]. by apply insert_desc_decreasing.
Qed.

Lemma decreasing_app (l1 l2 : list network) :
  decreasing (l1 ++ l2)%list ->
  decreasing l1 /\ forall a b, In a l1 -> In b l2 -> key b <= key a.
Proof.
  unfold decreasing. induction l1 as [|x l1 IH]; intros H.
  - split; [constructor | intros a b []].
  - cbn in H. apply StronglySorted_inv in H as [H Hx].
    destruct (IH H) as [Hl1 Hcross]. split.
    + constructor; [exact Hl1|].
      rewrite List.Forall_forall in Hx |- *. intros y Hy. apply Hx.
      apply in_or_app. by left.
    + intros a b [<-|Ha] Hb.
      * rewrite List.Forall_forall in Hx. apply Hx. apply in_or_app. by right.
      * by apply Hcross.
Qed.

Lemma decreasing_keys (l : list network) :
  decreasing l -> StronglySorted (fun a b => b <= a) (map key l).
Proof.
  unfold decreasing. induction 1 as [|n l _ IH Hn]; [constructor|].
  cbn [map]. constructor; [exact IH|].
  rewrite List.Forall_forall in Hn |- *. intros v Hv.
  apply in_map_iff in Hv as (m & <- & Hm). by apply Hn.
Qed.

Lemma substring_length_le (k : nat) (s : string) :
  (String.length (substring 0 k s) <= k)%nat.
Proof.
  revert s. induction k as [|k IH]; intros s.
  - destruct s; cbn; lia.
  - destruct s as [|c s]; cbn [substring String.length]; [lia|].
    specialize (IH s). lia.
Qed.

Lemma append_length (s1 s2 : string) :
  String.length (s1 ++ s2)%string = (String.length s1 + String.length s2)%nat.
Proof.
  induction s1 as [|c s1 IH]; [reflexivity|].
  simpl. by rewrite IH.
Qed.

Lemma label_length (n : network) : (String.length (label n) <= 20)%nat.
Proof.
  unfold label.
  set (name := match bssid n with Some _ => _ | None => _ end).
  destruct (Nat.ltb_spec 20 (String.length name)) as [Hlong|Hshort]; [|exact Hshort].
  rewrite append_length. pose proof (substring_length_le 17 name).
  change (String.length "...") with 3%nat. lia.
Qed.

(** The chosen networks: the valid ones in decreasing order, cut. *)
Lemma chosen_split (networks : list network) (max_networks : Z) :
  0 <= max_networks ->
  let chosen :=
    if max_networks <? Z.of_nat (length (sorted_desc (List.filter valid networks)))
    then slice_to max_networks (sorted_desc (List.filter valid networks))
    else sorted_desc (List.filter valid networks) in
  exists dropped,
    sorted_desc (List.filter valid networks) = (chosen ++ dropped)%list
    /\ Z.of_nat (length chosen)
       = Z.min max_networks (Z.of_nat (length (List.filter valid networks))).
Proof.
  intros Hmax. cbn zeta.
  set (sorted := sorted_desc (List.filter valid networks)).
  assert (Hlen : length sorted = length (List.filter valid networks))
    by (apply Permutation_length, sorted_desc_perm).
  rewrite <- Hlen.
  destruct (Z.ltb_spec max_networks (Z.of_nat (length sorted))) as [Hcut|Hall].
  - unfold slice_to. destruct (Z.ltb_spec max_networks 0) as [|_]; [lia|].
    exists (skipn (Z.to_nat max_networks) sorted).
    split; [by rewrite firstn_skipn|].
    rewrite length_firstn. lia.
  - exists []. split; [by rewrite app_nil_r | lia].
Qed.

(** X27. The chart data for a non-negative [max_networks]: the three lists
    have one entry per chosen network, as many as there are networks with a
    signal reading but at most [max_networks]; the signals are in decreasing
    order; every label has at most 20 characters; and a network with a
    signal reading that is left out is no stronger than any bar shown. *)
Theorem prepare_signal_data_shape (networks : list network) (max_networks : Z) :
  0 <= max_networks ->
  let '(ssids, signal_strengths, types) :=
    prepare_signal_data networks max_networks in
  length ssids = length signal_strengths
  /\ length types = length signal_strengths
  /\ Z.of_nat (length signal_strengths)
     = Z.min max_networks (Z.of_nat (length (List.filter valid networks)))
  /\ StronglySorted (fun a b => b <= a) signal_strengths
  /\ Forall (fun s => (String.length s <= 20)%nat) ssids
  /\ forall n v, In n networks -> signal n = Some v ->
       In v signal_strengths \/ forall s, In s signal_strengths -> v <= s.
Proof.
  intros Hmax. unfold prepare_signal_data.
  destruct (chosen_split networks max_networks Hmax) as (dropped & Hsplit & Hlen).
  set (chosen := if max_networks <? _ then _ else _) in *.
  pose proof (sorted_desc_decreasing (List.filter valid networks)) as Hdec.
  rewrite Hsplit in Hdec. apply decreasing_app in Hdec as [Hdec Hcross].
  rewrite !length_map.
  split; [reflexivity|]. split; [reflexivity|]. split; [exact Hlen|].
  split; [by apply decreasing_keys|]. split.
  - apply List.Forall_forall. intros s Hs.
    apply in_map_iff in Hs as (n & <- & _). apply label_length.
  - intros n v Hn Hv.
    assert (Hin : In n (chosen ++ dropped)%list).
    { rewrite <- Hsplit.
      apply (Permutation_in _ (Permutation_sym (sorted_desc_perm _))).
      apply filter_In. split; [exact Hn|]. unfold valid. by rewrite Hv. }
    assert (Hkey : key n = v) by (unfold key; by rewrite Hv).
    apply in_app_or in Hin as [Hin|Hin].
    + left. rewrite <- Hkey. by apply in_map.
    + right. intros s Hs. apply in_map_iff in Hs as (m & <- & Hm).
      rewrite <- Hkey. by apply Hcross.
Qed.

Lemma prepare_signal_data_shape_witness :
  prepare_signal_data four_stations 2
  = (["Cafe"; "Hidden (AA:BB:CC:..."], [-40; -55], ["STANDARD"; "STANDARD"])
  /\ (In (-70) [-40; -55] \/ forall s, In s [-40; -55] -> -70 <= s).
Proof.
  split; [reflexivity|].
  pose proof (prepare_signal_data_shape four_stations 2) as H.
  change (prepare_signal_data four_stations 2)
    with (["Cafe"; "Hidden (AA:BB:CC:..."], [-40; -55],
          ["STANDARD"; "STANDARD"]) in H.
  destruct H as (_ & _ & _ & _ & _ & H); [lia|].
  apply (H (station "[Hidden Network]" "AA:BB:CC:00:00:01" (-70)));
    [by left | reflexivity].
Defined.

Lemma hidden_label (n : network) (b : string) :
  ssid n = Some "[Hidden Network]" ->
  bssid n = Some b ->
  String.length b = 17%nat ->
  label n = ("Hidden (" ++ substring 0 9 b ++ "...")%string.
Proof.
  intros Hs Hb Hlen. unfold label. rewrite Hs, Hb.
  do 17 (destruct b as [|? b]; [discriminate Hlen|];
         cbn [String.length] in Hlen; apply Nat.succ_inj in Hlen).
  destruct b; [|discriminate Hlen]. reflexivity.
Qed.

(** X28. The label of a hidden station with a 17-character address keeps
    only the first nine characters of the address: of "Hidden (<address>)",
    26 characters long, the first 17 are kept.  So two such stations get the
    same label exactly when their addresses agree on these nine
    characters. *)
Theorem hidden_labels_collide (n1 n2 : network) (b1 b2 : string) :
  ssid n1 = Some "[Hidden Network]" ->
  ssid n2 = Some "[Hidden Network]" ->
  bssid n1 = Some b1 ->
  bssid n2 = Some b2 ->
  String.length b1 = 17%nat ->
  String.length b2 = 17%nat ->
  label n1 = ("Hidden (" ++ substring 0 9 b1 ++ "...")%string
  /\ (label n1 = label n2 <-> substring 0 9 b1 = substring 0 9 b2).
Proof.
  intros Hs1 Hs2 Hb1 Hb2 Hl1 Hl2.
  rewrite (hidden_label n1 b1 Hs1 Hb1 Hl1), (hidden_label n2 b2 Hs2 Hb2 Hl2).
  split; [reflexivity|]. split; [|by intros ->].
  do 9 (destruct b1 as [|? b1]; [discriminate Hl1|];
        cbn [String.length] in Hl1; apply Nat.succ_inj in Hl1).
  do 9 (destruct b2 as [|? b2]; [discriminate Hl2|];
        cbn [String.length] in Hl2; apply Nat.succ_inj in Hl2).
  simpl.
  replace (substring 0 0 b1) with EmptyString by (by destruct b1).
  replace (substring 0 0 b2) with EmptyString by (by destruct b2).
  simpl. intros H. by simplify_eq.
Qed.

Lemma hidden_labels_collide_witness :
  label (station "[Hidden Network]" "AA:BB:CC:00:00:01" (-70))
  = label (station "[Hidden Network]" "AA:BB:CC:00:00:02" (-55)).
Proof.
  apply (hidden_labels_collide
           (station "[Hidden Network]" "AA:BB:CC:00:00:01" (-70))
           (station "[Hidden Network]" "AA:BB:CC:00:00:02" (-55))
           "AA:BB:CC:00:00:01" "AA:BB:CC:00:00:02");
    reflexivity.
Defined.

End SignalChartData.
